(** * PersonalScraper: storage backends and cleaning pipeline

    A shallow embedding of [src/storage.py] (the SQLite, JSON and CSV
    backends) and of [src/preprocessing.py] ([DataCleaner]), with the
    properties of the upsert, filter and cleaning logic proved over it.

    Records are Python dictionaries [Dict[str, Any]]: finite maps from field
    names to dynamically typed values.  Python's library functions that the
    code calls but does not define ([datetime.fromisoformat], the regular
    expression and NLTK passes of [TextPreprocessor.preprocess],
    [pandas.read_csv]) are section variables; the concrete instances used in
    the examples are given next to them. *)

From Stdlib Require Import ZArith QArith Qcanon Lia List Bool Ascii.
From stdpp Require Import gmap strings list numbers pretty.

(** ** Exceptions and results *)

Inductive exn :=
  | KeyError
  | TypeError
  | ValueError
  | IntegrityError
  | StatementError
  | EmptyDataError.

Inductive result (A : Type) :=
  | Ok (a : A)
  | Raise (e : exn).
Arguments Ok {A} a.
Arguments Raise {A} e.

#[global] Instance result_ret : MRet result := fun A a => Ok a.
#[global] Instance result_bind : MBind result := fun A B k m =>
  match m with
  | Ok a => k a
  | Raise e => Raise e
  end.

(** ** Python values *)

(** A float is the number it denotes.  The code never does arithmetic on a
    float: it stores it, copies it and compares it with [==], so only the
    value, infinity and NaN are distinguished (0.0 and -0.0 are equal for
    [==] and are one value here). *)
Inductive pyfloat :=
  | FNan
  | FInf (negative : bool)
  | FFin (q : Qc).

(** [datetime.datetime]: the calendar fields, and the UTC offset in seconds
    of an aware value ([None] for a naive one). *)
Record datetime := mk_datetime {
  dt_year : Z;
  dt_month : Z;
  dt_day : Z;
  dt_hour : Z;
  dt_minute : Z;
  dt_second : Z;
  dt_microsecond : Z;
  dt_utcoffset : option Z
}.

Inductive pyval :=
  | VNone
  | VBool (b : bool)
  | VInt (z : Z)
  | VFloat (f : pyfloat)
  | VStr (s : string)
  | VDate (d : datetime).

#[global] Instance pyfloat_eq_dec : EqDecision pyfloat.
Proof. solve_decision. Defined.
#[global] Instance datetime_eq_dec : EqDecision datetime.
Proof. solve_decision. Defined.
#[global] Instance pyval_eq_dec : EqDecision pyval.
Proof. solve_decision. Defined.
#[global] Instance exn_eq_dec : EqDecision exn.
Proof. solve_decision. Defined.

Module Datetime.
Local Open Scope Z_scope.

(** Days since 1970-01-01 of a proleptic Gregorian date. *)
Definition days_from_civil (y m d : Z) : Z :=
  let y' := if m <=? 2 then y - 1 else y in
  let era := y' / 400 in
  let yoe := y' - era * 400 in
  let mp := if m <=? 2 then m + 9 else m - 3 in
  let doy := (153 * mp + 2) / 5 + d - 1 in
  let doe := yoe * 365 + yoe / 4 - yoe / 100 + doy in
  era * 146097 + doe - 719468.

(** The instant of a datetime in microseconds; the wall-clock reading for a
    naive value, the UTC instant for an aware one. *)
Definition instant (t : datetime) : Z :=
  let days := days_from_civil (dt_year t) (dt_month t) (dt_day t) in
  let secs := ((days * 24 + dt_hour t) * 60 + dt_minute t) * 60 + dt_second t in
  (secs - default 0 (dt_utcoffset t)) * 1000000 + dt_microsecond t.

Definition aware (t : datetime) : bool :=
  match dt_utcoffset t with Some _ => true | None => false end.

(** [a == b]: a naive and an aware value are never equal. *)
Definition eqb (a b : datetime) : bool :=
  Bool.eqb (aware a) (aware b) && (instant a =? instant b).

(** [a < b] and [a > b]: comparing a naive with an aware value raises
    [TypeError]. *)
Definition lt (a b : datetime) : result bool :=
  if Bool.eqb (aware a) (aware b) then Ok (instant a <? instant b)
  else Raise TypeError.

Definition gt (a b : datetime) : result bool := lt b a.

Fixpoint zeros (n : nat) : string :=
  match n with
  | O => ""
  | S k => "0" +:+ zeros k
  end.

(** [format(z, "0wd")] for a non-negative [z]. *)
Definition zpad (w : nat) (z : Z) : string :=
  let s := pretty z in
  zeros (w - String.length s) +:+ s.

Definition date_text (t : datetime) : string :=
  zpad 4 (dt_year t) +:+ "-" +:+ zpad 2 (dt_month t) +:+ "-" +:+ zpad 2 (dt_day t).

Definition time_text (t : datetime) : string :=
  zpad 2 (dt_hour t) +:+ ":" +:+ zpad 2 (dt_minute t) +:+ ":" +:+ zpad 2 (dt_second t).

Definition offset_text (t : datetime) : string :=
  match dt_utcoffset t with
  | None => ""
  | Some o =>
      let a := Z.abs o in
      (if o <? 0 then "-" else "+") +:+ zpad 2 (a / 3600) +:+ ":" +:+ zpad 2 (a / 60 mod 60)
      +:+ (if a mod 60 =? 0 then "" else ":" +:+ zpad 2 (a mod 60))
  end.

(** [datetime.isoformat(sep)]: the fraction is printed only when the
    microsecond field is not zero. *)
Definition isoformat_sep (sep : string) (t : datetime) : string :=
  date_text t +:+ sep +:+ time_text t
  +:+ (if dt_microsecond t =? 0 then "" else "." +:+ zpad 6 (dt_microsecond t))
  +:+ offset_text t.

Definition isoformat : datetime -> string := isoformat_sep "T".
End Datetime.

(** ** Python's [==] and truth value *)

Definition float_eqb (x y : pyfloat) : bool :=
  match x, y with
  | FFin a, FFin b => bool_decide (a = b)
  | FInf s, FInf t => Bool.eqb s t
  | _, _ => false
  end.

(** The numeric tower: [bool] is a subclass of [int], and an [int] and a
    [float] are compared by value. *)
Definition py_num (v : pyval) : option pyfloat :=
  match v with
  | VBool b => Some (FFin (Qc_of_Z (Z.b2z b)))
  | VInt z => Some (FFin (Qc_of_Z z))
  | VFloat f => Some f
  | _ => None
  end.

Definition py_eq (a b : pyval) : bool :=
  match py_num a, py_num b with
  | Some x, Some y => float_eqb x y
  | None, None =>
      match a, b with
      | VNone, VNone => true
      | VStr s, VStr t => bool_decide (s = t)
      | VDate d, VDate e => Datetime.eqb d e
      | _, _ => false
      end
  | _, _ => false
  end.

(** [bool(v)], as [if v:] and [not v] evaluate it. *)
Definition truthy (v : pyval) : bool :=
  match v with
  | VNone => false
  | VBool b => b
  | VInt z => negb (z =? 0)%Z
  | VFloat (FFin q) => negb (bool_decide (q = 0%Qc))
  | VFloat _ => true
  | VStr s => negb (bool_decide (s = ""))
  | VDate _ => true
  end.

(** ** Records *)

(** A record is a [Dict[str, Any]]. *)
Abbreviation record := (gmap string pyval).

(** [r.get(k)]: [None] for a missing key. *)
Definition get (r : record) (k : string) : pyval := default VNone (r !! k).

(** [r[k]]: [KeyError] for a missing key. *)
Definition getitem (r : record) (k : string) : result pyval :=
  match r !! k with
  | Some v => Ok v
  | None => Raise KeyError
  end.

(** ** Insertion-ordered dictionaries with arbitrary hashable keys *)

(** A Python [dict] whose keys are values: the entries in insertion order.
    A lookup compares the stored keys with [==]; every value of [pyval] is
    hashable, so no [TypeError: unhashable type] arises.  (CPython first
    compares keys by object identity, which only matters for NaN: here two
    NaN keys are always two different keys, as they are for two separately
    created NaNs.) *)
Module PyDict.

(** [d[k] = v]: an equal key keeps its place and its first key object, and
    takes the new value; a new key goes last. *)
Fixpoint set {V} (d : list (pyval * V)) (k : pyval) (v : V) : list (pyval * V) :=
  match d with
  | [] => [(k, v)]
  | (k', v') :: d' =>
      if py_eq k' k then (k', v) :: d' else (k', v') :: set d' k v
  end.

(** [list(d.values())] *)
Definition values {V} (d : list (pyval * V)) : list V := d.*2.

End PyDict.

(** ** [preprocessing.py]: [DataCleaner] *)

(** Objects on the heap: a batch is a list of references to dictionaries.
    [clean_text_fields] copies every record, so aliasing is modelled for it. *)
Record heap := mk_heap {
  h_next : nat;
  h_obj : gmap nat record
}.

Definition deref (h : heap) (l : nat) : record := h_obj h !!! l.

Definition alloc (h : heap) (r : record) : nat * heap :=
  (h_next h, {| h_next := S (h_next h); h_obj := <[h_next h := r]> (h_obj h) |}).

(** [obj[k] = v] on the object at [l]. *)
Definition setitem (h : heap) (l : nat) (k : string) (v : pyval) : heap :=
  {| h_next := h_next h; h_obj := <[l := <[k := v]> (deref h l)]> (h_obj h) |}.

(** [item.copy()]: a new dictionary with the same entries. *)
Definition copy (h : heap) (item : nat) : nat * heap := alloc h (deref h item).

Section DataCleaner.

(** [datetime.fromisoformat]; [None] stands for [ValueError]. *)
Variable fromisoformat : string -> option datetime.

(** The passes of [TextPreprocessor.preprocess] after its guard: the regular
    expression substitutions, [word_tokenize], the stop-word filter and the
    stemmers, as configured. *)
Variable transform : string -> string.

(** [TextPreprocessor.preprocess]: the guard
    [if not text or not isinstance(text, str): return ""]. *)
Definition preprocess (text : pyval) : pyval :=
  match text with
  | VStr s => if truthy (VStr s) then VStr (transform s) else VStr ""
  | _ => VStr ""
  end.

(** [DataCleaner.remove_duplicates] *)
Definition remove_duplicates (data : list record) (key_field : string) : list record :=
  let unique_data :=
    fold_left
      (fun unique_data item =>
         match item !! key_field with
         | Some k => PyDict.set unique_data k item
         | None => unique_data
         end)
      data [] in
  PyDict.values unique_data.

(** [date_value < start_date] and [date_value > end_date], the bound being a
    [datetime]: any other kind of left operand raises [TypeError]. *)
Definition lt_date (date_value : pyval) (bound : datetime) : result bool :=
  match date_value with
  | VDate d => Datetime.lt d bound
  | _ => Raise TypeError
  end.

Definition gt_date (date_value : pyval) (bound : datetime) : result bool :=
  match date_value with
  | VDate d => Datetime.gt d bound
  | _ => Raise TypeError
  end.

(** One turn of the loop of [filter_by_date]: [Ok true] appends the item,
    [Ok false] is a [continue]. *)
Definition date_keep (date_field : string) (start_date end_date : option datetime)
    (item : record) : result bool :=
  match item !! date_field with
  | None => Ok false
  | Some date_value =>
      let parsed :=
        match date_value with
        | VStr s => VDate <$> fromisoformat s
        | _ => Some date_value
        end in
      match parsed with
      | None => Ok false
      | Some date_value =>
          below ← match start_date with
                  | Some s => lt_date date_value s
                  | None => Ok false
                  end;
          if (below : bool) then Ok false
          else
            above ← match end_date with
                    | Some e => gt_date date_value e
                    | None => Ok false
                    end;
            Ok (negb above)
      end
  end.

Fixpoint date_loop (date_field : string) (start_date end_date : option datetime)
    (data : list record) : result (list record) :=
  match data with
  | [] => Ok []
  | item :: rest =>
      keep ← date_keep date_field start_date end_date item;
      filtered ← date_loop date_field start_date end_date rest;
      Ok (if (keep : bool) then item :: filtered else filtered)
  end.

(** [DataCleaner.filter_by_date]; a [datetime] bound is always true, so
    [not start_date] holds exactly for [None]. *)
Definition filter_by_date (data : list record) (date_field : string)
    (start_date end_date : option datetime) : result (list record) :=
  match start_date, end_date with
  | None, None => Ok data
  | _, _ => date_loop date_field start_date end_date data
  end.

(** The inner loop of [clean_text_fields]: the fields are read from [item]
    and written to [cleaned_item]. *)
Definition clean_fields (item cleaned_item : nat) (text_fields : list string)
    (h : heap) : heap :=
  fold_left
    (fun h field =>
       match deref h item !! field with
       | Some v =>
           if truthy v then setitem h cleaned_item field (preprocess v) else h
       | None => h
       end)
    text_fields h.

(** One turn of the outer loop of [clean_text_fields]. *)
Definition clean_step (text_fields : list string) (st : heap * list nat) (item : nat)
    : heap * list nat :=
  let '(h, cleaned_data) := st in
  let '(cleaned_item, h) := copy h item in
  (clean_fields item cleaned_item text_fields h, cleaned_data ++ [cleaned_item]).

(** [DataCleaner.clean_text_fields] *)
Definition clean_text_fields (h : heap) (data : list nat) (text_fields : list string)
    : heap * list nat :=
  fold_left (clean_step text_fields) data (h, []).

End DataCleaner.

(** ** [storage.py]: filter maps *)

(** [if filters:] holds for a non-empty dictionary. *)
Definition filters_given (filters : option record) : option record :=
  match filters with
  | Some f => if decide (f = ∅) then None else Some f
  | None => None
  end.

(** ** [storage.py]: [JSONStorage] *)

Module JSONStorage.

(** What [json.load] reads back for a value written by
    [json.dump(..., default=self._datetime_serializer)]: a [datetime] comes
    back as its ISO text, everything else as it was. *)
Definition json_value (v : pyval) : pyval :=
  match v with
  | VDate d => VStr (Datetime.isoformat d)
  | _ => v
  end.

Definition json_record (r : record) : record := json_value <$> r.

(** One file: the list [json.load] returns for it. *)
Abbreviation file := (list record).

(** [{post['id']: post for post in existing}] and the loop
    [existing_posts_dict[post['id']] = post]. *)
Fixpoint index_by_id (d : list (pyval * record)) (posts : list record)
    : result (list (pyval * record)) :=
  match posts with
  | [] => Ok d
  | post :: rest =>
      k ← getitem post "id";
      index_by_id (PyDict.set d k post) rest
  end.

(** The body of [save_posts] and of [save_comments]: the new content of the
    file.  An exception is raised before the file is opened for writing, so
    [Raise] leaves the file as it was. *)
Definition save (existing : file) (posts : list record) : result file :=
  existing_posts_dict ← index_by_id [] existing;
  existing_posts_dict ← index_by_id existing_posts_dict posts;
  Ok (json_record <$> PyDict.values existing_posts_dict).

(** [all(post.get(key) == value for key, value in filters.items())] *)
Definition matches (post : record) (filters : record) : bool :=
  forallb (fun '(key, value) => py_eq (get post key) value) (map_to_list filters).

(** The body of [get_posts] and of [get_comments]. *)
Definition select (posts : file) (filters : option record) : list record :=
  match filters_given filters with
  | Some f => filter (fun post => matches post f) posts
  | None => posts
  end.

Record t := mk {
  posts_file : file;
  comments_file : file
}.

Definition save_posts (st : t) (posts : list record) : result t :=
  f ← save (posts_file st) posts;
  Ok {| posts_file := f; comments_file := comments_file st |}.

Definition save_comments (st : t) (comments : list record) : result t :=
  f ← save (comments_file st) comments;
  Ok {| posts_file := posts_file st; comments_file := f |}.

Definition get_posts (st : t) (filters : option record) : list record :=
  select (posts_file st) filters.

Definition get_comments (st : t) (filters : option record) : list record :=
  select (comments_file st) filters.

(** [JSONStorage.__init__] on a fresh directory writes two empty arrays. *)
Definition init : t := {| posts_file := []; comments_file := [] |}.

End JSONStorage.

(** ** [storage.py]: [CSVStorage] *)

Module CSVStorage.

(** A [pandas.DataFrame]: the column labels and the rows; a cell a row has
    no entry for is missing (NaN).  The order of the columns is not kept: no
    operation below depends on it. *)
Record frame := mk_frame {
  columns : gset string;
  rows : list record
}.

Definition nan : pyval := VFloat FNan.

(** [pandas.isna] *)
Definition isna (v : pyval) : bool :=
  match v with
  | VNone | VFloat FNan => true
  | _ => false
  end.

Definition cell (row : record) (c : string) : pyval := default nan (row !! c).

(** [pd.DataFrame(posts)]: one column per key that occurs in a record. *)
Definition DataFrame (posts : list record) : frame :=
  {| columns := ⋃ (dom <$> posts); rows := posts |}.

(** [pd.concat([a, b])] *)
Definition concat (a b : frame) : frame :=
  {| columns := columns a ∪ columns b; rows := rows a ++ rows b |}.

(** Two cells are duplicates of each other when they are equal or both
    missing. *)
Definition same_key (a b : pyval) : bool := (isna a && isna b) || py_eq a b.

Fixpoint keep_last (key : string) (rs : list record) : list record :=
  match rs with
  | [] => []
  | row :: rest =>
      if existsb (fun later => same_key (cell row key) (cell later key)) rest
      then keep_last key rest
      else row :: keep_last key rest
  end.

(** [df.drop_duplicates(subset=[key], keep='last')]; a label that is not a
    column raises [KeyError]. *)
Definition drop_duplicates (df : frame) (key : string) : result frame :=
  if decide (key ∈ columns df)
  then Ok {| columns := columns df; rows := keep_last key (rows df) |}
  else Raise KeyError.

(** [df[key] == value], for one cell: a missing cell equals nothing. *)
Definition series_eq (c value : pyval) : bool :=
  if isna c || isna value then false else py_eq c value.

(** [df.to_dict('records')]: every record has every column. *)
Definition to_record (cols : gset string) (row : record) : record :=
  map_imap (fun c _ => Some (cell row c)) (gset_to_gmap tt cols).

Definition to_dict (df : frame) : list record :=
  to_record (columns df) <$> rows df.

(** [if key in df.columns: df = df[df[key] == value]] *)
Definition filter_step (df : frame) (kv : string * pyval) : frame :=
  if decide (kv.1 ∈ columns df)
  then {| columns := columns df;
          rows := filter (fun row => series_eq (cell row kv.1) kv.2) (rows df) |}
  else df.

Section Backend.

(** [pd.read_csv] applied to the file [DataFrame.to_csv(path, index=False)]
    wrote for a frame. *)
Variable read_csv : frame -> result frame.

(** A file that exists holds the frame that was written to it. *)
Abbreviation file := (option frame).

(** The body of [save_posts] and of [save_comments]: the new content of the
    file.  An exception is raised before [to_csv] is called, so [Raise]
    leaves the file as it was. *)
Definition save (f : file) (posts : list record) : result file :=
  let df := DataFrame posts in
  match f with
  | Some written =>
      existing_df ← read_csv written;
      combined_df ← drop_duplicates (concat existing_df df) "id";
      Ok (Some combined_df)
  | None => Ok (Some df)
  end.

(** The body of [get_posts] and of [get_comments]. *)
Definition select (f : file) (filters : option record) : result (list record) :=
  match f with
  | None => Ok []
  | Some written =>
      df ← read_csv written;
      let df :=
        match filters_given filters with
        | Some fs => fold_left filter_step (map_to_list fs) df
        | None => df
        end in
      Ok (to_dict df)
  end.

Record t := mk {
  posts_file : file;
  comments_file : file
}.

Definition save_posts (st : t) (posts : list record) : result t :=
  f ← save (posts_file st) posts;
  Ok {| posts_file := f; comments_file := comments_file st |}.

Definition save_comments (st : t) (comments : list record) : result t :=
  f ← save (comments_file st) comments;
  Ok {| posts_file := posts_file st; comments_file := f |}.

Definition get_posts (st : t) (filters : option record) : result (list record) :=
  select (posts_file st) filters.

Definition get_comments (st : t) (filters : option record) : result (list record) :=
  select (comments_file st) filters.

End Backend.

(** [CSVStorage.__init__] creates the directory and no file. *)
Definition init : t := {| posts_file := None; comments_file := None |}.

End CSVStorage.

(** ** A model of the CSV text round trip of pandas *)

(** [pandas.read_csv(path)] with its default arguments, applied to what
    [DataFrame.to_csv(path, index=False)] wrote: the dtype of every column
    is inferred again from the text of its cells.  Covered: missing cells,
    the default NA words, integer literals, the boolean words, plain text
    and the text of a [datetime].  Not covered, and left as they are: the
    decimal text of a float that lands in a text column, text that reads as
    a float literal, integers outside 64 bits, and the shorter date-only and
    padded-fraction forms pandas picks for a whole [datetime64] column. *)
Module Pandas.
Import CSVStorage.

Definition na_words : list string :=
  [ ""; "#N/A"; "#N/A N/A"; "#NA"; "-1.#IND"; "-1.#QNAN"; "-NaN"; "-nan";
    "1.#IND"; "1.#QNAN"; "<NA>"; "N/A"; "NA"; "NULL"; "NaN"; "None"; "n/a";
    "nan"; "null" ].

Definition digit_of (a : Ascii.ascii) : option Z :=
  let n := Z.of_N (Ascii.N_of_ascii a) in
  if ((48 <=? n) && (n <=? 57))%Z then Some (n - 48)%Z else None.

Fixpoint parse_digits (acc : Z) (s : string) : option Z :=
  match s with
  | EmptyString => Some acc
  | String a s' => d ← digit_of a; parse_digits (acc * 10 + d)%Z s'
  end.

(** An integer literal: an optional sign and at least one digit. *)
Definition parse_int (s : string) : option Z :=
  match s with
  | EmptyString => None
  | String a s' =>
      if decide (a = "-"%char) then
        (if decide (s' = "") then None else Z.opp <$> parse_digits 0 s')
      else if decide (a = "+"%char) then
        (if decide (s' = "") then None else parse_digits 0 s')
      else parse_digits 0 s
  end.

Definition parse_bool (s : string) : option bool :=
  if bool_decide (s ∈ ["True"; "TRUE"; "true"]) then Some true
  else if bool_decide (s ∈ ["False"; "FALSE"; "false"]) then Some false
  else None.

(** The text [to_csv] writes for a cell; [None] for a float other than NaN. *)
Definition text_of (v : pyval) : option string :=
  match v with
  | VNone | VFloat FNan => Some ""
  | VBool b => Some (if b then "True" else "False")
  | VInt z => Some (pretty z)
  | VStr s => Some s
  | VDate d => Some (Datetime.isoformat_sep " " d)
  | VFloat _ => None
  end.

Inductive token :=
  | TNa
  | TInt (z : Z)
  | TFloat (f : pyfloat)
  | TBool (b : bool)
  | TText.

(** How the parser reads the text of one cell. *)
Definition token_of (v : pyval) : token :=
  match text_of v with
  | None => match v with VFloat f => TFloat f | _ => TText end
  | Some s =>
      if bool_decide (s ∈ na_words) then TNa
      else match parse_int s with
           | Some z => TInt z
           | None => match parse_bool s with
                     | Some b => TBool b
                     | None => TText
                     end
           end
  end.

Inductive dtype := DInt | DFloat | DBool | DObject.

Definition infer (ts : list token) : dtype :=
  if forallb (fun t => match t with TNa => true | _ => false end) ts then DFloat
  else if forallb (fun t => match t with TInt _ => true | _ => false end) ts then DInt
  else if forallb (fun t => match t with TInt _ | TFloat _ | TNa => true | _ => false end) ts
  then DFloat
  else if forallb (fun t => match t with TBool _ | TNa => true | _ => false end) ts
  then DBool
  else DObject.

Definition read_cell (dt : dtype) (v : pyval) : pyval :=
  match token_of v, dt with
  | TNa, _ => nan
  | TInt z, DInt => VInt z
  | TInt z, DFloat => VFloat (FFin (Qc_of_Z z))
  | TFloat f, DFloat => VFloat f
  | TBool b, DBool => VBool b
  | _, _ => match text_of v with Some s => VStr s | None => v end
  end.

Definition column_dtype (df : frame) (c : string) : dtype :=
  infer ((fun row => token_of (cell row c)) <$> rows df).

Definition read_row (df : frame) (row : record) : record :=
  map_imap (fun c _ => Some (read_cell (column_dtype df c) (cell row c)))
    (gset_to_gmap tt (columns df)).

(** A file with no column at all has nothing to parse. *)
Definition read_csv (df : frame) : result frame :=
  if decide (columns df = ∅) then Raise EmptyDataError
  else Ok {| columns := columns df; rows := read_row df <$> rows df |}.

End Pandas.

(** ** [storage.py]: [SQLiteStorage] *)

(** The SQLAlchemy session over SQLite, as far as the backend uses it: two
    tables, one transaction, the unit of work flushed before every query and
    at commit.  SQLite is dynamically typed: outside [DateTime] and
    [Boolean], whose values SQLAlchemy converts itself, a value is stored as
    it is given (SQLite's affinity conversions of a value whose type differs
    from its column's are not modelled).  Between two calls of the backend
    the session has no pending object: [save_posts] and [save_comments] end
    in [commit()] or in [rollback()], and the queries of [get_posts] and
    [get_comments] find nothing to flush. *)
Module SQLiteStorage.

Inductive coltype := String_ | Text | Integer | Float | Boolean | DateTime.

Record column := mk_column {
  name : string;
  type : coltype;
  nullable : bool
}.

(** [class Post(Base)] *)
Definition Post : list column :=
  [ mk_column "id" String_ false;
    mk_column "title" String_ false;
    mk_column "author" String_ false;
    mk_column "created_utc" DateTime false;
    mk_column "score" Integer false;
    mk_column "upvote_ratio" Float true;
    mk_column "num_comments" Integer false;
    mk_column "url" String_ false;
    mk_column "selftext" Text true;
    mk_column "is_self" Boolean false;
    mk_column "permalink" String_ false;
    mk_column "flair" String_ true;
    mk_column "domain" String_ true;
    mk_column "is_video" Boolean true;
    mk_column "is_original_content" Boolean true;
    mk_column "subreddit" String_ false ].

(** [class Comment(Base)]; SQLite does not enforce the foreign key of
    [post_id] unless asked to, and the backend does not ask. *)
Definition Comment : list column :=
  [ mk_column "id" String_ false;
    mk_column "post_id" String_ false;
    mk_column "parent_id" String_ false;
    mk_column "author" String_ false;
    mk_column "created_utc" DateTime false;
    mk_column "score" Integer false;
    mk_column "body" Text false;
    mk_column "permalink" String_ true;
    mk_column "depth" Integer true;
    mk_column "is_submitter" Boolean true;
    mk_column "subreddit" String_ false ].

Definition names (cols : list column) : list string := name <$> cols.

(** The value a column gives back for a value bound to it.  [DateTime]
    accepts only a [datetime] and stores its fields without the offset;
    [Boolean] accepts what equals [True] or [False]; a refusal surfaces as
    [StatementError]. *)
Definition bind (ty : coltype) (v : pyval) : result pyval :=
  match ty, v with
  | _, VNone => Ok VNone
  | DateTime, VDate d =>
      Ok (VDate (mk_datetime (dt_year d) (dt_month d) (dt_day d) (dt_hour d)
                   (dt_minute d) (dt_second d) (dt_microsecond d) None))
  | DateTime, _ => Raise StatementError
  | Boolean, _ =>
      if py_eq v (VInt 0) || py_eq v (VInt 1) then Ok (VBool (truthy v))
      else Raise StatementError
  | _, _ => Ok v
  end.

(** [column = value] in a [WHERE] clause, [value] being a bound parameter
    ([column IS NULL] for [None]). *)
Definition sql_eq (stored target : pyval) : bool := py_eq stored target.

Abbreviation table := (list record).

(** What the unit of work holds between two flushes. *)
Inductive pending :=
  | Clean
  | Insert (obj : record)
  | Update (rowid : nat) (changes : record).

(** The parameters of a statement: the listed columns, each with its value
    bound. *)
Fixpoint bind_all (cols : list column) (obj : record) : result (list (string * pyval)) :=
  match cols with
  | [] => Ok []
  | c :: rest =>
      v ← bind (type c) (get obj (name c));
      params ← bind_all rest obj;
      Ok ((name c, v) :: params)
  end.

(** The [NOT NULL] constraints. *)
Fixpoint not_null (cols : list column) (row : record) : result unit :=
  match cols with
  | [] => Ok tt
  | c :: rest =>
      if negb (nullable c) && bool_decide (get row (name c) = VNone)
      then Raise IntegrityError
      else not_null rest row
  end.

Definition changed (cols : list column) (changes : record) : list column :=
  filter (fun c => is_Some (changes !! name c)) cols.

(** The [INSERT] or [UPDATE] a flush emits for the pending object, on the
    rows of the object's table. *)
Definition flush_rows (cols : list column) (rows : table) (p : pending) : result table :=
  match p with
  | Clean => Ok rows
  | Insert obj =>
      params ← bind_all cols obj;
      let row : record := list_to_map params in
      _ ← not_null cols row;
      Ok (rows ++ [row])
  | Update rowid changes =>
      params ← bind_all (changed cols changes) changes;
      let row : record := list_to_map params ∪ default ∅ (rows !! rowid) in
      _ ← not_null (changed cols changes) row;
      Ok (<[rowid := row]> rows)
  end.

(** [session.query(Post).filter_by(id=k).first()], after the flush *)
Definition first_by_id (rows : table) (k : pyval) : option nat :=
  fst <$> list_find (fun row => sql_eq (get row "id") k) rows.

Record db := mk_db {
  posts : table;
  comments : table
}.

(** [self.session]: [stored] is what the database holds, committed; [txn]
    is what the open transaction sees, the committed rows with the writes
    flushed since the last [commit()] or [rollback()]. *)
Record session := mk_session {
  stored : db;
  txn : db
}.

(** A session with no write open, over a database that holds [d]. *)
Definition at_rest (d : db) : session := {| stored := d; txn := d |}.

(** The two mapped classes. *)
Inductive mapped := PostClass | CommentClass.

Definition columns_of (m : mapped) : list column :=
  match m with
  | PostClass => Post
  | CommentClass => Comment
  end.

Definition table_of (m : mapped) (d : db) : table :=
  match m with
  | PostClass => posts d
  | CommentClass => comments d
  end.

Definition set_table (m : mapped) (rows : table) (d : db) : db :=
  match m with
  | PostClass => {| posts := rows; comments := comments d |}
  | CommentClass => {| posts := posts d; comments := rows |}
  end.

(** [session.flush()], the pending object [p] being of class [m]: its
    statement runs in the open transaction.  When it raises, the session
    and the pending object are left to [rollback()]: they are kept as they
    were before the flush.  (SQLAlchemy has by then undone the writes of the
    transaction in the database itself and refuses every use of the session
    but [rollback()]; the code calls [rollback()] next in either case.) *)
Definition flush (m : mapped) (s : session) (p : pending) : result session :=
  rows ← flush_rows (columns_of m) (table_of m (txn s)) p;
  Ok {| stored := stored s; txn := set_table m rows (txn s) |}.

(** The [for] loop of [save_posts] ([m] is [PostClass]) and of
    [save_comments] ([m] is [CommentClass]).  The result is the session and
    the pending object as the loop leaves them, at its end or at the
    statement that raises, and what that statement raises.  The query
    flushes the pending object first.  [setattr] on a name that is no
    column sets a plain attribute, which is never written; the constructor
    refuses such a name with [TypeError]. *)
Fixpoint save_loop (m : mapped) (s : session) (p : pending) (posts : list record)
    : session * pending * result unit :=
  match posts with
  | [] => (s, p, Ok tt)
  | post_data :: rest =>
      match getitem post_data "id" with
      | Raise e => (s, p, Raise e)
      | Ok k =>
          match flush m s p with
          | Raise e => (s, p, Raise e)
          | Ok s =>
              match first_by_id (table_of m (txn s)) k with
              | Some rowid =>
                  save_loop m s
                    (Update rowid (filter (fun kv => kv.1 ∈ names (columns_of m)) post_data))
                    rest
              | None =>
                  if decide (dom post_data ⊆ list_to_set (names (columns_of m)))
                  then save_loop m s (Insert post_data) rest
                  else (s, Clean, Raise TypeError)
              end
          end
      end
  end.

(** [session.commit()]: the pending object is flushed and the transaction
    committed. *)
Definition commit (m : mapped) (s : session) (p : pending)
    : session * pending * result unit :=
  match flush m s p with
  | Ok s => (at_rest (txn s), Clean, Ok tt)
  | Raise e => (s, p, Raise e)
  end.

(** [session.rollback()]: the writes of the open transaction are undone and
    the pending object is dropped from the session. *)
Definition rollback (s : session) (p : pending) : session := at_rest (stored s).

(** The [try] block of [save_posts] and of [save_comments]: the loop, then
    [session.commit()]. *)
Definition try_save (m : mapped) (s : session) (posts : list record)
    : session * pending * result unit :=
  let '(s, p, r) := save_loop m s Clean posts in
  match r with
  | Ok _ => commit m s p
  | Raise e => (s, p, Raise e)
  end.

(** [try: ... except Exception: self.session.rollback(); raise] *)
Definition save_posts (s : session) (posts : list record) : session * result unit :=
  let '(s, p, r) := try_save PostClass s posts in
  match r with
  | Ok _ => (s, Ok tt)
  | Raise e => (rollback s p, Raise e)
  end.

Definition save_comments (s : session) (comments : list record) : session * result unit :=
  let '(s, p, r) := try_save CommentClass s comments in
  match r with
  | Ok _ => (s, Ok tt)
  | Raise e => (rollback s p, Raise e)
  end.

(** [if hasattr(Post, key): query = query.filter(getattr(Post, key) == value)];
    of the attributes of the mapped class, the columns are modelled. *)
Definition filter_step (cols : list column) (rows : table) (kv : string * pyval) : table :=
  if decide (kv.1 ∈ names cols)
  then filter (fun row => sql_eq (get row kv.1) kv.2) rows
  else rows.

(** [{column.name: getattr(post, column.name) for column in post.__table__.columns}] *)
Definition to_dict (cols : list column) (row : record) : record :=
  list_to_map ((fun c => (name c, get row (name c))) <$> cols).

Definition select (cols : list column) (rows : table) (filters : option record)
    : list record :=
  let rows :=
    match filters_given filters with
    | Some fs => fold_left (filter_step cols) (map_to_list fs) rows
    | None => rows
    end in
  to_dict cols <$> rows.

Definition get_posts (s : session) (filters : option record) : list record :=
  select Post (posts (txn s)) filters.

Definition get_comments (s : session) (filters : option record) : list record :=
  select Comment (comments (txn s)) filters.

(** [SQLiteStorage.__init__] on a new database file: [create_all] and an
    empty session. *)
Definition init : session := at_rest {| posts := []; comments := [] |}.

End SQLiteStorage.


(** * Notions used in the statements *)

(** A dictionary filled from a list of entries, one assignment each. *)
Definition build {V} (d : list (pyval * V)) (l : list (pyval * V)) : list (pyval * V) :=
  fold_left (fun d e => PyDict.set d e.1 e.2) l d.

(** The entries a batch contributes to a dictionary keyed by a field. *)
Definition keyed (key_field : string) (data : list record) : list (pyval * record) :=
  omap (fun item => k ← item !! key_field; Some (k, item)) data.

(** No two stored keys are equal. *)
Fixpoint distinct_keys {V} (d : list (pyval * V)) : Prop :=
  match d with
  | [] => True
  | e :: d' => Forall (fun e' => py_eq e.1 e'.1 = false) d' /\ distinct_keys d'
  end.

(** A stored key stands for the key it was first stored under, and for every
    key equal to it. *)
Definition stands_for (stored k : pyval) : Prop := stored = k \/ py_eq stored k = true.

(** [item] stands in [data] at a place no record with an equal key follows. *)
Definition last_of_its_key (key_field : string) (data : list record) (item : record) : Prop :=
  exists pre suf k,
    data = pre ++ item :: suf /\ item !! key_field = Some k /\
    forall item' k', item' ∈ suf -> item' !! key_field = Some k' -> py_eq k k' = false.

(** The timestamp [filter_by_date] compares for a record: the field itself
    when it holds a [datetime], its parse when it holds text. *)
Definition date_value (fromisoformat : string -> option datetime)
    (date_field : string) (item : record) : option datetime :=
  match item !! date_field with
  | Some (VStr s) => fromisoformat s
  | Some (VDate d) => Some d
  | _ => None
  end.

(** The timestamp field holds text that does not parse. *)
Definition unparsable (fromisoformat : string -> option datetime)
    (date_field : string) (item : record) : Prop :=
  exists s, item !! date_field = Some (VStr s) /\ fromisoformat s = None.

(** The timestamp of the record equals [T] (Python's [==]). *)
Definition date_is (fromisoformat : string -> option datetime)
    (date_field : string) (T : datetime) (item : record) : bool :=
  match date_value fromisoformat date_field item with
  | Some d => Datetime.eqb d T
  | None => false
  end.

(** The timestamp of the record lies in the inclusive window. *)
Definition in_window (fromisoformat : string -> option datetime)
    (date_field : string) (start_date end_date : option datetime)
    (item : record) : bool :=
  match date_value fromisoformat date_field item with
  | Some d =>
      negb (from_option (fun s => Datetime.instant d <? Datetime.instant s)%Z false start_date)
      && negb (from_option (fun e => Datetime.instant e <? Datetime.instant d)%Z false end_date)
  | None => false
  end.

(** The timestamp field, when present, holds text or a [datetime], and the
    [datetime] it holds or parses to is naive exactly when the bounds are. *)
Definition comparable (fromisoformat : string -> option datetime)
    (date_field : string) (start_date end_date : option datetime)
    (item : record) : bool :=
  let agrees d :=
    forallb (fun b => Bool.eqb (Datetime.aware d) (Datetime.aware b))
      (option_list start_date ++ option_list end_date) in
  match item !! date_field with
  | None => true
  | Some (VStr s) => from_option agrees true (fromisoformat s)
  | Some (VDate d) => agrees d
  | Some _ => false
  end.

(** The bounds that are supplied are both naive or both aware. *)
Definition bounds_agree (start_date end_date : option datetime) : Prop :=
  forall s e, start_date = Some s -> end_date = Some e ->
    Datetime.aware s = Datetime.aware e.

(** The fragment of [datetime.fromisoformat] on the 19-character form
    [YYYY-MM-DD?HH:MM:SS], with any separator between date and time. *)
Definition fromisoformat_seconds (s : string) : option datetime :=
  let num a n := Pandas.parse_digits 0 (String.substring a n s) in
  let within lo hi (z : Z) := if ((lo <=? z) && (z <=? hi))%Z then Some z else None in
  if negb (String.length s =? 19)%nat then None
  else if negb (bool_decide (String.substring 4 1 s = "-" /\ String.substring 7 1 s = "-"
                             /\ String.substring 13 1 s = ":"
                             /\ String.substring 16 1 s = ":")) then None
  else
    y ← num 0%nat 4%nat ≫= within 1%Z 9999%Z;
    m ← num 5%nat 2%nat ≫= within 1%Z 12%Z;
    d ← num 8%nat 2%nat ≫= within 1%Z 31%Z;
    hh ← num 11%nat 2%nat ≫= within 0%Z 23%Z;
    mm ← num 14%nat 2%nat ≫= within 0%Z 59%Z;
    ss ← num 17%nat 2%nat ≫= within 0%Z 59%Z;
    Some (mk_datetime y m d hh mm ss 0 None).

(** C6 as the specification words it: with both bounds at [T], the result is
    the list of the records whose timestamp equals [T]. *)
Definition keeps_exactly (fromisoformat : string -> option datetime)
    (date_field : string) (T : datetime) (data : list record) : Prop :=
  filter_by_date fromisoformat data date_field (Some T) (Some T)
  = Ok (filter (fun item => date_is fromisoformat date_field T item) data).

(** ** Sample data *)

Definition noon : datetime := mk_datetime 2024 1 15 12 0 0 0 None.
Definition evening : datetime := mk_datetime 2024 1 15 19 30 0 0 None.

(** A record that carries the platform's raw epoch seconds. *)
Definition epoch_post : record :=
  {[ "id" := VStr "t3abc"; "created_utc" := VInt 1705320000 ]}.

Definition dated_batch : list record :=
  [ {[ "id" := VStr "a"; "created_utc" := VDate noon ]};
    {[ "id" := VStr "b"; "created_utc" := VStr "2024-01-15T12:00:00" ]};
    {[ "id" := VStr "c"; "created_utc" := VStr "yesterday" ]};
    {[ "id" := VStr "d"; "created_utc" := VDate evening ]};
    {[ "id" := VStr "e" ]} ].

(** The record [clean_text_fields] builds on a copy [cleaned_item] of a
    record whose content is [item]. *)
Definition cleaned (transform : string -> string) (text_fields : list string)
    (item cleaned_item : record) : record :=
  fold_left
    (fun c field =>
       match item !! field with
       | Some v => if truthy v then <[field := preprocess transform v]> c else c
       | None => c
       end)
    text_fields cleaned_item.

(** A heap with three posts, and the batch that lists them (one of them
    twice). *)
Definition sample_heap : heap :=
  {| h_next := 3;
     h_obj := {[ 0%nat := {[ "id" := VStr "a"; "title" := VStr "Hello World"; "score" := VInt 3 ]};
                 1%nat := {[ "id" := VStr "b"; "title" := VStr ""; "score" := VInt 0 ]};
                 2%nat := {[ "id" := VStr "c"; "score" := VInt 7 ]} ]} |}.

Definition sample_refs : list nat := [0; 1; 2; 0]%nat.

(** A text transform for the examples: ASCII lower-casing. *)
Definition lower_char (a : Ascii.ascii) : Ascii.ascii :=
  let n := Ascii.nat_of_ascii a in
  if (65 <=? n)%nat && (n <=? 90)%nat then Ascii.ascii_of_nat (n + 32) else a.

Fixpoint lower (s : string) : string :=
  match s with
  | EmptyString => EmptyString
  | String a s' => String (lower_char a) (lower s')
  end.

(** The identifier of a record is text, as the data model has it. *)
Definition has_string_id (r : record) : Prop := exists s, r !! "id" = Some (VStr s).

(** The filter map [{'id': s}]. *)
Definition by_id (s : string) : option record := Some {[ "id" := VStr s ]}.



(** A record saved without a score, and the CSV storage that holds it. *)
Definition scoreless_post : record :=
  {[ "id" := VStr "t3abc"; "title" := VStr "Hello" ]}.

Definition scoreless_csv : CSVStorage.t :=
  {| CSVStorage.posts_file := Some (CSVStorage.DataFrame [scoreless_post]);
     CSVStorage.comments_file := None |}.


(** C8 as the specification words it, for the JSON backend: a record that
    lacks a field the filter map names does not match. *)
Definition missing_field_excluded_json (post filters : record) : Prop :=
  forall key value,
    filters !! key = Some value -> post !! key = None ->
    JSONStorage.matches post filters = false.

Definition scoreless_json : JSONStorage.t :=
  {| JSONStorage.posts_file := [scoreless_post]; JSONStorage.comments_file := [] |}.

(** A post as the scraper builds it: all sixteen fields, no flair, an empty
    self-text. *)
Definition full_post (id : string) (score : Z) : record :=
  list_to_map
    [ ("id", VStr id);
      ("title", VStr "Hello World");
      ("author", VStr "alice");
      ("created_utc", VDate noon);
      ("score", VInt score);
      ("upvote_ratio", VFloat (FFin (Q2Qc (97 # 100)%Q)));
      ("num_comments", VInt 4);
      ("url", VStr "https://example.org/a");
      ("selftext", VStr "");
      ("is_self", VBool false);
      ("permalink", VStr "/r/x/comments/a");
      ("flair", VNone);
      ("domain", VStr "example.org");
      ("is_video", VBool false);
      ("is_original_content", VBool false);
      ("subreddit", VStr "x") ].

(** A post without a title, which the [posts] table refuses. *)
Definition untitled_post (id : string) : record := delete "title" (full_post id 1).

#[global] Instance result_eq_dec {A} `{EqDecision A} : EqDecision (result A).
Proof. solve_decision. Defined.

(** The column takes the value and gives it back unchanged. *)
Definition accepts (c : SQLiteStorage.column) (v : pyval) : bool :=
  bool_decide (SQLiteStorage.bind (SQLiteStorage.type c) v = Ok v)
  && (SQLiteStorage.nullable c || negb (bool_decide (v = VNone))).

(** Every field the record supplies for a column is one the column accepts. *)
Definition valid_update (cols : list SQLiteStorage.column) (p : record) : bool :=
  forallb (fun c => from_option (accepts c) true (p !! SQLiteStorage.name c)) cols.

(** The record has no field outside the schema and gives every column a
    value it accepts (none, for a nullable column it leaves out). *)
Definition valid_insert (cols : list SQLiteStorage.column) (p : record) : bool :=
  bool_decide (dom p ⊆ list_to_set (SQLiteStorage.names cols))
  && forallb (fun c => accepts c (get p (SQLiteStorage.name c))) cols.

(** The primary key: no two rows have the same identifier. *)
Definition pk_unique (t : list record) : Prop :=
  forall i j r1 r2,
    t !! i = Some r1 -> t !! j = Some r2 -> get r1 "id" = get r2 "id" -> i = j.

(** The row an [UPDATE] leaves: the columns the record supplies, over the
    row as it was. *)
Definition merged (cols : list SQLiteStorage.column) (p old : record) : record :=
  let changes := filter (fun kv => kv.1 ∈ SQLiteStorage.names cols) p in
  SQLiteStorage.to_dict (SQLiteStorage.changed cols changes) changes ∪ old.

(** ** Notions used in the further properties *)

(** No two records of the list have equal values in the field. *)
Definition distinct_field (field : string) (l : list record) : Prop :=
  forall i j r1 r2 k1 k2,
    l !! i = Some r1 -> l !! j = Some r2 ->
    r1 !! field = Some k1 -> r2 !! field = Some k2 ->
    py_eq k1 k2 = true -> i = j.

(** Every value of the record is one JSON has: no [datetime]. *)
Definition json_clean (r : record) : Prop :=
  map_Forall (fun _ v => JSONStorage.json_value v = v) r.

(** A JSON storage that holds two posts. *)
Definition two_posts_json : JSONStorage.t :=
  {| JSONStorage.posts_file :=
       [ JSONStorage.json_record (full_post "a1" 5);
         JSONStorage.json_record (full_post "b2" 7) ];
     JSONStorage.comments_file := [] |}.

(** A session over a database that holds two posts. *)
Definition two_posts_db : SQLiteStorage.session :=
  SQLiteStorage.at_rest
    {| SQLiteStorage.posts := [full_post "a1" 5; full_post "b2" 7];
       SQLiteStorage.comments := [] |}.


(** A comment as the scraper builds it. *)
Definition full_comment (id post_id : string) : record :=
  list_to_map
    [ ("id", VStr id);
      ("post_id", VStr post_id);
      ("parent_id", VStr post_id);
      ("author", VStr "bob");
      ("created_utc", VDate evening);
      ("score", VInt 2);
      ("body", VStr "Nice post");
      ("permalink", VStr "/r/x/comments/a/c");
      ("depth", VInt 0);
      ("is_submitter", VBool false);
      ("subreddit", VStr "x") ].

(** The rows the [try] block of a save leaves in the table it writes to, or
    what it raises: [SQLiteStorage.try_save] seen from its table alone (the
    two agree, see [try_save_rows]). *)
Fixpoint rows_saved (cols : list SQLiteStorage.column) (rows : list record)
    (p : SQLiteStorage.pending) (posts : list record) : result (list record) :=
  match posts with
  | [] => SQLiteStorage.flush_rows cols rows p
  | post_data :: rest =>
      k ← getitem post_data "id";
      rows ← SQLiteStorage.flush_rows cols rows p;
      p ← match SQLiteStorage.first_by_id rows k with
          | Some rowid =>
              Ok (SQLiteStorage.Update rowid
                    (filter (fun kv => kv.1 ∈ SQLiteStorage.names cols) post_data))
          | None =>
              if decide (dom post_data ⊆ list_to_set (SQLiteStorage.names cols))
              then Ok (SQLiteStorage.Insert post_data)
              else Raise TypeError
          end;
      rows_saved cols rows p rest
  end.

(** What the unit of work may hold for a table with unique identifiers: a
    new object whose identifier no row has, or changes to a row under the
    row's own identifier. *)
Definition pending_ok (t : list record) (p : SQLiteStorage.pending) : Prop :=
  match p with
  | SQLiteStorage.Clean => True
  | SQLiteStorage.Insert obj =>
      exists s, obj !! "id" = Some (VStr s) /\ forall r, r ∈ t -> get r "id" <> VStr s
  | SQLiteStorage.Update i changes =>
      exists old s, t !! i = Some old /\ get old "id" = VStr s
                    /\ changes !! "id" = Some (VStr s)
  end.

(** ** [preprocessing.py]: the score filter and the cleaning pipelines *)

(** [score < min_score] and [score > max_score], the bound being an [int]:
    numbers are compared by value, a comparison with NaN is false, and a
    left operand that is no number ([None], text, a [datetime]) raises
    [TypeError]. *)
Definition lt_int (score : pyval) (bound : Z) : result bool :=
  match py_num score with
  | Some (FFin q) => Ok (bool_decide (q < Qc_of_Z bound)%Qc)
  | Some (FInf negative) => Ok negative
  | Some FNan => Ok false
  | None => Raise TypeError
  end.

Definition gt_int (score : pyval) (bound : Z) : result bool :=
  match py_num score with
  | Some (FFin q) => Ok (bool_decide (Qc_of_Z bound < q)%Qc)
  | Some (FInf negative) => Ok (negb negative)
  | Some FNan => Ok false
  | None => Raise TypeError
  end.

(** One turn of the loop of [filter_by_score]: [Ok true] appends the item,
    [Ok false] is a [continue]. *)
Definition score_keep (score_field : string) (min_score max_score : option Z)
    (item : record) : result bool :=
  match item !! score_field with
  | None => Ok false
  | Some score =>
      below ← match min_score with
              | Some m => lt_int score m
              | None => Ok false
              end;
      if (below : bool) then Ok false
      else
        above ← match max_score with
                | Some m => gt_int score m
                | None => Ok false
                end;
        Ok (negb above)
  end.

Fixpoint score_loop (score_field : string) (min_score max_score : option Z)
    (data : list record) : result (list record) :=
  match data with
  | [] => Ok []
  | item :: rest =>
      keep ← score_keep score_field min_score max_score item;
      filtered ← score_loop score_field min_score max_score rest;
      Ok (if (keep : bool) then item :: filtered else filtered)
  end.

(** [DataCleaner.filter_by_score] *)
Definition filter_by_score (data : list record) (score_field : string)
    (min_score max_score : option Z) : result (list record) :=
  match min_score, max_score with
  | None, None => Ok data
  | _, _ => score_loop score_field min_score max_score data
  end.

Section Pipelines.

Variable fromisoformat : string -> option datetime.
Variable transform : string -> string.

(** [clean_text_fields] by content: the contents of the records it returns
    for a batch with the given contents.  (The records it returns are new
    objects and no other function of the pipeline writes to a record, so the
    pipelines are taken by content.) *)
Definition clean_text_fields_content (data : list record) (text_fields : list string)
    : list record :=
  (fun item => cleaned transform text_fields item item) <$> data.

(** [DataCleaner.clean_posts] *)
Definition clean_posts (posts : list record)
    (remove_duplicates_flag clean_title clean_selftext : bool)
    (min_score : option Z) (start_date end_date : option datetime)
    : result (list record) :=
  let posts := if remove_duplicates_flag then remove_duplicates posts "id" else posts in
  posts ← match start_date, end_date with
          | None, None => Ok posts
          | _, _ => filter_by_date fromisoformat posts "created_utc" start_date end_date
          end;
  posts ← match min_score with
          | Some m => filter_by_score posts "score" (Some m) None
          | None => Ok posts
          end;
  let text_fields :=
    (if clean_title then ["title"] else []) ++ (if clean_selftext then ["selftext"] else []) in
  Ok (match text_fields with
      | [] => posts
      | _ => clean_text_fields_content posts text_fields
      end).

(** [DataCleaner.clean_comments] *)
Definition clean_comments (comments : list record)
    (remove_duplicates_flag clean_body : bool)
    (min_score : option Z) (start_date end_date : option datetime)
    : result (list record) :=
  let comments :=
    if remove_duplicates_flag then remove_duplicates comments "id" else comments in
  comments ← match start_date, end_date with
             | None, None => Ok comments
             | _, _ => filter_by_date fromisoformat comments "created_utc" start_date end_date
             end;
  comments ← match min_score with
             | Some m => filter_by_score comments "score" (Some m) None
             | None => Ok comments
             end;
  Ok (if clean_body then clean_text_fields_content comments ["body"] else comments).

End Pipelines.

(** The score of the record is an integer within the inclusive bounds. *)
Definition score_in (score_field : string) (min_score max_score : option Z)
    (item : record) : bool :=
  match item !! score_field with
  | Some (VInt z) =>
      from_option (fun m => (m <=? z)%Z) true min_score
      && from_option (fun m => (z <=? m)%Z) true max_score
  | _ => false
  end.

(** The field, when present, holds an integer. *)
Definition int_or_absent (field : string) (item : record) : Prop :=
  item !! field = None \/ exists z, item !! field = Some (VInt z).

(** A batch of scored records; one has no score. *)
Definition scored_batch : list record :=
  [ {[ "id" := VStr "a"; "score" := VInt 3 ]};
    {[ "id" := VStr "b"; "score" := VInt 10 ]};
    {[ "id" := VStr "c" ]};
    {[ "id" := VStr "d"; "score" := VInt 7 ]};
    {[ "id" := VStr "e"; "score" := VInt (-2) ]} ].

(** A scraped batch in which one post comes twice, the second time with a
    newer title and score. *)
Definition scraped_batch : list record :=
  [ {[ "id" := VStr "a"; "title" := VStr "Hello World"; "score" := VInt 3;
       "created_utc" := VDate noon ]};
    {[ "id" := VStr "b"; "title" := VStr "Second"; "score" := VInt 10;
       "created_utc" := VStr "2024-01-15T12:00:00" ]};
    {[ "id" := VStr "c"; "title" := VStr "Low"; "score" := VInt 1;
       "created_utc" := VDate noon ]};
    {[ "id" := VStr "a"; "title" := VStr "Hello AGAIN"; "score" := VInt 12;
       "created_utc" := VDate evening ]} ].

(** A batch of comments, one of them too old for the window. *)
Definition comment_batch : list record :=
  [ {[ "id" := VStr "k1"; "body" := VStr "Nice Post"; "score" := VInt 6;
       "created_utc" := VDate evening ]};
    {[ "id" := VStr "k2"; "body" := VStr "Old"; "score" := VInt 9;
       "created_utc" := VStr "2023-12-31T23:59:59" ]} ].

(** ** Notions used for the upsert and the round trip *)

(** A value of the column's type, as the data model has it: text in a string
    column, a 64-bit integer, a float that is a number, a boolean, a naive
    [datetime]; [None] where the column is nullable.  SQLite stores such a
    value and returns it as it is. *)
Definition typed (c : SQLiteStorage.column) (v : pyval) : bool :=
  match v with
  | VNone => SQLiteStorage.nullable c
  | VBool _ =>
      match SQLiteStorage.type c with SQLiteStorage.Boolean => true | _ => false end
  | VInt z =>
      match SQLiteStorage.type c with
      | SQLiteStorage.Integer => ((- 2 ^ 63 <=? z) && (z <? 2 ^ 63))%Z
      | _ => false
      end
  | VFloat (FFin _) =>
      match SQLiteStorage.type c with SQLiteStorage.Float => true | _ => false end
  | VFloat _ => false
  | VStr _ =>
      match SQLiteStorage.type c with
      | SQLiteStorage.String_ | SQLiteStorage.Text => true
      | _ => false
      end
  | VDate d =>
      match SQLiteStorage.type c with
      | SQLiteStorage.DateTime => negb (Datetime.aware d)
      | _ => false
      end
  end.

(** A record of the table: no field outside the schema, and for every column
    a value of its type (none, for a nullable column the record leaves out). *)
Definition typed_record (cols : list SQLiteStorage.column) (p : record) : bool :=
  bool_decide (dom p ⊆ list_to_set (SQLiteStorage.names cols))
  && forallb (fun c => typed c (get p (SQLiteStorage.name c))) cols.



(** The record as a file-backed backend is to return it: every timestamp as
    its ISO-8601 text, every other value as it is. *)
Definition file_form (p : record) : record := JSONStorage.json_record p.

(** C4 as the specification words it, for the CSV backend: saved to a new
    directory and asked for by its identifier, the record comes back in its
    file form. *)
Definition round_trips_csv (read_csv : CSVStorage.frame -> result CSVStorage.frame)
    (p : record) (sid : string) : Prop :=
  exists st,
    CSVStorage.save_posts read_csv CSVStorage.init [p] = Ok st
    /\ CSVStorage.get_posts read_csv st (by_id sid) = Ok [file_form p].

(** What the CSV backend returns for [full_post "a1" 5]. *)
Definition full_post_from_csv : record :=
  <["flair" := CSVStorage.nan]>
    (<["selftext" := CSVStorage.nan]>
       (<["created_utc" := VStr "2024-01-15 12:00:00"]> (full_post "a1" 5))).

(** A post whose identifier is all digits, saved twice to a new directory
    with the CSV backend, the second time with a new score. *)
Definition digit_id_saved_twice : result CSVStorage.t :=
  st ← CSVStorage.save_posts Pandas.read_csv CSVStorage.init [full_post "123" 5];
  CSVStorage.save_posts Pandas.read_csv st [full_post "123" 6].

Definition ids_and_scores (posts : list record) : list (pyval * pyval) :=
  (fun post => (get post "id", get post "score")) <$> posts.
(** * Properties *)

(** ** Python equality *)

Lemma float_eqb_sym x y : float_eqb x y = float_eqb y x.
Proof.
  destruct x, y; simpl; try reflexivity.
  - by destruct negative, negative0.
  - apply bool_decide_ext; split; congruence.
Qed.

Lemma float_eqb_trans x y z :
  float_eqb x y = true -> float_eqb y z = true -> float_eqb x z = true.
Proof.
  destruct x, y, z; simpl; try discriminate.
  - by destruct negative, negative0, negative1.
  - rewrite !bool_decide_eq_true. congruence.
Qed.

Lemma datetime_eqb_sym a b : Datetime.eqb a b = Datetime.eqb b a.
Proof.
  unfold Datetime.eqb. rewrite (Z.eqb_sym (Datetime.instant a)).
  by destruct (Datetime.aware a), (Datetime.aware b).
Qed.

Lemma datetime_eqb_trans a b c :
  Datetime.eqb a b = true -> Datetime.eqb b c = true -> Datetime.eqb a c = true.
Proof.
  unfold Datetime.eqb. rewrite !andb_true_iff, !Z.eqb_eq.
  intros [H1 H2] [H3 H4]. rewrite H2, H4. split; [|reflexivity].
  by destruct (Datetime.aware a), (Datetime.aware b), (Datetime.aware c).
Qed.

Lemma py_eq_sym a b : py_eq a b = py_eq b a.
Proof.
  unfold py_eq.
  destruct (py_num a) as [x|] eqn:Ha, (py_num b) as [y|] eqn:Hb;
    try reflexivity.
  - apply float_eqb_sym.
  - destruct a, b; try discriminate; try reflexivity.
    + apply bool_decide_ext; split; congruence.
    + apply datetime_eqb_sym.
Qed.

Lemma py_eq_trans a b c :
  py_eq a b = true -> py_eq b c = true -> py_eq a c = true.
Proof.
  unfold py_eq.
  destruct (py_num a) as [x|] eqn:Ha, (py_num b) as [y|] eqn:Hb,
    (py_num c) as [z|] eqn:Hc; try discriminate.
  - apply float_eqb_trans.
  - destruct a, b, c; try discriminate; try reflexivity.
    + rewrite !bool_decide_eq_true. congruence.
    + apply datetime_eqb_trans.
Qed.

(** An equal key on the left makes two keys agree on everything else. *)
Lemma py_eq_false_l a b c :
  py_eq a b = true -> py_eq a c = false -> py_eq b c = false.
Proof.
  intros Hab Hac. destruct (py_eq b c) eqn:Hbc; [|reflexivity].
  rewrite (py_eq_trans a b c Hab Hbc) in Hac. discriminate.
Qed.

Lemma py_eq_str s v : py_eq (VStr s) v = true <-> v = VStr s.
Proof.
  unfold py_eq. destruct v; simpl; try (split; [discriminate | congruence]).
  rewrite bool_decide_eq_true. split; congruence.
Qed.

Lemma py_eq_str_r s v : py_eq v (VStr s) = true <-> v = VStr s.
Proof. rewrite py_eq_sym. apply py_eq_str. Qed.

Lemma py_eq_int z v : py_eq v (VInt z) = true -> v <> VNone.
Proof. by destruct v. Qed.

(** ** Dictionaries: the last assignment to a key wins *)

Section PyDictFacts.
Context {V : Type}.
Implicit Types (d l : list (pyval * V)) (k : pyval) (v : V).

Lemma set_keys d k v e :
  e ∈ PyDict.set d k v -> e.1 = k \/ exists e', e' ∈ d /\ e'.1 = e.1.
Proof.
  induction d as [|[k' v'] d IH]; simpl.
  - intros ->%list_elem_of_singleton. by left.
  - destruct (py_eq k' k).
    + intros [->|He]%elem_of_cons; right.
      * exists (k', v'). split; [left|done].
      * exists e. split; [by right|done].
    + intros [->|He]%elem_of_cons.
      * right. exists (k', v'). split; [left|done].
      * destruct (IH He) as [?|(e' & ? & ?)]; [by left|].
        right. exists e'. split; [by right|done].
Qed.

Lemma set_distinct d k v : distinct_keys d -> distinct_keys (PyDict.set d k v).
Proof.
  induction d as [|[k' v'] d IH]; simpl.
  - intros _. split; [constructor|done].
  - intros [Hk Hd]. destruct (py_eq k' k) eqn:E; simpl.
    + done.
    + split; [|by apply IH].
      apply Forall_forall. intros e He.
      destruct (set_keys _ _ _ _ He) as [->|(e' & He' & <-)]; [done|].
      by apply (proj1 (Forall_forall _ _) Hk).
Qed.

(** What an assignment leaves in the dictionary: the new value under a key
    that stands for [k], and the entries under other keys. *)
Lemma set_elem d k v k2 v2 :
  distinct_keys d ->
  (k2, v2) ∈ PyDict.set d k v ->
  (stands_for k2 k /\ v2 = v) \/ ((k2, v2) ∈ d /\ py_eq k2 k = false).
Proof.
  induction d as [|[k' v'] d IH]; simpl.
  - intros _ Hin%list_elem_of_singleton. injection Hin as -> ->.
    left. split; [by left|done].
  - intros [Hk Hd]. destruct (py_eq k' k) eqn:E.
    + intros [Hin|Hin]%elem_of_cons.
      * injection Hin as -> ->. left. split; [by right|done].
      * right. split; [by right|].
        pose proof (proj1 (Forall_forall _ _) Hk _ Hin) as Hne. simpl in Hne.
        destruct (py_eq k2 k) eqn:E2; [|reflexivity].
        rewrite (py_eq_trans k' k k2 E) in Hne; [done|].
        by rewrite py_eq_sym.
    + intros [Hin|Hin]%elem_of_cons.
      * injection Hin as -> ->. right. split; [left|done].
      * destruct (IH Hd Hin) as [?|[? ?]]; [by left|].
        right. split; [by right|done].
Qed.

Lemma set_new d k v : exists k', (k', v) ∈ PyDict.set d k v /\ stands_for k' k.
Proof.
  induction d as [|[k' v'] d IH]; simpl.
  - exists k. split; [left|by left].
  - destruct (py_eq k' k) eqn:E.
    + exists k'. split; [left|by right].
    + destruct IH as (k'' & ? & ?). exists k''. split; [by right|done].
Qed.

Lemma set_other d k v k2 v2 :
  (k2, v2) ∈ d -> py_eq k2 k = false -> (k2, v2) ∈ PyDict.set d k v.
Proof.
  induction d as [|[k' v'] d IH]; simpl; [by intros ?%elem_of_nil|].
  intros [Hin|Hin]%elem_of_cons Hne.
  - injection Hin as <- <-. rewrite Hne. left.
  - destruct (py_eq k' k); right; [done|by apply IH].
Qed.

Lemma build_snoc d l e : build d (l ++ [e]) = PyDict.set (build d l) e.1 e.2.
Proof. unfold build. by rewrite fold_left_app. Qed.

Lemma build_app d l1 l2 : build d (l1 ++ l2) = build (build d l1) l2.
Proof. unfold build. by rewrite fold_left_app. Qed.

Lemma build_distinct l : distinct_keys (build [] l).
Proof.
  induction l as [|e l IH] using rev_ind; [done|].
  rewrite build_snoc. by apply set_distinct.
Qed.

Lemma stands_for_false stored k k2 :
  stands_for stored k -> py_eq k k2 = false -> py_eq stored k2 = false.
Proof.
  intros [->|Heq] Hne; [done|].
  destruct (py_eq stored k2) eqn:E; [|reflexivity].
  rewrite (py_eq_trans k stored k2) in Hne; [done| |done].
  by rewrite py_eq_sym.
Qed.

Lemma stands_for_false_inv stored k k2 :
  stands_for stored k -> py_eq stored k2 = false -> py_eq k k2 = false.
Proof.
  intros [->|Heq] Hne; [done|]. by eapply py_eq_false_l.
Qed.

(** Every entry of the dictionary holds the value of an assignment that no
    later assignment to an equal key follows. *)
Lemma build_sound l k v :
  (k, v) ∈ build [] l ->
  exists pre suf kv,
    l = pre ++ (kv, v) :: suf /\ stands_for k kv /\
    Forall (fun e => py_eq kv e.1 = false) suf.
Proof.
  revert k v. induction l as [|[k0 v0] l IH] using rev_ind; intros k v.
  - by intros ?%elem_of_nil.
  - rewrite build_snoc. simpl. intros Hin.
    apply set_elem in Hin; [|apply build_distinct].
    destruct Hin as [[Hs ->]|[Hin Hne]].
    + exists l, [], k0. split; [done|]. split; [done|constructor].
    + destruct (IH _ _ Hin) as (pre & suf & kv & -> & Hs & Hsuf).
      exists pre, (suf ++ [(k0, v0)]), kv.
      split; [by rewrite <- app_assoc|]. split; [done|].
      apply Forall_app. split; [done|].
      constructor; [|constructor]. simpl. by eapply stands_for_false_inv.
Qed.

(** Conversely, such an assignment is in the dictionary. *)
Lemma build_complete pre suf kv v :
  Forall (fun e => py_eq kv e.1 = false) suf ->
  exists k, (k, v) ∈ build [] (pre ++ (kv, v) :: suf) /\ stands_for k kv.
Proof.
  induction suf as [|[k0 v0] suf IH] using rev_ind; intros Hsuf.
  - replace (pre ++ [(kv, v)]) with (pre ++ [(kv, v)]) by done.
    rewrite build_snoc. apply set_new.
  - apply Forall_app in Hsuf as [Hsuf Hlast].
    apply Forall_cons in Hlast as [Hlast _]. simpl in Hlast.
    destruct (IH Hsuf) as (k & Hin & Hs).
    exists k. split; [|done].
    replace (pre ++ (kv, v) :: suf ++ [(k0, v0)])
      with ((pre ++ (kv, v) :: suf) ++ [(k0, v0)]) by by rewrite <- app_assoc.
    rewrite build_snoc. simpl. apply set_other; [done|].
    by eapply stands_for_false.
Qed.

Lemma distinct_keys_lookup d i j e1 e2 :
  distinct_keys d -> d !! i = Some e1 -> d !! j = Some e2 ->
  py_eq e1.1 e2.1 = true -> i = j.
Proof.
  revert i j. induction d as [|e d IH]; intros i j; [done|].
  intros [Hk Hd] Hi Hj Heq.
  destruct i as [|i], j as [|j]; simpl in *.
  - done.
  - injection Hi as ->. apply list_elem_of_lookup_2 in Hj.
    rewrite (proj1 (Forall_forall _ _) Hk _ Hj) in Heq. done.
  - injection Hj as ->. apply list_elem_of_lookup_2 in Hi.
    rewrite py_eq_sym in Heq.
    rewrite (proj1 (Forall_forall _ _) Hk _ Hi) in Heq. done.
  - f_equal. by apply IH.
Qed.

End PyDictFacts.

(** ** [remove_duplicates] *)

Lemma keyed_app key_field a b :
  keyed key_field (a ++ b) = keyed key_field a ++ keyed key_field b.
Proof. apply omap_app. Qed.

Lemma keyed_cons_some key_field item data k :
  item !! key_field = Some k ->
  keyed key_field (item :: data) = (k, item) :: keyed key_field data.
Proof. intros H. unfold keyed. simpl. by rewrite H. Qed.

Lemma keyed_cons_none key_field item data :
  item !! key_field = None ->
  keyed key_field (item :: data) = keyed key_field data.
Proof. intros H. unfold keyed. simpl. by rewrite H. Qed.

Lemma keyed_elem key_field data k item :
  (k, item) ∈ keyed key_field data <-> item ∈ data /\ item !! key_field = Some k.
Proof.
  unfold keyed. rewrite list_elem_of_omap. split.
  - intros (x & Hx & Hk). destruct (x !! key_field) eqn:E; simpl in Hk; [|done].
    injection Hk as <- <-. done.
  - intros [Hin Hk]. exists item. split; [done|]. by rewrite Hk.
Qed.

Lemma keyed_split key_field data a b k item :
  keyed key_field data = a ++ (k, item) :: b ->
  exists pre suf,
    data = pre ++ item :: suf /\ item !! key_field = Some k /\
    keyed key_field pre = a /\ keyed key_field suf = b.
Proof.
  revert a. induction data as [|x data IH]; intros a.
  - by destruct a.
  - destruct (x !! key_field) as [kx|] eqn:E.
    + rewrite (keyed_cons_some _ _ _ _ E).
      destruct a as [|e a]; simpl.
      * intros Heq. injection Heq as -> -> Hb.
        exists [], data. done.
      * intros Heq. injection Heq as <- Hrest.
        destruct (IH _ Hrest) as (pre & suf & -> & Hk & Hpre & Hsuf).
        exists (x :: pre), suf. split; [done|]. split; [done|].
        split; [|done]. rewrite (keyed_cons_some _ _ _ _ E). by rewrite Hpre.
    + rewrite (keyed_cons_none _ _ _ E). intros Heq.
      destruct (IH _ Heq) as (pre & suf & -> & Hk & Hpre & Hsuf).
      exists (x :: pre), suf. split; [done|]. split; [done|].
      split; [|done]. by rewrite (keyed_cons_none _ _ _ E).
Qed.

Lemma remove_duplicates_build data key_field :
  remove_duplicates data key_field = PyDict.values (build [] (keyed key_field data)).
Proof.
  unfold remove_duplicates. f_equal. generalize (@nil (pyval * record)).
  induction data as [|item data IH]; intros d; [done|].
  destruct (item !! key_field) as [k|] eqn:E.
  - rewrite (keyed_cons_some _ _ _ _ E). simpl. rewrite E. apply IH.
  - rewrite (keyed_cons_none _ _ _ E). simpl. rewrite E. apply IH.
Qed.

Lemma keyed_suffix_keys key_field suf k :
  Forall (fun e => py_eq k e.1 = false) (keyed key_field suf) <->
  (forall item' k', item' ∈ suf -> item' !! key_field = Some k' -> py_eq k k' = false).
Proof.
  rewrite Forall_forall. split.
  - intros H item' k' Hin Hk. apply (H (k', item')). by apply keyed_elem.
  - intros H [k' item'] [Hin Hk]%keyed_elem. by eapply H.
Qed.

(** The records kept are exactly the last ones of their key. *)
Lemma remove_duplicates_elem data key_field item :
  item ∈ remove_duplicates data key_field <-> last_of_its_key key_field data item.
Proof.
  rewrite remove_duplicates_build. unfold PyDict.values. split.
  - intros ([k r] & -> & Hin)%list_elem_of_fmap. simpl.
    apply build_sound in Hin as (a & b & kv & Heq & _ & Hsuf).
    apply keyed_split in Heq as (pre & suf & -> & Hk & _ & <-).
    exists pre, suf, kv. split; [done|]. split; [done|].
    by apply keyed_suffix_keys.
  - intros (pre & suf & k & -> & Hk & Hsuf).
    rewrite keyed_app, (keyed_cons_some _ _ _ _ Hk).
    destruct (build_complete (keyed key_field pre) (keyed key_field suf) k item)
      as (k' & Hin & _); [by apply keyed_suffix_keys|].
    apply list_elem_of_fmap. by exists (k', item).
Qed.

(** At most one record is kept for a key. *)
Lemma remove_duplicates_unique data key_field i j r1 r2 k1 k2 :
  remove_duplicates data key_field !! i = Some r1 ->
  remove_duplicates data key_field !! j = Some r2 ->
  r1 !! key_field = Some k1 -> r2 !! key_field = Some k2 ->
  py_eq k1 k2 = true -> i = j.
Proof.
  rewrite remove_duplicates_build. unfold PyDict.values.
  rewrite !list_lookup_fmap.
  destruct (build [] (keyed key_field data) !! i) as [[s1 x1]|] eqn:Ei; [|done].
  destruct (build [] (keyed key_field data) !! j) as [[s2 x2]|] eqn:Ej; [|done].
  simpl. intros [= ->] [= ->] Hk1 Hk2 Heq.
  assert (forall s x k, (s, x) ∈ build [] (keyed key_field data) ->
            x !! key_field = Some k -> stands_for s k) as Hst.
  { intros s x k Hin Hk.
    apply build_sound in Hin as (a & b & kv & Hsplit & Hs & _).
    assert ((kv, x) ∈ keyed key_field data) as [_ Hkv]%keyed_elem.
    { rewrite Hsplit. apply elem_of_app. right. left. }
    congruence. }
  pose proof (Hst _ _ _ (list_elem_of_lookup_2 _ _ _ Ei) Hk1) as H1.
  pose proof (Hst _ _ _ (list_elem_of_lookup_2 _ _ _ Ej) Hk2) as H2.
  eapply (distinct_keys_lookup _ _ _ _ _ (build_distinct _) Ei Ej). simpl.
  assert (py_eq s1 k2 = true) as H12.
  { destruct H1 as [->|H1]; [done|]. by eapply py_eq_trans. }
  destruct H2 as [->|H2]; [done|].
  eapply py_eq_trans; [exact H12|]. by rewrite py_eq_sym.
Qed.

(** Every key of the batch keeps a record. *)
Lemma last_of_its_key_exists key_field suf pre item k :
  item !! key_field = Some k ->
  exists r k', last_of_its_key key_field (pre ++ item :: suf) r /\
               r !! key_field = Some k' /\ (r = item \/ py_eq k k' = true).
Proof.
  revert pre item k.
  induction suf as [suf IH] using (induction_ltof1 _ (@length record)).
  unfold ltof in IH. intros pre item k Hk.
  destruct (decide (Exists (fun item' =>
              from_option (py_eq k) false (item' !! key_field) = true) suf))
    as [Hex|Hno].
  - apply Exists_exists in Hex as (y & Hy & Heq).
    destruct (y !! key_field) as [ky|] eqn:Hky; [simpl in Heq|done].
    apply list_elem_of_split in Hy as (a & b & ->).
    destruct (IH b) with (pre := pre ++ item :: a) (item := y) (k := ky)
      as (r & k' & Hlast & Hr & Hor); [rewrite length_app; simpl; lia|done|].
    exists r, k'. rewrite <- app_assoc in Hlast. simpl in Hlast.
    split; [done|]. split; [done|]. right.
    destruct Hor as [->|Hor]; [congruence|]. by eapply py_eq_trans.
  - exists item, k. split; [|by split; [|left]].
    exists pre, suf, k. split; [done|]. split; [done|].
    intros item' k' Hin Hk'. destruct (py_eq k k') eqn:E; [|done].
    exfalso. apply Hno, Exists_exists. exists item'. split; [done|]. by rewrite Hk'.
Qed.

(** C5.  For every batch, [remove_duplicates] returns exactly one record per
    identifier, and it is the last one bearing that identifier in input
    order: no two records of the output have equal keys; the records of the
    output are exactly those that no record with an equal key follows in the
    input; and every key of the input is the key of a record of the output
    (that record itself, or a later one with an equal key). *)
Theorem C5_remove_duplicates_last_wins (data : list record) (key_field : string) :
  let out := remove_duplicates data key_field in
  (forall i j r1 r2 k1 k2,
      out !! i = Some r1 -> out !! j = Some r2 ->
      r1 !! key_field = Some k1 -> r2 !! key_field = Some k2 ->
      py_eq k1 k2 = true -> i = j) /\
  (forall item, item ∈ out <-> last_of_its_key key_field data item) /\
  (forall item k,
      item ∈ data -> item !! key_field = Some k ->
      exists r k', r ∈ out /\ r !! key_field = Some k' /\
                   (r = item \/ py_eq k k' = true)).
Proof.
  intros out. split; [|split].
  - intros i j r1 r2 k1 k2. apply remove_duplicates_unique.
  - intros item. apply remove_duplicates_elem.
  - intros item k Hin Hk.
    apply list_elem_of_split in Hin as (pre & suf & ->).
    destruct (last_of_its_key_exists key_field suf pre item k Hk)
      as (r & k' & Hlast & Hr & Hor).
    exists r, k'. split; [by apply remove_duplicates_elem|done].
Qed.

(** C9.  [remove_duplicates] leaves out every record that has no key field:
    such a record is in no output, and a batch made of it alone gives the
    empty list. *)
Theorem C9_remove_duplicates_drops_keyless :
  (forall data key_field item,
      item !! key_field = None -> item ∉ remove_duplicates data key_field) /\
  (forall key_field item,
      item !! key_field = None -> remove_duplicates [item] key_field = []).
Proof.
  split.
  - intros data key_field item Hnone Hin.
    apply remove_duplicates_elem in Hin as (pre & suf & k & _ & Hk & _).
    congruence.
  - intros key_field item Hnone. unfold remove_duplicates. simpl.
    by rewrite Hnone.
Qed.

(** ** [filter_by_date] *)

Section FilterByDate.
Variable fromisoformat : string -> option datetime.
Variable date_field : string.

Lemma window_of_datetime (start_date end_date : option datetime) (d : datetime) :
  forallb (fun b => Bool.eqb (Datetime.aware d) (Datetime.aware b))
    (option_list start_date ++ option_list end_date) = true ->
  (below ← match start_date with
           | Some s => lt_date (VDate d) s
           | None => Ok false
           end;
   if (below : bool) then Ok false
   else
     above ← match end_date with
             | Some e => gt_date (VDate d) e
             | None => Ok false
             end;
     Ok (negb above))
  = Ok (negb (from_option (fun s => Datetime.instant d <? Datetime.instant s)%Z false start_date)
        && negb (from_option (fun e => Datetime.instant e <? Datetime.instant d)%Z false end_date)).
Proof.
  destruct start_date as [s|], end_date as [e|];
    cbn -[Datetime.instant Z.ltb Datetime.aware];
    unfold Datetime.gt, Datetime.lt;
    repeat match goal with
           | |- context [Datetime.aware ?x] => destruct (Datetime.aware x)
           end; cbn -[Datetime.instant Z.ltb]; try done;
    intros _;
    repeat match goal with
           | |- context [(?a <? ?b)%Z] => destruct (a <? b)%Z
           end; done.
Qed.

Lemma date_keep_comparable start_date end_date item :
  comparable fromisoformat date_field start_date end_date item = true ->
  date_keep fromisoformat date_field start_date end_date item
  = Ok (in_window fromisoformat date_field start_date end_date item).
Proof.
  unfold comparable, date_keep, in_window, date_value.
  destruct (item !! date_field) as [[| | | |s|d]|]; try done.
  - destruct (fromisoformat s) as [d|]; simpl; [|done].
    apply window_of_datetime.
  - apply window_of_datetime.
Qed.

Lemma date_keep_unparsable start_date end_date item :
  unparsable fromisoformat date_field item ->
  date_keep fromisoformat date_field start_date end_date item = Ok false.
Proof.
  intros (s & Hs & Hp). unfold date_keep. by rewrite Hs, Hp.
Qed.

Lemma in_window_unparsable start_date end_date item :
  unparsable fromisoformat date_field item ->
  in_window fromisoformat date_field start_date end_date item = false.
Proof.
  intros (s & Hs & Hp). unfold in_window, date_value. by rewrite Hs, Hp.
Qed.

Lemma date_loop_comparable start_date end_date data :
  Forall (fun item => comparable fromisoformat date_field start_date end_date item = true) data ->
  date_loop fromisoformat date_field start_date end_date data
  = Ok (filter (fun item => in_window fromisoformat date_field start_date end_date item) data).
Proof.
  induction 1 as [|item data Hitem Hdata IH]; [done|].
  simpl. rewrite (date_keep_comparable _ _ _ Hitem), IH. simpl.
  rewrite filter_cons.
  by destruct (in_window fromisoformat date_field start_date end_date item).
Qed.

(** With both bounds at [T], the window holds exactly the timestamps equal
    to [T]. *)
Lemma in_window_point T item :
  comparable fromisoformat date_field (Some T) (Some T) item = true ->
  in_window fromisoformat date_field (Some T) (Some T) item
  = date_is fromisoformat date_field T item.
Proof.
  unfold comparable, in_window, date_is, date_value.
  assert (forall d, forallb (fun b => Bool.eqb (Datetime.aware d) (Datetime.aware b))
                      (option_list (Some T) ++ option_list (Some T)) = true ->
            negb (Datetime.instant d <? Datetime.instant T)%Z
            && negb (Datetime.instant T <? Datetime.instant d)%Z
            = Datetime.eqb d T) as Hd.
  { intros d. simpl. rewrite !andb_true_iff. intros (Ha & _ & _).
    unfold Datetime.eqb. rewrite Ha. simpl.
    destruct (Z.ltb_spec (Datetime.instant d) (Datetime.instant T)),
      (Z.ltb_spec (Datetime.instant T) (Datetime.instant d)),
      (Z.eqb_spec (Datetime.instant d) (Datetime.instant T)); simpl; lia. }
  destruct (item !! date_field) as [[| | | |s|d]|]; try done.
  - destruct (fromisoformat s) as [d|]; simpl; [|done]. apply Hd.
  - simpl. apply Hd.
Qed.

End FilterByDate.

Lemma filter_ext_in {A} (P Q : A -> Prop) `{!forall x, Decision (P x)}
    `{!forall x, Decision (Q x)} (l : list A) :
  (forall x, x ∈ l -> P x <-> Q x) -> filter P l = filter Q l.
Proof.
  induction l as [|x l IH]; intros Hext; [done|].
  rewrite !filter_cons.
  assert (P x <-> Q x) as Hx by (apply Hext; left).
  rewrite IH by (intros y Hy; apply Hext; by right).
  destruct (decide (P x)), (decide (Q x)); tauto.
Qed.

(** [filter_by_date] raises nothing but [TypeError]. *)
Lemma date_keep_raises fromisoformat date_field start_date end_date item e :
  date_keep fromisoformat date_field start_date end_date item = Raise e -> e = TypeError.
Proof.
  unfold date_keep, lt_date, gt_date, Datetime.gt, Datetime.lt.
  destruct (item !! date_field) as [v|]; [|done].
  destruct v as [|b|z|f|s|d];
    try destruct (fromisoformat s) as [d|];
    cbn -[Datetime.instant Z.ltb Datetime.aware]; try done;
    destruct start_date as [s0|], end_date as [e0|];
    cbn -[Datetime.instant Z.ltb Datetime.aware];
    repeat match goal with
           | |- context [Bool.eqb ?a ?b] => destruct (Bool.eqb a b)
           end; cbn -[Datetime.instant Z.ltb Datetime.aware];
    repeat match goal with
           | |- context [(?a <? ?b)%Z] => destruct (a <? b)%Z
           end; cbn -[Datetime.instant Z.ltb Datetime.aware]; congruence.
Qed.

(** With a bound supplied and the bounds agreeing with each other, a
    timestamp that cannot be compared with them raises. *)
Lemma date_keep_incomparable fromisoformat date_field start_date end_date item :
  is_Some start_date \/ is_Some end_date ->
  bounds_agree start_date end_date ->
  comparable fromisoformat date_field start_date end_date item = false ->
  date_keep fromisoformat date_field start_date end_date item = Raise TypeError.
Proof.
  intros Hb Hagree. unfold comparable, date_keep.
  destruct (item !! date_field) as [v|]; [|done].
  assert (forall d,
    forallb (fun b => Bool.eqb (Datetime.aware d) (Datetime.aware b))
      (option_list start_date ++ option_list end_date) = false ->
    (below ← match start_date with
             | Some s => lt_date (VDate d) s
             | None => Ok false
             end;
     if (below : bool) then Ok false
     else above ← match end_date with
                  | Some e => gt_date (VDate d) e
                  | None => Ok false
                  end;
          Ok (negb above)) = Raise TypeError) as Hd.
  { intros d. unfold lt_date, gt_date, Datetime.gt, Datetime.lt.
    destruct start_date as [s|], end_date as [e|];
      cbn [option_list app forallb mbind result_bind].
    - pose proof (Hagree s e eq_refl eq_refl) as Ha. intros Hf. cbn in Hf.
      destruct (Datetime.aware d) eqn:Ed, (Datetime.aware s) eqn:Es,
        (Datetime.aware e) eqn:Ee; cbn in *; congruence.
    - intros Hf. cbn in Hf.
      destruct (Datetime.aware d) eqn:Ed, (Datetime.aware s) eqn:Es; cbn in *; congruence.
    - intros Hf. cbn in Hf.
      destruct (Datetime.aware d) eqn:Ed, (Datetime.aware e) eqn:Ee; cbn in *; congruence.
    - by destruct Hb as [[]|[]]. }
  assert (forall w, (forall d, w <> VDate d) -> (forall s, w <> VStr s) ->
    (below ← match start_date with
             | Some s => lt_date w s
             | None => Ok false
             end;
     if (below : bool) then Ok false
     else above ← match end_date with
                  | Some e => gt_date w e
                  | None => Ok false
                  end;
          Ok (negb above)) = Raise TypeError) as Hw.
  { intros w Hnd Hns. unfold lt_date, gt_date.
    destruct start_date as [s|], end_date as [e|]; cbn [mbind result_bind];
      try (by destruct Hb as [[]|[]]);
      destruct w; cbn [mbind result_bind]; try done;
      solve [by edestruct Hnd | by edestruct Hns]. }
  destruct v as [|b|z|f|s|d]; cbn [fmap option_fmap option_map];
    try (intros _; by apply Hw).
  - destruct (fromisoformat s) as [d|]; cbn [from_option]; [apply Hd|done].
  - apply Hd.
Qed.

Lemma date_loop_incomparable fromisoformat date_field start_date end_date data :
  is_Some start_date \/ is_Some end_date ->
  bounds_agree start_date end_date ->
  Exists (fun item =>
    comparable fromisoformat date_field start_date end_date item = false) data ->
  date_loop fromisoformat date_field start_date end_date data = Raise TypeError.
Proof.
  intros Hb Hagree Hex.
  induction Hex as [item data Hitem|item data _ IH]; cbn [date_loop].
  - by rewrite (date_keep_incomparable _ _ _ _ _ Hb Hagree Hitem).
  - destruct (date_keep fromisoformat date_field start_date end_date item)
      as [keep|e] eqn:Ek.
    + cbn [mbind result_bind]. by rewrite IH.
    + by rewrite (date_keep_raises _ _ _ _ _ _ Ek).
Qed.

(** C6, as stated, fails on a record whose timestamp is neither text nor a
    [datetime]: the comparison with the bound raises [TypeError], which
    [filter_by_date] does not catch. *)
Lemma C6_epoch_timestamp_raises :
  filter_by_date fromisoformat_seconds [epoch_post] "created_utc" (Some noon) (Some noon)
  = Raise TypeError
  /\ ~ keeps_exactly fromisoformat_seconds "created_utc" noon [epoch_post].
Proof.
  assert (filter_by_date fromisoformat_seconds [epoch_post] "created_utc"
            (Some noon) (Some noon) = Raise TypeError) as H by reflexivity.
  split; [exact H|]. unfold keeps_exactly. rewrite H. discriminate.
Qed.

(** C6, amended.  For every batch in which each timestamp present is text or
    a [datetime] that can be compared with the bounds: the result is the
    list of the records whose timestamp lies in the inclusive window; with
    both bounds at [T] these are exactly the records whose timestamp equals
    [T]; a record whose timestamp is text that does not parse is outside
    every window and is skipped without an error; and with no bound the
    batch is returned as it is.  For a batch that holds a timestamp that
    cannot be compared with the bounds (a number, [None], or a [datetime],
    given or parsed from text, that is aware where the bounds are naive or
    naive where they are aware): when a bound is supplied and the bounds
    supplied are both naive or both aware, the call raises [TypeError]. *)
Theorem C6_filter_by_date_window (fromisoformat : string -> option datetime)
    (date_field : string) (data : list record) (start_date end_date : option datetime) :
  (Forall (fun item => comparable fromisoformat date_field start_date end_date item = true)
     data ->
   (is_Some start_date \/ is_Some end_date ->
    filter_by_date fromisoformat data date_field start_date end_date
    = Ok (filter (fun item => in_window fromisoformat date_field start_date end_date item)
            data))
   /\ (forall T, start_date = Some T -> end_date = Some T ->
       filter_by_date fromisoformat data date_field start_date end_date
       = Ok (filter (fun item => date_is fromisoformat date_field T item) data))
   /\ (forall item, unparsable fromisoformat date_field item ->
       in_window fromisoformat date_field start_date end_date item = false
       /\ forall s e, date_keep fromisoformat date_field s e item = Ok false)
   /\ filter_by_date fromisoformat data date_field None None = Ok data)
  /\ (is_Some start_date \/ is_Some end_date ->
      bounds_agree start_date end_date ->
      Exists (fun item =>
        comparable fromisoformat date_field start_date end_date item = false) data ->
      filter_by_date fromisoformat data date_field start_date end_date = Raise TypeError).
Proof.
  split.
  - intros Hcmp.
    assert (is_Some start_date \/ is_Some end_date ->
            filter_by_date fromisoformat data date_field start_date end_date
            = Ok (filter (fun item =>
                            in_window fromisoformat date_field start_date end_date item)
                    data))
      as Hwin.
    { intros Hsome. unfold filter_by_date.
      destruct start_date, end_date;
        try (by apply date_loop_comparable).
      destruct Hsome as [[? [=]]|[? [=]]]. }
    split; [exact Hwin|]. split; [|split].
    + intros T -> ->. rewrite Hwin by (left; eauto). f_equal.
      apply filter_ext_in. intros item Hin.
      rewrite in_window_point; [done|].
      by apply (proj1 (Forall_forall _ _) Hcmp).
    + intros item Hun. split.
      * by apply in_window_unparsable.
      * intros s e. by apply date_keep_unparsable.
    + done.
  - intros Hb Hagree Hex. unfold filter_by_date.
    destruct start_date, end_date; try (by apply date_loop_incomparable).
    by destruct Hb as [[]|[]].
Qed.

Lemma C6_filter_by_date_window_witness :
  Forall (fun item => comparable fromisoformat_seconds "created_utc"
                        (Some noon) (Some noon) item = true) dated_batch
  /\ filter_by_date fromisoformat_seconds dated_batch "created_utc" (Some noon) (Some noon)
     = Ok [ {[ "id" := VStr "a"; "created_utc" := VDate noon ]};
            {[ "id" := VStr "b"; "created_utc" := VStr "2024-01-15T12:00:00" ]} ].
Proof.
  assert (Forall (fun item => comparable fromisoformat_seconds "created_utc"
                                (Some noon) (Some noon) item = true) dated_batch) as H.
  { repeat constructor. }
  split; [exact H|].
  destruct (C6_filter_by_date_window fromisoformat_seconds "created_utc" dated_batch
              (Some noon) (Some noon)) as [Hok _].
  destruct (Hok H) as (_ & Hpoint & _).
  rewrite (Hpoint noon eq_refl eq_refl). reflexivity.
Defined.

(** ** [clean_text_fields] *)

Section CleanTextFields.
Variable transform : string -> string.

Lemma deref_alloc h r l :
  deref (alloc h r).2 l = if decide (h_next h = l) then r else deref h l.
Proof. unfold deref, alloc. simpl. apply lookup_total_insert. Qed.

Lemma deref_setitem h c k v l :
  deref (setitem h c k v) l = if decide (c = l) then <[k := v]> (deref h c) else deref h l.
Proof. unfold deref, setitem. simpl. apply lookup_total_insert. Qed.

(** The inner loop writes to [cleaned_item] only. *)
Lemma clean_fields_spec text_fields item c h :
  item <> c ->
  h_next (clean_fields transform item c text_fields h) = h_next h
  /\ (forall l, l <> c -> deref (clean_fields transform item c text_fields h) l = deref h l)
  /\ deref (clean_fields transform item c text_fields h) c
     = cleaned transform text_fields (deref h item) (deref h c).
Proof.
  intros Hne. revert h. unfold clean_fields, cleaned.
  induction text_fields as [|field fields IH]; intros h; [done|].
  simpl.
  set (h1 := match deref h item !! field with
             | Some v => if truthy v then setitem h c field (preprocess transform v) else h
             | None => h
             end).
  assert (h_next h1 = h_next h) as Hn.
  { unfold h1. destruct (deref h item !! field) as [v|]; [|done]. by destruct (truthy v). }
  assert (forall l, l <> c -> deref h1 l = deref h l) as Hother.
  { intros l Hl. unfold h1. destruct (deref h item !! field) as [v|]; [|done].
    destruct (truthy v); [|done]. rewrite deref_setitem. by destruct (decide (c = l)). }
  assert (deref h1 c = match deref h item !! field with
                       | Some v => if truthy v
                                   then <[field := preprocess transform v]> (deref h c)
                                   else deref h c
                       | None => deref h c
                       end) as Hc.
  { unfold h1. destruct (deref h item !! field) as [v|]; [|done].
    destruct (truthy v); [|done]. rewrite deref_setitem. by destruct (decide (c = c)). }
  destruct (IH h1) as (IHn & IHother & IHc).
  split; [congruence|]. split.
  - intros l Hl. rewrite IHother by done. by apply Hother.
  - rewrite IHc, Hc, (Hother item) by done. done.
Qed.

(** A field that is not listed, or is absent or false in the record, is the
    copy's own. *)
Lemma cleaned_frame text_fields item c field :
  field ∉ text_fields \/ item !! field = None
  \/ (exists v, item !! field = Some v /\ truthy v = false) ->
  cleaned transform text_fields item c !! field = c !! field.
Proof.
  intros Hf. revert c. unfold cleaned.
  induction text_fields as [|f fields IH]; intros c; [done|].
  simpl. rewrite IH.
  - destruct (item !! f) as [v|] eqn:Ef; [|done].
    destruct (truthy v) eqn:Et; [|done].
    apply lookup_insert_ne. intros ->.
    destruct Hf as [Hf|[Hf|(v' & Hv' & Hf)]].
    + apply Hf. left.
    + congruence.
    + congruence.
  - destruct Hf as [Hf|Hf]; [|by right]. left. intros ?. apply Hf. by right.
Qed.

(** A listed field that holds a true value is replaced by its cleaned text. *)
Lemma cleaned_listed text_fields item c field v :
  field ∈ text_fields -> item !! field = Some v -> truthy v = true ->
  cleaned transform text_fields item c !! field = Some (preprocess transform v).
Proof.
  revert c. unfold cleaned.
  induction text_fields as [|f fields IH] using rev_ind; intros c Hin Hv Ht.
  - by apply elem_of_nil in Hin.
  - rewrite fold_left_app. simpl.
    destruct (decide (f = field)) as [->|Hne].
    + rewrite Hv, Ht. apply lookup_insert_eq.
    + apply elem_of_app in Hin as [Hin|Hin%list_elem_of_singleton]; [|congruence].
      destruct (item !! f) as [w|]; [|by apply IH].
      destruct (truthy w); [|by apply IH].
      rewrite lookup_insert_ne by done. by apply IH.
Qed.

Lemma clean_text_fields_loop text_fields data h acc :
  Forall (fun l => l < h_next h) data ->
  h_next (fold_left (clean_step transform text_fields) data (h, acc)).1
  = h_next h + length data
  /\ (fold_left (clean_step transform text_fields) data (h, acc)).2
     = acc ++ seq (h_next h) (length data)
  /\ (forall l, l < h_next h ->
        deref (fold_left (clean_step transform text_fields) data (h, acc)).1 l = deref h l)
  /\ (forall i item, data !! i = Some item ->
        deref (fold_left (clean_step transform text_fields) data (h, acc)).1 (h_next h + i)
        = cleaned transform text_fields (deref h item) (deref h item)).
Proof.
  revert h acc. induction data as [|item data IH]; intros h acc Hall.
  - simpl. split; [lia|]. split; [by rewrite app_nil_r|]. split; done.
  - apply Forall_cons in Hall as [Hitem Hdata]. simpl in Hitem.
    set (c := h_next h).
    set (h0 := {| h_next := S (h_next h); h_obj := <[h_next h := deref h item]> (h_obj h) |}).
    assert (h0 = (alloc h (deref h item)).2) as Hh0 by done.
    destruct (clean_fields_spec text_fields item c h0) as (Hn & Hother & Hc); [unfold c in *; lia|].
    set (h1 := clean_fields transform item c text_fields h0) in *.
    assert (clean_step transform text_fields (h, acc) item = (h1, acc ++ [c])) as Hstep
      by reflexivity.
    cbn [fold_left]. rewrite Hstep.
    assert (forall l, l < h_next h -> deref h1 l = deref h l) as Hold.
    { intros l Hl. rewrite Hother by (unfold c in *; lia).
      rewrite Hh0, deref_alloc. destruct (decide (h_next h = l)); [lia|done]. }
    assert (deref h1 c = cleaned transform text_fields (deref h item) (deref h item)) as Hnew.
    { rewrite Hc, Hh0, !deref_alloc.
      destruct (decide (h_next h = item)); [lia|].
      destruct (decide (h_next h = c)); [done|]. by unfold c in *. }
    assert (h_next h1 = S (h_next h)) as Hn1 by (by rewrite Hn).
    destruct (IH h1 (acc ++ [c])) as (IHn & IHacc & IHold & IHnew).
    { eapply Forall_impl; [exact Hdata|]. intros l Hl. simpl in Hl. lia. }
    rewrite Hn1 in IHn, IHacc, IHold, IHnew.
    split; [rewrite IHn; simpl; lia|].
    split; [by rewrite IHacc, <- app_assoc|]. split.
    + intros l Hl. rewrite IHold by lia. by apply Hold.
    + intros [|i] x Hx; simpl in Hx.
      * injection Hx as <-. rewrite Nat.add_0_r, IHold by lia. exact Hnew.
      * replace (c + S i) with (S (h_next h) + i) by (unfold c; lia).
        rewrite (IHnew i x Hx).
        rewrite Hold; [done|].
        apply (proj1 (Forall_forall _ _) Hdata). by eapply list_elem_of_lookup_2.
Qed.

End CleanTextFields.

(** C10.  [clean_text_fields] maps the batch record by record and touches
    nothing else: the output has the length and the order of the input;
    every output record is a new object; in it, a field that is not listed,
    or that is absent, empty or otherwise false in the input record, is as
    in the input record, and a listed field holding a true value holds its
    cleaned text; and every object that existed before the call, the input
    records among them, is unchanged. *)
Theorem C10_clean_text_fields_frame (transform : string -> string) (h : heap)
    (data : list nat) (text_fields : list string) :
  Forall (fun l => l < h_next h) data ->
  let h' := (clean_text_fields transform h data text_fields).1 in
  let out := (clean_text_fields transform h data text_fields).2 in
  length out = length data
  /\ (forall l, l < h_next h -> deref h' l = deref h l)
  /\ (forall i item, data !! i = Some item ->
        exists c, out !! i = Some c /\ h_next h <= c
          /\ (forall field,
                field ∉ text_fields \/ deref h item !! field = None
                \/ (exists v, deref h item !! field = Some v /\ truthy v = false) ->
                deref h' c !! field = deref h item !! field)
          /\ (forall field v,
                field ∈ text_fields -> deref h item !! field = Some v ->
                truthy v = true ->
                deref h' c !! field = Some (preprocess transform v))).
Proof.
  intros Hall h' out.
  destruct (clean_text_fields_loop transform text_fields data h [] Hall)
    as (Hn & Hout & Hold & Hnew).
  fold (clean_text_fields transform h data text_fields) in Hn, Hout, Hold, Hnew.
  fold h' in Hn, Hold, Hnew. fold out in Hout. simpl in Hout.
  split; [by rewrite Hout, length_seq|]. split; [exact Hold|].
  intros i item Hi. exists (h_next h + i).
  split.
  { rewrite Hout. apply lookup_seq_lt. by eapply lookup_lt_Some. }
  split; [lia|]. rewrite (Hnew i item Hi). split.
  - intros field Hf. by apply cleaned_frame.
  - intros field v. apply cleaned_listed.
Qed.

Lemma C10_clean_text_fields_frame_witness :
  Forall (fun l => l < h_next sample_heap) sample_refs
  /\ length (clean_text_fields lower sample_heap sample_refs ["title"; "selftext"]).2 = 4
  /\ (forall l, l < 3 ->
        deref (clean_text_fields lower sample_heap sample_refs ["title"; "selftext"]).1 l
        = deref sample_heap l).
Proof.
  assert (Forall (fun l => l < h_next sample_heap) sample_refs) as H.
  { repeat constructor. }
  split; [exact H|].
  destruct (C10_clean_text_fields_frame lower sample_heap sample_refs
              ["title"; "selftext"] H) as (Hlen & Hold & _).
  split; [exact Hlen|exact Hold].
Defined.

Example clean_text_fields_sample :
  let res := clean_text_fields lower sample_heap sample_refs ["title"; "selftext"] in
  res.2 = [3; 4; 5; 6]
  /\ deref res.1 3 = {[ "id" := VStr "a"; "title" := VStr "hello world"; "score" := VInt 3 ]}
  /\ deref res.1 4 = {[ "id" := VStr "b"; "title" := VStr ""; "score" := VInt 0 ]}
  /\ deref res.1 0 = {[ "id" := VStr "a"; "title" := VStr "Hello World"; "score" := VInt 3 ]}.
Proof. cbv zeta. repeat split; vm_compute; reflexivity. Qed.

(** ** Filter maps *)

Lemma filter_none {A} (P : A -> Prop) `{!forall x, Decision (P x)} (l : list A) :
  (forall x, x ∈ l -> ~ P x) -> filter P l = [].
Proof.
  induction l as [|x l IH]; intros Hno; [done|].
  rewrite filter_cons_False by (apply Hno; left).
  apply IH. intros y Hy. apply Hno. by right.
Qed.

Lemma filters_given_singleton k v :
  filters_given (Some {[ k := v ]}) = Some {[ k := v ]}.
Proof.
  unfold filters_given. destruct (decide _) as [E|]; [|done].
  exfalso. by apply (map_non_empty_singleton k v).
Qed.

Lemma filters_given_empty : filters_given (Some ∅) = None.
Proof. unfold filters_given. by destruct (decide _). Qed.

(** ** [JSONStorage] *)

Lemma json_matches_singleton post k v :
  JSONStorage.matches post {[ k := v ]} = py_eq (get post k) v.
Proof.
  unfold JSONStorage.matches. rewrite map_to_list_singleton. simpl.
  apply andb_true_r.
Qed.

Lemma json_select_singleton posts k v :
  JSONStorage.select posts (Some {[ k := v ]})
  = filter (fun post => py_eq (get post k) v) posts.
Proof.
  unfold JSONStorage.select. rewrite filters_given_singleton.
  apply filter_ext_in. intros post _. by rewrite json_matches_singleton.
Qed.

Lemma json_index_by_id d posts :
  Forall (fun r => is_Some (r !! "id")) posts ->
  JSONStorage.index_by_id d posts = Ok (build d (keyed "id" posts)).
Proof.
  intros Hall. revert d. induction Hall as [|post posts [k Hk] _ IH]; intros d; [done|].
  rewrite (keyed_cons_some _ _ _ _ Hk).
  cbn [JSONStorage.index_by_id]. unfold getitem. rewrite Hk. simpl. apply IH.
Qed.

(** Saving is deduplicating the old content followed by the new records,
    and writing the result as JSON. *)
Lemma json_save_dedup existing posts :
  Forall (fun r => is_Some (r !! "id")) (existing ++ posts) ->
  JSONStorage.save existing posts
  = Ok (JSONStorage.json_record <$> remove_duplicates (existing ++ posts) "id").
Proof.
  intros [Hex Hposts]%Forall_app. unfold JSONStorage.save.
  rewrite (json_index_by_id _ _ Hex). simpl.
  rewrite (json_index_by_id _ _ Hposts). simpl.
  by rewrite remove_duplicates_build, keyed_app, build_app.
Qed.

Lemma json_record_id r s :
  r !! "id" = Some (VStr s) -> JSONStorage.json_record r !! "id" = Some (VStr s).
Proof. intros H. unfold JSONStorage.json_record. by rewrite lookup_fmap, H. Qed.

(** The upsert of [JSONStorage]: after a save, the file holds for the
    identifier of a saved record exactly one record, the JSON form of the
    last record of the batch that bears the identifier. *)
Lemma json_upsert existing pre p suf s :
  Forall has_string_id (existing ++ pre ++ p :: suf) ->
  p !! "id" = Some (VStr s) ->
  Forall (fun r => r !! "id" <> Some (VStr s)) suf ->
  exists st,
    JSONStorage.save existing (pre ++ p :: suf) = Ok st
    /\ JSONStorage.select st (by_id s) = [JSONStorage.json_record p].
Proof.
  intros Hids Hp Hsuf.
  eexists. split.
  { apply json_save_dedup. eapply Forall_impl; [exact Hids|].
    intros r [t Ht]. by rewrite Ht. }
  unfold by_id. rewrite json_select_singleton.
  set (data := existing ++ pre ++ p :: suf).
  assert (p ∈ remove_duplicates data "id") as Hin.
  { apply remove_duplicates_elem. exists (existing ++ pre), suf, (VStr s).
    split; [by unfold data; rewrite <- app_assoc|]. split; [done|].
    intros r k Hr Hk. destruct (py_eq (VStr s) k) eqn:E; [|done].
    apply py_eq_str in E as ->.
    by destruct (proj1 (Forall_forall _ _) Hsuf r Hr). }
  assert (forall r, r ∈ remove_duplicates data "id" -> has_string_id r) as Hout.
  { intros r (a & b & k & Hsplit & _)%remove_duplicates_elem.
    apply (proj1 (Forall_forall _ _) Hids). fold data. rewrite Hsplit.
    apply elem_of_app. right. left. }
  apply list_elem_of_split in Hin as (a & b & Hsplit).
  assert (forall i r, (a ++ p :: b) !! i = Some r -> i <> length a ->
                      r !! "id" <> Some (VStr s)) as Hother.
  { intros i r Hi Hne Hr. apply Hne.
    eapply (remove_duplicates_unique data "id" i (length a) r p (VStr s) (VStr s));
      rewrite ?Hsplit; [done| |done|done|].
    - by rewrite list_lookup_middle.
    - by apply py_eq_str. }
  rewrite Hsplit, fmap_app, fmap_cons, filter_app, filter_cons_True.
  2:{ unfold get. rewrite (json_record_id _ _ Hp). simpl. by apply Is_true_true, py_eq_str. }
  rewrite !filter_none; [done| |].
  - intros r' (r & -> & Hr)%list_elem_of_fmap Hm.
    apply list_elem_of_lookup in Hr as (i & Hi).
    destruct (Hout r) as [t Ht].
    { rewrite Hsplit. apply elem_of_app. right. right. by eapply list_elem_of_lookup_2. }
    apply (Hother (S (length a + i)) r).
    + rewrite lookup_app_r by lia.
      replace (S (length a + i) - length a) with (S i) by lia. done.
    + lia.
    + unfold get in Hm. rewrite (json_record_id _ _ Ht) in Hm. simpl in Hm.
      apply Is_true_true, py_eq_str_r in Hm. congruence.
  - intros r' (r & -> & Hr)%list_elem_of_fmap Hm.
    apply list_elem_of_lookup in Hr as (i & Hi).
    destruct (Hout r) as [t Ht].
    { rewrite Hsplit. apply elem_of_app. left. by eapply list_elem_of_lookup_2. }
    apply (Hother i r).
    + by rewrite lookup_app_l by (by eapply lookup_lt_Some).
    + apply lookup_lt_Some in Hi. lia.
    + unfold get in Hm. rewrite (json_record_id _ _ Ht) in Hm. simpl in Hm.
      apply Is_true_true, py_eq_str_r in Hm. congruence.
Qed.

(** ** Filters of the SQLite and CSV backends *)

Lemma filter_fmap {A B} (f : A -> B) (P : B -> Prop) `{!forall y, Decision (P y)}
    (l : list A) :
  filter P (f <$> l) = f <$> filter (fun x => P (f x)) l.
Proof.
  induction l as [|x l IH]; [done|].
  rewrite fmap_cons, !filter_cons, IH. by destruct (decide (P (f x))).
Qed.

Lemma sqlite_to_dict_lookup cols row c :
  c ∈ SQLiteStorage.names cols ->
  SQLiteStorage.to_dict cols row !! c = Some (get row c).
Proof.
  unfold SQLiteStorage.to_dict, SQLiteStorage.names.
  induction cols as [|col cols IH]; [by intros ?%elem_of_nil|].
  rewrite !fmap_cons. simpl. intros Hin.
  destruct (decide (SQLiteStorage.name col = c)) as [->|Hne].
  - apply lookup_insert_eq.
  - rewrite lookup_insert_ne by done. apply IH.
    apply elem_of_cons in Hin as [?|?]; [congruence|done].
Qed.

Lemma sqlite_to_dict_get cols row c :
  c ∈ SQLiteStorage.names cols -> get (SQLiteStorage.to_dict cols row) c = get row c.
Proof. intros H. unfold get at 1. by rewrite sqlite_to_dict_lookup. Qed.

Lemma sqlite_select_singleton cols rows k v :
  k ∈ SQLiteStorage.names cols ->
  SQLiteStorage.select cols rows (Some {[ k := v ]})
  = filter (fun r => py_eq (get r k) v) (SQLiteStorage.to_dict cols <$> rows).
Proof.
  intros Hk. unfold SQLiteStorage.select.
  rewrite filters_given_singleton, map_to_list_singleton. simpl.
  unfold SQLiteStorage.filter_step. simpl.
  destruct (decide (k ∈ SQLiteStorage.names cols)); [|done].
  rewrite filter_fmap. f_equal. apply filter_ext_in. intros row _.
  unfold SQLiteStorage.sql_eq. by rewrite sqlite_to_dict_get.
Qed.

Lemma csv_to_record_lookup cols row c :
  CSVStorage.to_record cols row !! c
  = if decide (c ∈ cols) then Some (CSVStorage.cell row c) else None.
Proof.
  unfold CSVStorage.to_record. rewrite map_lookup_imap, lookup_gset_to_gmap.
  destruct (decide (c ∈ cols)); simpl.
  - by rewrite option_guard_True.
  - by rewrite option_guard_False.
Qed.


Lemma csv_select_none read_csv written df :
  read_csv written = Ok df ->
  CSVStorage.select read_csv (Some written) None = Ok (CSVStorage.to_dict df)
  /\ CSVStorage.select read_csv (Some written) (Some ∅) = Ok (CSVStorage.to_dict df).
Proof.
  intros Hread. unfold CSVStorage.select. rewrite Hread.
  cbn -[filters_given]. by rewrite filters_given_empty.
Qed.

Lemma csv_select_singleton read_csv written df k v :
  read_csv written = Ok df ->
  CSVStorage.select read_csv (Some written) (Some {[ k := v ]})
  = Ok (CSVStorage.to_dict (CSVStorage.filter_step df (k, v))).
Proof.
  intros Hread. unfold CSVStorage.select. rewrite Hread.
  cbn -[filters_given]. by rewrite filters_given_singleton, map_to_list_singleton.
Qed.


Lemma csv_filter_step_absent df k v :
  k ∉ CSVStorage.columns df -> CSVStorage.filter_step df (k, v) = df.
Proof.
  intros Hk. unfold CSVStorage.filter_step. simpl.
  by destruct (decide (k ∈ CSVStorage.columns df)).
Qed.



(** ** Records that lack a filtered field *)

Lemma json_matches_missing post filters key value :
  filters !! key = Some value -> post !! key = None -> value <> VNone ->
  JSONStorage.matches post filters = false.
Proof.
  intros Hf Hp Hv. unfold JSONStorage.matches.
  destruct (forallb _ _) eqn:E; [|done].
  rewrite forallb_forall in E.
  specialize (E (key, value)). simpl in E.
  rewrite <- list_elem_of_In, elem_of_map_to_list in E. specialize (E Hf).
  unfold get in E. rewrite Hp in E. simpl in E. by destruct value.
Qed.

Lemma csv_fold_filter_step kvs df :
  CSVStorage.columns (fold_left CSVStorage.filter_step kvs df) = CSVStorage.columns df
  /\ (forall row, row ∈ CSVStorage.rows (fold_left CSVStorage.filter_step kvs df) ->
        row ∈ CSVStorage.rows df
        /\ forall kv, kv ∈ kvs -> kv.1 ∈ CSVStorage.columns df ->
             CSVStorage.series_eq (CSVStorage.cell row kv.1) kv.2 = true).
Proof.
  revert df. induction kvs as [|kv kvs IH]; intros df; simpl.
  - split; [done|]. intros row Hrow. split; [done|]. by intros kv ?%elem_of_nil.
  - destruct (IH (CSVStorage.filter_step df kv)) as [Hcols Hrows].
    assert (CSVStorage.columns (CSVStorage.filter_step df kv) = CSVStorage.columns df) as Hc.
    { unfold CSVStorage.filter_step. by destruct (decide _). }
    split; [congruence|]. intros row Hrow.
    destruct (Hrows row Hrow) as [Hin Hall]. rewrite Hc in Hall.
    assert (row ∈ CSVStorage.rows df
            /\ (kv.1 ∈ CSVStorage.columns df ->
                CSVStorage.series_eq (CSVStorage.cell row kv.1) kv.2 = true)) as [Hin' Hkv].
    { revert Hin. unfold CSVStorage.filter_step.
      destruct (decide (kv.1 ∈ CSVStorage.columns df)) as [Hk|Hk]; simpl.
      - intros [Hm ?]%list_elem_of_filter. split; [done|]. intros _.
        by apply Is_true_true.
      - intros ?. split; [done|]. by intros ?. }
    split; [done|]. intros kv' [->|Hkv']%elem_of_cons; [done|]. by apply Hall.
Qed.

(** C8, as stated, fails: for the JSON backend a record that lacks the field
    matches the target [None]; for the CSV backend a filter on a column the
    table does not have is skipped, so the record is returned. *)
Lemma C8_missing_field_still_returned :
  ~ missing_field_excluded_json scoreless_post {[ "flair" := VNone ]}
  /\ JSONStorage.get_posts scoreless_json (Some {[ "flair" := VNone ]}) = [scoreless_post]
  /\ CSVStorage.get_posts Pandas.read_csv scoreless_csv (Some {[ "flair" := VStr "News" ]})
     = Ok [scoreless_post].
Proof.
  split; [|split; reflexivity].
  intros H. specialize (H "flair" VNone eq_refl eq_refl). vm_compute in H. discriminate.
Qed.

(** C8, amended.  JSON backend: a record that lacks a field named by the
    filter map does not match and is not returned, for every target value
    other than [None]; for the target [None] the missing field counts as
    equal.  CSV backend: when the table has the column, every record
    returned has a value in it, so a record whose cell is missing is not
    returned, whatever the target; when the table has no such column, the
    filter entry is skipped. *)
Theorem C8_missing_field :
  (forall (post filters : record) key value,
      filters !! key = Some value -> post !! key = None ->
      (value <> VNone ->
       JSONStorage.matches post filters = false
       /\ forall posts, post ∉ JSONStorage.select posts (Some filters))
      /\ JSONStorage.matches post {[ key := VNone ]} = true)
  /\ (forall (read_csv : CSVStorage.frame -> result CSVStorage.frame)
             (written df : CSVStorage.frame) (filters : record) key value,
      read_csv written = Ok df -> filters !! key = Some value ->
      (key ∈ CSVStorage.columns df ->
       exists out,
         CSVStorage.select read_csv (Some written) (Some filters) = Ok out
         /\ forall r, r ∈ out -> CSVStorage.isna (get r key) = false)
      /\ (key ∉ CSVStorage.columns df ->
          CSVStorage.select read_csv (Some written) (Some {[ key := value ]})
          = CSVStorage.select read_csv (Some written) None)).
Proof.
  split.
  - intros post filters key value Hf Hp. split.
    + intros Hv.
      pose proof (json_matches_missing post filters key value Hf Hp Hv) as Hm.
      split; [done|]. intros posts. unfold JSONStorage.select, filters_given.
      destruct (decide (filters = ∅)) as [->|_]; [by rewrite lookup_empty in Hf|].
      intros [Hm' _]%list_elem_of_filter. by rewrite Hm in Hm'.
    + rewrite json_matches_singleton. unfold get. by rewrite Hp.
  - intros read_csv written df filters key value Hread Hf. split.
    + intros Hcol. unfold CSVStorage.select. rewrite Hread.
      cbn -[filters_given]. eexists. split; [reflexivity|].
      unfold filters_given.
      destruct (decide (filters = ∅)) as [->|_]; [by rewrite lookup_empty in Hf|].
      destruct (csv_fold_filter_step (map_to_list filters) df) as [Hcols Hrows].
      unfold CSVStorage.to_dict. rewrite Hcols.
      intros r (row & -> & Hrow)%list_elem_of_fmap.
      destruct (Hrows row Hrow) as [_ Hall].
      specialize (Hall (key, value)). simpl in Hall.
      rewrite elem_of_map_to_list in Hall. specialize (Hall Hf Hcol).
      unfold get. rewrite csv_to_record_lookup.
      destruct (decide (key ∈ CSVStorage.columns df)); [|done]. simpl.
      unfold CSVStorage.series_eq in Hall.
      by destruct (CSVStorage.isna (CSVStorage.cell row key)).
    + intros Hcol.
      rewrite (csv_select_singleton read_csv written df _ _ Hread).
      rewrite csv_filter_step_absent by done.
      by destruct (csv_select_none read_csv written df Hread) as [-> _].
Qed.

(** ** [SQLiteStorage]: one transaction per call *)

Lemma table_of_set_table m rows d :
  SQLiteStorage.table_of m (SQLiteStorage.set_table m rows d) = rows.
Proof. by destruct m. Qed.

Lemma set_table_set_table m rows1 rows2 d :
  SQLiteStorage.set_table m rows2 (SQLiteStorage.set_table m rows1 d)
  = SQLiteStorage.set_table m rows2 d.
Proof. by destruct m. Qed.

Lemma set_table_table_of m d :
  SQLiteStorage.set_table m (SQLiteStorage.table_of m d) d = d.
Proof. by destruct m, d. Qed.

(** The loop writes to the open transaction only, and there to the table of
    its class only; on that table it does what [rows_saved] does. *)
Lemma save_loop_rows m batch s p :
  exists s' p' r,
    SQLiteStorage.save_loop m s p batch = (s', p', r)
    /\ SQLiteStorage.stored s' = SQLiteStorage.stored s
    /\ SQLiteStorage.txn s'
       = SQLiteStorage.set_table m (SQLiteStorage.table_of m (SQLiteStorage.txn s'))
           (SQLiteStorage.txn s)
    /\ rows_saved (SQLiteStorage.columns_of m)
         (SQLiteStorage.table_of m (SQLiteStorage.txn s)) p batch
       = match r with
         | Ok _ =>
             SQLiteStorage.flush_rows (SQLiteStorage.columns_of m)
               (SQLiteStorage.table_of m (SQLiteStorage.txn s')) p'
         | Raise e => Raise e
         end.
Proof.
  revert s p. induction batch as [|post_data rest IH]; intros s p.
  - exists s, p, (Ok tt). split; [done|]. split; [done|].
    split; [by rewrite set_table_table_of|done].
  - cbn [SQLiteStorage.save_loop rows_saved].
    destruct (getitem post_data "id") as [k|e]; cbn [mbind result_bind].
    2:{ exists s, p, (Raise e). split; [done|]. split; [done|].
        split; [by rewrite set_table_table_of|done]. }
    unfold SQLiteStorage.flush.
    destruct (SQLiteStorage.flush_rows (SQLiteStorage.columns_of m)
                (SQLiteStorage.table_of m (SQLiteStorage.txn s)) p) as [rows|e];
      cbn [mbind result_bind].
    2:{ exists s, p, (Raise e). split; [done|]. split; [done|].
        split; [by rewrite set_table_table_of|done]. }
    set (s1 := {| SQLiteStorage.stored := SQLiteStorage.stored s;
                  SQLiteStorage.txn := SQLiteStorage.set_table m rows (SQLiteStorage.txn s) |}).
    assert (SQLiteStorage.table_of m (SQLiteStorage.txn s1) = rows) as Hrows
      by apply table_of_set_table.
    rewrite Hrows.
    assert (forall p1,
      exists s' p' r,
        SQLiteStorage.save_loop m s1 p1 rest = (s', p', r)
        /\ SQLiteStorage.stored s' = SQLiteStorage.stored s
        /\ SQLiteStorage.txn s'
           = SQLiteStorage.set_table m (SQLiteStorage.table_of m (SQLiteStorage.txn s'))
               (SQLiteStorage.txn s)
        /\ rows_saved (SQLiteStorage.columns_of m) rows p1 rest
           = match r with
             | Ok _ =>
                 SQLiteStorage.flush_rows (SQLiteStorage.columns_of m)
                   (SQLiteStorage.table_of m (SQLiteStorage.txn s')) p'
             | Raise e => Raise e
             end) as Hnext.
    { intros p1. destruct (IH s1 p1) as (s' & p' & r & Hl & Hst & Htx & Hr).
      exists s', p', r. split; [done|]. split; [done|]. split.
      - rewrite Htx at 1. cbn [s1 SQLiteStorage.txn]. apply set_table_set_table.
      - by rewrite <- Hr, Hrows. }
    destruct (SQLiteStorage.first_by_id rows k) as [rowid|]; cbn [mbind result_bind].
    + apply Hnext.
    + destruct (decide _); cbn [mbind result_bind]; [apply Hnext|].
      exists s1, SQLiteStorage.Clean, (Raise TypeError).
      split; [done|]. split; [done|]. split; [|done].
      by rewrite Hrows.
Qed.

Lemma try_save_rows m s batch :
  match rows_saved (SQLiteStorage.columns_of m)
          (SQLiteStorage.table_of m (SQLiteStorage.txn s)) SQLiteStorage.Clean batch with
  | Ok rows =>
      SQLiteStorage.try_save m s batch
      = (SQLiteStorage.at_rest (SQLiteStorage.set_table m rows (SQLiteStorage.txn s)),
         SQLiteStorage.Clean, Ok tt)
  | Raise e =>
      exists s1 p,
        SQLiteStorage.try_save m s batch = (s1, p, Raise e)
        /\ SQLiteStorage.stored s1 = SQLiteStorage.stored s
  end.
Proof.
  unfold SQLiteStorage.try_save.
  destruct (save_loop_rows m batch s SQLiteStorage.Clean)
    as (s' & p' & r & -> & Hst & Htx & ->).
  destruct r as [[]|e]; [|by exists s', p'].
  unfold SQLiteStorage.commit, SQLiteStorage.flush.
  destruct (SQLiteStorage.flush_rows _ _ p') as [rows|e]; cbn [mbind result_bind].
  - cbn [SQLiteStorage.txn]. by rewrite Htx, set_table_set_table.
  - by exists s', p'.
Qed.

(** Seen from the caller, a save is its table-level loop between two
    sessions at rest. *)
Lemma save_posts_rows s batch :
  SQLiteStorage.save_posts s batch
  = match rows_saved SQLiteStorage.Post
            (SQLiteStorage.posts (SQLiteStorage.txn s)) SQLiteStorage.Clean batch with
    | Ok rows =>
        (SQLiteStorage.at_rest
           {| SQLiteStorage.posts := rows;
              SQLiteStorage.comments := SQLiteStorage.comments (SQLiteStorage.txn s) |},
         Ok tt)
    | Raise e => (SQLiteStorage.at_rest (SQLiteStorage.stored s), Raise e)
    end.
Proof.
  unfold SQLiteStorage.save_posts.
  pose proof (try_save_rows SQLiteStorage.PostClass s batch) as H.
  cbn [SQLiteStorage.columns_of SQLiteStorage.table_of SQLiteStorage.set_table] in H.
  destruct (rows_saved _ _ _ _) as [rows|e].
  - by rewrite H.
  - destruct H as (s1 & p & -> & Hst). unfold SQLiteStorage.rollback. by rewrite Hst.
Qed.

Lemma save_comments_rows s batch :
  SQLiteStorage.save_comments s batch
  = match rows_saved SQLiteStorage.Comment
            (SQLiteStorage.comments (SQLiteStorage.txn s)) SQLiteStorage.Clean batch with
    | Ok rows =>
        (SQLiteStorage.at_rest
           {| SQLiteStorage.posts := SQLiteStorage.posts (SQLiteStorage.txn s);
              SQLiteStorage.comments := rows |},
         Ok tt)
    | Raise e => (SQLiteStorage.at_rest (SQLiteStorage.stored s), Raise e)
    end.
Proof.
  unfold SQLiteStorage.save_comments.
  pose proof (try_save_rows SQLiteStorage.CommentClass s batch) as H.
  cbn [SQLiteStorage.columns_of SQLiteStorage.table_of SQLiteStorage.set_table] in H.
  destruct (rows_saved _ _ _ _) as [rows|e].
  - by rewrite H.
  - destruct H as (s1 & p & -> & Hst). unfold SQLiteStorage.rollback. by rewrite Hst.
Qed.

(** What a [try] block that raises leaves to the handler. *)
Lemma try_save_raises m s batch s1 p e :
  SQLiteStorage.try_save m s batch = (s1, p, Raise e) ->
  SQLiteStorage.stored s1 = SQLiteStorage.stored s.
Proof.
  intros H. pose proof (try_save_rows m s batch) as Hrows.
  destruct (rows_saved _ _ _ _) as [rows|e'].
  - rewrite Hrows in H. by injection H.
  - destruct Hrows as (s1' & p1' & Hrows & Hst). rewrite Hrows in H.
    injection H as -> _ _. done.
Qed.

Lemma at_rest_stored_txn (s : SQLiteStorage.session) :
  SQLiteStorage.txn s = SQLiteStorage.stored s ->
  SQLiteStorage.at_rest (SQLiteStorage.stored s) = s.
Proof. destruct s as [st tx]. cbn. by intros ->. Qed.

(** C7.  For the SQLite backend every [save_posts] and [save_comments] call
    is atomic.  When the loop or the commit raises, the handler finds the
    session with whatever the call has written so far in the open
    transaction and whatever object is pending; nothing of it is committed.
    The handler rolls back and raises the same exception again: the
    committed state is the one before the call, the open transaction holds
    nothing but it and nothing is pending, so a session that was at rest
    before the call is the same session after it and a later commit cannot
    persist a write of the failed call.  The rollback is what does it: there
    are failing calls (the last conjunct) whose transaction holds a row of
    the batch, and another object of it pending, when the handler runs. *)
Theorem C7_sqlite_save_atomic :
  (forall (s : SQLiteStorage.session) (batch : list record),
      (forall s1 p e,
          SQLiteStorage.try_save SQLiteStorage.PostClass s batch = (s1, p, Raise e) ->
          SQLiteStorage.stored s1 = SQLiteStorage.stored s
          /\ SQLiteStorage.save_posts s batch = (SQLiteStorage.rollback s1 p, Raise e))
      /\ (forall s1 p e,
          SQLiteStorage.try_save SQLiteStorage.CommentClass s batch = (s1, p, Raise e) ->
          SQLiteStorage.stored s1 = SQLiteStorage.stored s
          /\ SQLiteStorage.save_comments s batch = (SQLiteStorage.rollback s1 p, Raise e))
      /\ (forall s' e,
          SQLiteStorage.save_posts s batch = (s', Raise e)
          \/ SQLiteStorage.save_comments s batch = (s', Raise e) ->
          SQLiteStorage.stored s' = SQLiteStorage.stored s
          /\ SQLiteStorage.txn s' = SQLiteStorage.stored s
          /\ (SQLiteStorage.txn s = SQLiteStorage.stored s -> s' = s)))
  /\ (exists s1,
        SQLiteStorage.try_save SQLiteStorage.PostClass two_posts_db
          [full_post "c3" 1; full_post "d4" 2; delete "id" (full_post "e5" 3)]
        = (s1, SQLiteStorage.Insert (full_post "d4" 2), Raise KeyError)
        /\ SQLiteStorage.stored s1 = SQLiteStorage.stored two_posts_db
        /\ SQLiteStorage.posts (SQLiteStorage.txn s1)
           = SQLiteStorage.posts (SQLiteStorage.stored two_posts_db) ++ [full_post "c3" 1]
        /\ SQLiteStorage.save_posts two_posts_db
             [full_post "c3" 1; full_post "d4" 2; delete "id" (full_post "e5" 3)]
           = (two_posts_db, Raise KeyError)).
Proof.
  split.
  - intros s batch. split; [|split].
    + intros s1 p e H. split; [by eapply try_save_raises|].
      unfold SQLiteStorage.save_posts. by rewrite H.
    + intros s1 p e H. split; [by eapply try_save_raises|].
      unfold SQLiteStorage.save_comments. by rewrite H.
    + intros s' e H.
      assert (s' = SQLiteStorage.at_rest (SQLiteStorage.stored s)) as ->.
      { destruct H as [H|H]; [rewrite save_posts_rows in H|rewrite save_comments_rows in H];
          destruct (rows_saved _ _ _ _); by injection H. }
      split; [done|]. split; [done|]. apply at_rest_stored_txn.
  - exists {| SQLiteStorage.stored := SQLiteStorage.stored two_posts_db;
              SQLiteStorage.txn :=
                {| SQLiteStorage.posts :=
                     SQLiteStorage.posts (SQLiteStorage.stored two_posts_db)
                     ++ [full_post "c3" 1];
                   SQLiteStorage.comments := [] |} |}.
    repeat split; reflexivity.
Qed.

(** ** [SQLiteStorage]: update or insert *)

Lemma sqlite_bind_all cols obj :
  Forall (fun c => accepts c (get obj (SQLiteStorage.name c)) = true) cols ->
  SQLiteStorage.bind_all cols obj
  = Ok ((fun c => (SQLiteStorage.name c, get obj (SQLiteStorage.name c))) <$> cols).
Proof.
  induction 1 as [|c cols Hc _ IH]; [done|].
  simpl. unfold accepts in Hc. apply andb_true_iff in Hc as [Hb _].
  apply bool_decide_eq_true in Hb. rewrite Hb. simpl. by rewrite IH.
Qed.

Lemma sqlite_not_null cols row :
  Forall (fun c => SQLiteStorage.nullable c = false ->
                   get row (SQLiteStorage.name c) <> VNone) cols ->
  SQLiteStorage.not_null cols row = Ok tt.
Proof.
  induction 1 as [|c cols Hc _ IH]; [done|].
  simpl. destruct (SQLiteStorage.nullable c); simpl; [done|].
  rewrite bool_decide_eq_false_2 by by apply Hc. done.
Qed.

Lemma accepts_not_null c v :
  accepts c v = true -> SQLiteStorage.nullable c = false -> v <> VNone.
Proof.
  unfold accepts. intros [_ H]%andb_true_iff Hn. rewrite Hn in H. simpl in H.
  apply negb_true_iff, bool_decide_eq_false in H. done.
Qed.

Lemma sqlite_changes_lookup cols (p : record) c :
  filter (fun kv : string * pyval => kv.1 ∈ SQLiteStorage.names cols) p !! c
  = if decide (c ∈ SQLiteStorage.names cols) then p !! c else None.
Proof.
  destruct (decide (c ∈ SQLiteStorage.names cols)) as [Hc|Hc].
  - destruct (p !! c) as [v|] eqn:E.
    + by apply map_lookup_filter_Some.
    + apply map_lookup_filter_None. left. done.
  - apply map_lookup_filter_None. right. intros v _. done.
Qed.

Lemma sqlite_changed_names cols changes c :
  c ∈ SQLiteStorage.names (SQLiteStorage.changed cols changes)
  <-> c ∈ SQLiteStorage.names cols /\ is_Some (changes !! c).
Proof.
  unfold SQLiteStorage.names, SQLiteStorage.changed.
  rewrite !list_elem_of_fmap. split.
  - intros (col & -> & [Hs Hin]%list_elem_of_filter). split; [by exists col|done].
  - intros [(col & -> & Hin) Hs]. exists col. split; [done|].
    by apply list_elem_of_filter.
Qed.

(** What the merged row holds in each column. *)
Lemma merged_lookup cols p old c :
  merged cols p old !! c
  = match p !! c with
    | Some v => if decide (c ∈ SQLiteStorage.names cols) then Some v else old !! c
    | None => old !! c
    end.
Proof.
  unfold merged.
  set (changes := filter (fun kv : string * pyval => kv.1 ∈ SQLiteStorage.names cols) p).
  assert (changes !! c = if decide (c ∈ SQLiteStorage.names cols) then p !! c else None)
    as Hch by apply sqlite_changes_lookup.
  destruct (decide (c ∈ SQLiteStorage.names (SQLiteStorage.changed cols changes)))
    as [Hin|Hout].
  - rewrite (lookup_union_Some_l _ _ _ (get changes c)).
    2:{ by apply sqlite_to_dict_lookup. }
    apply sqlite_changed_names in Hin as [Hc [v Hv]].
    unfold get. rewrite Hv. simpl. rewrite Hv in Hch.
    destruct (decide (c ∈ SQLiteStorage.names cols)); [|done]. by rewrite <- Hch.
  - rewrite lookup_union_r.
    2:{ apply not_elem_of_dom. intros Hd. apply Hout.
        apply elem_of_dom in Hd as [v Hv].
        unfold SQLiteStorage.to_dict in Hv.
        apply elem_of_list_to_map_2 in Hv.
        apply list_elem_of_fmap in Hv as (col & [= -> _] & Hcol).
        apply list_elem_of_fmap. by exists col. }
    destruct (p !! c) as [v|] eqn:Hp; [|done].
    destruct (decide (c ∈ SQLiteStorage.names cols)) as [Hc|Hc]; [|done].
    exfalso. apply Hout, sqlite_changed_names. split; [done|]. rewrite Hch. eauto.
Qed.

Lemma valid_insert_update cols p :
  valid_insert cols p = true -> valid_update cols p = true.
Proof.
  unfold valid_insert, valid_update. intros [_ H]%andb_true_iff.
  rewrite forallb_forall in H. apply forallb_forall. intros c Hc.
  specialize (H c Hc). unfold get in H.
  by destruct (p !! SQLiteStorage.name c).
Qed.

(** A batch of one record whose identifier is stored: the row is updated in
    place with the columns the record supplies. *)
Lemma sqlite_save_one_update cols t p k i old :
  p !! "id" = Some k ->
  SQLiteStorage.first_by_id t k = Some i -> t !! i = Some old ->
  valid_update cols p = true ->
  rows_saved cols t SQLiteStorage.Clean [p]
  = Ok (<[i := merged cols p old]> t).
Proof.
  intros Hid Hfind Hold Hvalid.
  cbn [rows_saved]. unfold getitem. rewrite Hid.
  cbn [mbind result_bind SQLiteStorage.flush_rows]. rewrite Hfind.
  cbn [mbind result_bind SQLiteStorage.flush_rows].
  set (changes := filter (fun kv : string * pyval => kv.1 ∈ SQLiteStorage.names cols) p).
  assert (forall c, c ∈ SQLiteStorage.changed cols changes ->
            p !! SQLiteStorage.name c = Some (get changes (SQLiteStorage.name c))
            /\ accepts c (get changes (SQLiteStorage.name c)) = true) as Hch.
  { intros c [[v Hv] Hc]%list_elem_of_filter.
    unfold get. rewrite Hv. simpl.
    unfold changes in Hv. rewrite sqlite_changes_lookup in Hv.
    destruct (decide _); [|done]. split; [done|].
    unfold valid_update in Hvalid. rewrite forallb_forall in Hvalid.
    specialize (Hvalid c (proj1 (list_elem_of_In _ _) Hc)). by rewrite Hv in Hvalid. }
  assert (SQLiteStorage.not_null (SQLiteStorage.changed cols changes) (merged cols p old)
          = Ok tt) as Hnn.
  { apply sqlite_not_null, Forall_forall. intros c Hc Hnull.
    destruct (Hch c Hc) as [Hp Hacc].
    unfold get at 1. rewrite merged_lookup, Hp.
    destruct (decide _) as [|Hno]; simpl.
    - by eapply accepts_not_null.
    - exfalso. apply Hno. apply list_elem_of_filter in Hc as [_ Hc].
      apply list_elem_of_fmap. by exists c. }
  rewrite sqlite_bind_all by (apply Forall_forall; intros c Hc; by apply Hch).
  cbn [mbind result_bind]. rewrite Hold. cbn [default].
  unfold merged, SQLiteStorage.to_dict in Hnn |- *. fold changes in Hnn |- *.
  unfold id. by rewrite Hnn.
Qed.

(** A batch of one record whose identifier is not stored: a row is added. *)
Lemma sqlite_save_one_insert cols t p k :
  p !! "id" = Some k ->
  SQLiteStorage.first_by_id t k = None ->
  valid_insert cols p = true ->
  rows_saved cols t SQLiteStorage.Clean [p]
  = Ok (t ++ [SQLiteStorage.to_dict cols p]).
Proof.
  intros Hid Hfind [Hdom Hvalid]%andb_true_iff.
  apply bool_decide_eq_true in Hdom. rewrite forallb_forall in Hvalid.
  cbn [rows_saved]. unfold getitem. rewrite Hid.
  cbn [mbind result_bind SQLiteStorage.flush_rows]. rewrite Hfind.
  destruct (decide _); [|done].
  cbn [mbind result_bind SQLiteStorage.flush_rows].
  rewrite sqlite_bind_all.
  2:{ apply Forall_forall. intros c Hc. apply Hvalid. by apply list_elem_of_In. }
  cbn [mbind result_bind].
  fold (SQLiteStorage.to_dict cols p).
  rewrite sqlite_not_null; [done|].
  apply Forall_forall. intros c Hc Hnull.
  rewrite sqlite_to_dict_get by (apply list_elem_of_fmap; by exists c).
  eapply accepts_not_null; [|done]. apply Hvalid. by apply list_elem_of_In.
Qed.

(** * Further properties *)

(** ** Dictionaries over distinct keys *)

Lemma set_fresh {V} (d : list (pyval * V)) k v :
  Forall (fun e => py_eq e.1 k = false) d -> PyDict.set d k v = d ++ [(k, v)].
Proof.
  induction 1 as [|[k' v'] d Hk _ IH]; [done|].
  simpl in *. by rewrite Hk, IH.
Qed.

Lemma build_fresh {V} (l : list (pyval * V)) :
  (forall i j e1 e2, l !! i = Some e1 -> l !! j = Some e2 -> i <> j ->
                     py_eq e1.1 e2.1 = false) ->
  build [] l = l.
Proof.
  induction l as [|e l IH] using rev_ind; intros Hd; [done|].
  rewrite build_snoc, IH.
  - destruct e as [k v]. simpl. apply set_fresh.
    apply Forall_forall. intros e' He'.
    apply list_elem_of_lookup in He' as (i & Hi).
    apply (Hd i (length l) e' (k, v)).
    + by rewrite lookup_app_l by (by eapply lookup_lt_Some).
    + by rewrite list_lookup_middle.
    + apply lookup_lt_Some in Hi. lia.
  - intros i j e1 e2 Hi Hj. apply Hd.
    + by rewrite lookup_app_l by (by eapply lookup_lt_Some).
    + by rewrite lookup_app_l by (by eapply lookup_lt_Some).
Qed.

Lemma keyed_all key_field data :
  Forall (fun r => is_Some (r !! key_field)) data ->
  (keyed key_field data).*2 = data
  /\ length (keyed key_field data) = length data
  /\ forall i e, keyed key_field data !! i = Some e ->
       data !! i = Some e.2 /\ e.2 !! key_field = Some e.1.
Proof.
  induction 1 as [|r data [k Hk] _ (IH1 & IH2 & IH3)]; [done|].
  rewrite (keyed_cons_some _ _ _ _ Hk).
  split; [rewrite fmap_cons; cbn [snd]; by rewrite IH1|].
  split; [cbn [length]; by rewrite IH2|].
  intros [|i] e.
  - cbn [lookup list_lookup]. by intros [= <-].
  - cbn [lookup list_lookup]. apply IH3.
Qed.

(** A batch in which every record has the key and no two keys are equal is
    its own deduplication. *)
Lemma remove_duplicates_distinct data key_field :
  Forall (fun r => is_Some (r !! key_field)) data ->
  distinct_field key_field data ->
  remove_duplicates data key_field = data.
Proof.
  intros Hall Hd. rewrite remove_duplicates_build. unfold PyDict.values.
  destruct (keyed_all key_field data Hall) as (Hsnd & _ & Hlook).
  rewrite build_fresh; [done|].
  intros i j e1 e2 Hi Hj Hne.
  destruct (Hlook i e1 Hi) as [Hi' Hk1], (Hlook j e2 Hj) as [Hj' Hk2].
  destruct (py_eq e1.1 e2.1) eqn:E; [|done].
  destruct Hne. by eapply (Hd i j).
Qed.

Lemma remove_duplicates_has_key data key_field :
  Forall (fun r => is_Some (r !! key_field)) (remove_duplicates data key_field).
Proof.
  apply Forall_forall. intros r (pre & suf & k & _ & Hk & _)%remove_duplicates_elem.
  by rewrite Hk.
Qed.

Lemma remove_duplicates_length (data : list record) (key_field : string) :
  length (remove_duplicates data key_field) <= length data.
Proof.
  assert (forall (d l : list (pyval * record)), length (build d l) <= length d + length l)
    as Hlen.
  { intros d l. revert d. induction l as [|e l IH]; intros d; simpl; [lia|].
    etransitivity; [apply IH|].
    assert (length (PyDict.set d e.1 e.2) <= S (length d)) as Hs.
    { clear. induction d as [|[k' v'] d IHd]; simpl; [lia|].
      destruct (py_eq k' e.1); simpl; lia. }
    lia. }
  rewrite remove_duplicates_build. unfold PyDict.values. rewrite length_fmap.
  etransitivity; [apply Hlen|]. cbn [length]. clear.
  induction data as [|r data IH]; [done|].
  destruct (r !! key_field) as [k|] eqn:E.
  + rewrite (keyed_cons_some _ _ _ _ E). cbn [length]. lia.
  + rewrite (keyed_cons_none _ _ _ E). cbn [length]. lia.
Qed.

(** X1.  [remove_duplicates] is idempotent: deduplicating its own output
    changes nothing, and the output is never longer than the input. *)
Theorem X1_remove_duplicates_idempotent (data : list record) (key_field : string) :
  remove_duplicates (remove_duplicates data key_field) key_field
  = remove_duplicates data key_field
  /\ length (remove_duplicates data key_field) <= length data.
Proof.
  split.
  - apply remove_duplicates_distinct; [apply remove_duplicates_has_key|].
    intros i j r1 r2 k1 k2. apply remove_duplicates_unique.
  - apply remove_duplicates_length.
Qed.

(** ** [JSONStorage]: outcomes and invariants of a save *)





Lemma json_value_idem v :
  JSONStorage.json_value (JSONStorage.json_value v) = JSONStorage.json_value v.
Proof. by destruct v. Qed.

Lemma json_record_clean r : json_clean (JSONStorage.json_record r).
Proof.
  intros k v. unfold JSONStorage.json_record. rewrite lookup_fmap.
  destruct (r !! k) as [v0|]; simpl; [|done].
  intros [= <-]. apply json_value_idem.
Qed.

Lemma json_clean_record r : json_clean r -> JSONStorage.json_record r = r.
Proof.
  intros Hc. apply map_eq. intros k. unfold JSONStorage.json_record.
  rewrite lookup_fmap. destruct (r !! k) as [v|] eqn:E; simpl; [|done].
  f_equal. by apply (Hc k v).
Qed.

(** X3.  A well-formed file stays well-formed.  After a save of records
    whose identifiers are text, the file holds text identifiers that are
    pairwise different and no [datetime] value; and saving the empty batch
    on such a file rewrites it unchanged. *)
Theorem X3_json_file_invariant (existing posts st' : list record) :
  Forall has_string_id (existing ++ posts) ->
  JSONStorage.save existing posts = Ok st' ->
  Forall has_string_id st'
  /\ distinct_field "id" st'
  /\ Forall json_clean st'
  /\ JSONStorage.save st' [] = Ok st'.
Proof.
  intros Hids Hsave.
  assert (Forall (fun r => is_Some (r !! "id")) (existing ++ posts)) as Hsome.
  { eapply Forall_impl; [exact Hids|]. intros r [t Ht]. by rewrite Ht. }
  rewrite (json_save_dedup _ _ Hsome) in Hsave. injection Hsave as <-.
  set (out := remove_duplicates (existing ++ posts) "id").
  assert (forall r, r ∈ out -> has_string_id r) as Hout.
  { intros r (a & b & k & Hsplit & _)%remove_duplicates_elem.
    apply (proj1 (Forall_forall _ _) Hids). rewrite Hsplit.
    apply elem_of_app. right. left. }
  assert (Forall has_string_id (JSONStorage.json_record <$> out)) as H1.
  { apply Forall_forall. intros r' (r & -> & Hr)%list_elem_of_fmap.
    destruct (Hout r Hr) as [t Ht]. exists t. by apply json_record_id. }
  assert (distinct_field "id" (JSONStorage.json_record <$> out)) as H2.
  { intros i j r1 r2 k1 k2. rewrite !list_lookup_fmap.
    destruct (out !! i) as [x1|] eqn:Ei; [|done].
    destruct (out !! j) as [x2|] eqn:Ej; [|done].
    simpl. intros [= <-] [= <-] Hk1 Hk2 Heq.
    destruct (Hout x1 (list_elem_of_lookup_2 _ _ _ Ei)) as [t1 Ht1].
    destruct (Hout x2 (list_elem_of_lookup_2 _ _ _ Ej)) as [t2 Ht2].
    rewrite (json_record_id _ _ Ht1) in Hk1. rewrite (json_record_id _ _ Ht2) in Hk2.
    injection Hk1 as <-. injection Hk2 as <-.
    by eapply (remove_duplicates_unique (existing ++ posts) "id" i j x1 x2). }
  assert (Forall json_clean (JSONStorage.json_record <$> out)) as H3.
  { apply Forall_forall. intros r' (r & -> & _)%list_elem_of_fmap.
    apply json_record_clean. }
  split; [done|]. split; [done|]. split; [done|].
  rewrite json_save_dedup.
  2:{ rewrite app_nil_r. eapply Forall_impl; [exact H1|]. intros r [t Ht]. by rewrite Ht. }
  rewrite app_nil_r, remove_duplicates_distinct; [|
    eapply Forall_impl; [exact H1|]; intros r [t Ht]; by rewrite Ht | done].
  f_equal. rewrite <- list_fmap_compose.
  apply list_fmap_ext. intros i r Hr. simpl.
  apply json_clean_record, json_record_clean.
Qed.

Lemma X3_json_file_invariant_witness :
  Forall has_string_id (JSONStorage.posts_file two_posts_json ++ [full_post "a1" 9])
  /\ exists st',
       JSONStorage.save (JSONStorage.posts_file two_posts_json) [full_post "a1" 9] = Ok st'
       /\ distinct_field "id" st' /\ JSONStorage.save st' [] = Ok st'.
Proof.
  assert (Forall has_string_id
            (JSONStorage.posts_file two_posts_json ++ [full_post "a1" 9])) as H.
  { repeat constructor; eexists; reflexivity. }
  split; [exact H|]. eexists. split; [reflexivity|].
  destruct (X3_json_file_invariant _ _ _ H eq_refl) as (_ & Hd & _ & Hs).
  split; [exact Hd|exact Hs].
Defined.

(** ** [SQLiteStorage]: what a save stores *)

Lemma first_by_id_some t k i :
  SQLiteStorage.first_by_id t k = Some i ->
  exists old, t !! i = Some old /\ py_eq (get old "id") k = true
              /\ forall j r, t !! j = Some r -> j < i -> py_eq (get r "id") k = false.
Proof.
  unfold SQLiteStorage.first_by_id.
  destruct (list_find _ t) as [[i' old]|] eqn:E; [|done].
  simpl. intros [= ->].
  apply list_find_Some in E as (Hi & Hm & Hbefore).
  exists old. split; [done|]. split; [by apply Is_true_true|].
  intros j r Hj Hlt. specialize (Hbefore j r Hj Hlt).
  unfold SQLiteStorage.sql_eq in Hbefore. by destruct (py_eq (get r "id") k).
Qed.

Lemma first_by_id_none t k :
  SQLiteStorage.first_by_id t k = None ->
  forall r, r ∈ t -> py_eq (get r "id") k = false.
Proof.
  unfold SQLiteStorage.first_by_id.
  destruct (list_find _ t) as [[i' old]|] eqn:E; [done|].
  intros _ r Hr. apply list_find_None in E.
  pose proof (proj1 (Forall_forall _ _) E r Hr) as Hn.
  unfold SQLiteStorage.sql_eq in Hn. by destruct (py_eq (get r "id") k).
Qed.


Lemma pk_unique_filter_insert cols t i old row s :
  "id" ∈ SQLiteStorage.names cols ->
  pk_unique t -> t !! i = Some old ->
  get old "id" = VStr s -> get row "id" = VStr s ->
  filter (fun r => py_eq (get r "id") (VStr s)) (SQLiteStorage.to_dict cols <$> <[i := row]> t)
  = [SQLiteStorage.to_dict cols row].
Proof.
  intros Hcol Hpk Hold Hoid Hrid.
  assert (i < length t) as Hlt by by eapply lookup_lt_Some.
  rewrite insert_take_drop by done.
  rewrite fmap_app, fmap_cons, filter_app, filter_cons_True.
  2:{ rewrite sqlite_to_dict_get, Hrid by done. by apply Is_true_true, py_eq_str. }
  rewrite !filter_none; [done| |].
  - intros r' (r & -> & Hr)%list_elem_of_fmap Hm.
    rewrite sqlite_to_dict_get in Hm by done.
    apply Is_true_true, py_eq_str_r in Hm.
    apply list_elem_of_lookup in Hr as (j & Hj).
    rewrite lookup_drop in Hj.
    assert (S i + j = i) by (eapply Hpk; [exact Hj|exact Hold|congruence]). lia.
  - intros r' (r & -> & Hr)%list_elem_of_fmap Hm.
    rewrite sqlite_to_dict_get in Hm by done.
    apply Is_true_true, py_eq_str_r in Hm.
    apply list_elem_of_lookup in Hr as (j & Hj).
    apply lookup_take_Some in Hj as [Hj Hji].
    assert (j = i) by (eapply Hpk; [exact Hj|exact Hold|congruence]). lia.
Qed.

(** Saving one record and reading it back by its identifier. *)
Lemma sqlite_roundtrip cols t p s :
  "id" ∈ SQLiteStorage.names cols ->
  pk_unique t ->
  p !! "id" = Some (VStr s) ->
  valid_insert cols p = true ->
  exists t' row,
    rows_saved cols t SQLiteStorage.Clean [p] = Ok t'
    /\ SQLiteStorage.select cols t' (by_id s) = [row]
    /\ (forall c v, p !! c = Some v -> row !! c = Some v)
    /\ pk_unique t'.
Proof.
  intros Hcol Hpk Hid Hvalid.
  assert (forall c, is_Some (p !! c) -> c ∈ SQLiteStorage.names cols) as Hdom.
  { unfold valid_insert in Hvalid. apply andb_true_iff in Hvalid as [Hd _].
    apply bool_decide_eq_true in Hd. intros c Hc%elem_of_dom.
    apply Hd in Hc. by apply elem_of_list_to_set in Hc. }
  destruct (SQLiteStorage.first_by_id t (VStr s)) as [i|] eqn:Hfind.
  - destruct (first_by_id_some _ _ _ Hfind) as (old & Hold & Hm%py_eq_str_r & _).
    exists (<[i := merged cols p old]> t), (SQLiteStorage.to_dict cols (merged cols p old)).
    assert (get (merged cols p old) "id" = VStr s) as Hmid.
    { unfold get. rewrite merged_lookup, Hid. by destruct (decide _). }
    split; [by apply (sqlite_save_one_update cols t p (VStr s) i old);
            [| | |apply valid_insert_update]|].
    split; [unfold by_id; rewrite sqlite_select_singleton by done;
            by apply (pk_unique_filter_insert cols t i old)|]. split.
    + intros c v Hc. rewrite sqlite_to_dict_lookup by (apply Hdom; eauto).
      unfold get. rewrite merged_lookup, Hc.
      destruct (decide _) as [|Hno]; [done|]. destruct Hno. apply Hdom. eauto.
    + intros a b r1 r2 Ha Hb Heq.
      apply list_lookup_insert_Some in Ha as [(Hai & <- & _)|[Hna Ha]];
        apply list_lookup_insert_Some in Hb as [(Hbi & <- & _)|[Hnb Hb]].
      * congruence.
      * destruct Hnb. apply (Hpk i b old r2 Hold Hb). congruence.
      * destruct Hna. apply (Hpk i a old r1 Hold Ha). congruence.
      * by apply (Hpk a b r1 r2).
  - pose proof (first_by_id_none _ _ Hfind) as Hnone.
    exists (t ++ [SQLiteStorage.to_dict cols p]),
      (SQLiteStorage.to_dict cols (SQLiteStorage.to_dict cols p)).
    assert (get (SQLiteStorage.to_dict cols p) "id" = VStr s) as Hpid.
    { rewrite sqlite_to_dict_get by done. unfold get. by rewrite Hid. }
    split; [by apply (sqlite_save_one_insert cols t p (VStr s))|]. split; [|split].
    + unfold by_id. rewrite sqlite_select_singleton by done.
      rewrite fmap_app, filter_app, filter_none.
      * simpl. rewrite filter_cons_True, filter_nil; [done|].
        rewrite sqlite_to_dict_get, Hpid by done. by apply Is_true_true, py_eq_str.
      * intros r' (r & -> & Hr)%list_elem_of_fmap Hm.
        rewrite sqlite_to_dict_get in Hm by done.
        apply Is_true_true in Hm. by rewrite (Hnone r Hr) in Hm.
    + intros c v Hc.
      rewrite sqlite_to_dict_lookup by (apply Hdom; eauto).
      rewrite sqlite_to_dict_get by (apply Hdom; eauto).
      unfold get. by rewrite Hc.
    + intros a b r1 r2 Ha Hb Heq.
      apply lookup_app_Some in Ha as [Ha|[Hla Ha]];
        apply lookup_app_Some in Hb as [Hb|[Hlb Hb]].
      * by apply (Hpk a b r1 r2).
      * apply list_lookup_singleton_Some in Hb as [_ <-].
        pose proof (Hnone r1 (list_elem_of_lookup_2 _ _ _ Ha)) as Hn.
        rewrite Heq, Hpid in Hn. by rewrite (proj2 (py_eq_str s (VStr s))) in Hn.
      * apply list_lookup_singleton_Some in Ha as [_ <-].
        pose proof (Hnone r2 (list_elem_of_lookup_2 _ _ _ Hb)) as Hn.
        rewrite <- Heq, Hpid in Hn. by rewrite (proj2 (py_eq_str s (VStr s))) in Hn.
      * apply list_lookup_singleton_Some in Ha as [Ha _].
        apply list_lookup_singleton_Some in Hb as [Hb _]. lia.
Qed.

Lemma two_posts_db_pk_unique :
  pk_unique (SQLiteStorage.posts (SQLiteStorage.txn two_posts_db)).
Proof.
  unfold two_posts_db.
  intros [|[|i]] [|[|j]] r1 r2;
    cbn [SQLiteStorage.posts SQLiteStorage.txn SQLiteStorage.at_rest lookup list_lookup];
    intros [= <-] [= <-] H; try reflexivity; vm_compute in H; discriminate H.
Qed.


(** ** [SQLiteStorage]: whole batches *)

Lemma pk_unique_snoc t row :
  pk_unique t -> (forall r, r ∈ t -> get r "id" <> get row "id") ->
  pk_unique (t ++ [row]).
Proof.
  intros Hpk Hnew a b r1 r2 Ha Hb Heq.
  apply lookup_app_Some in Ha as [Ha|[Hla Ha]];
    apply lookup_app_Some in Hb as [Hb|[Hlb Hb]].
  - by apply (Hpk a b r1 r2).
  - apply list_lookup_singleton_Some in Hb as [_ <-].
    by destruct (Hnew r1 (list_elem_of_lookup_2 _ _ _ Ha)).
  - apply list_lookup_singleton_Some in Ha as [_ <-].
    by destruct (Hnew r2 (list_elem_of_lookup_2 _ _ _ Hb)).
  - apply list_lookup_singleton_Some in Ha as [Ha _].
    apply list_lookup_singleton_Some in Hb as [Hb _]. lia.
Qed.

Lemma pk_unique_update t i old row :
  pk_unique t -> t !! i = Some old -> get row "id" = get old "id" ->
  pk_unique (<[i := row]> t).
Proof.
  intros Hpk Hold Hid a b r1 r2 Ha Hb Heq.
  apply list_lookup_insert_Some in Ha as [(Hai & <- & _)|[Hna Ha]];
    apply list_lookup_insert_Some in Hb as [(Hbi & <- & _)|[Hnb Hb]].
  - congruence.
  - destruct Hnb. apply (Hpk i b old r2 Hold Hb). congruence.
  - destruct Hna. apply (Hpk i a old r1 Hold Ha). congruence.
  - by apply (Hpk a b r1 r2).
Qed.

Section Batches.
Variable rest : list SQLiteStorage.column.
Let cols := SQLiteStorage.mk_column "id" SQLiteStorage.String_ false :: rest.

Lemma bind_all_id obj s params :
  obj !! "id" = Some (VStr s) ->
  SQLiteStorage.bind_all cols obj = Ok params ->
  (list_to_map params : record) !! "id" = Some (VStr s).
Proof.
  intros Hid. unfold cols. cbn [SQLiteStorage.bind_all SQLiteStorage.name SQLiteStorage.type].
  assert (get obj "id" = VStr s) as Hg by (unfold get; by rewrite Hid).
  rewrite Hg. cbn [SQLiteStorage.bind mbind result_bind].
  destruct (SQLiteStorage.bind_all rest obj) as [params'|]; [|done].
  cbn [mbind result_bind]. intros [= <-]. apply lookup_insert_eq.
Qed.

Lemma flush_pk_unique t p t' :
  pk_unique t -> pending_ok t p ->
  SQLiteStorage.flush_rows cols t p = Ok t' -> pk_unique t'.
Proof.
  intros Hpk Hp. destruct p as [|obj|i changes]; cbn [SQLiteStorage.flush_rows].
  - by intros [= <-].
  - destruct Hp as (s & Hid & Hnew).
    destruct (SQLiteStorage.bind_all cols obj) as [params|] eqn:Eb; [|done].
    cbn [mbind result_bind].
    match goal with
    | |- context [SQLiteStorage.not_null ?a ?b] => destruct (SQLiteStorage.not_null a b)
    end; [|done].
    cbn [mbind result_bind]. intros [= <-].
    apply pk_unique_snoc; [done|]. intros r Hr.
    unfold get at 2. rewrite (bind_all_id obj s params Hid Eb). by apply Hnew.
  - destruct Hp as (old & s & Hold & Hoid & Hcid).
    assert (SQLiteStorage.changed cols changes
            = SQLiteStorage.mk_column "id" SQLiteStorage.String_ false
                :: SQLiteStorage.changed rest changes) as Hch.
    { unfold SQLiteStorage.changed, cols. rewrite filter_cons_True; [done|].
      simpl. rewrite Hcid. eauto. }
    rewrite Hch.
    cbn [SQLiteStorage.bind_all SQLiteStorage.name SQLiteStorage.type].
    assert (get changes "id" = VStr s) as Hg by (unfold get; by rewrite Hcid).
    rewrite Hg. cbn [SQLiteStorage.bind mbind result_bind].
    destruct (SQLiteStorage.bind_all (SQLiteStorage.changed rest changes) changes)
      as [params'|]; [|done].
    cbn [mbind result_bind].
    match goal with
    | |- context [SQLiteStorage.not_null ?a ?b] => destruct (SQLiteStorage.not_null a b)
    end; [|done].
    cbn [mbind result_bind]. intros [= <-].
    apply (pk_unique_update t i old); [done|done|].
    rewrite Hoid, Hold. unfold get.
    rewrite (lookup_union_Some_l _ _ "id" (VStr s)); [done|]. apply lookup_insert_eq.
Qed.

Lemma save_loop_pk_unique posts t p t' :
  Forall has_string_id posts ->
  pk_unique t -> pending_ok t p ->
  rows_saved cols t p posts = Ok t' -> pk_unique t'.
Proof.
  intros Hids. revert t p. induction Hids as [|post posts [s Hs] _ IH]; intros t p Hpk Hp.
  - cbn [rows_saved]. by apply flush_pk_unique.
  - cbn [rows_saved]. unfold getitem. rewrite Hs.
    cbn [mbind result_bind].
    destruct (SQLiteStorage.flush_rows cols t p) as [t1|] eqn:Ef; [|done].
    cbn [mbind result_bind].
    pose proof (flush_pk_unique t p t1 Hpk Hp Ef) as Hpk1.
    destruct (SQLiteStorage.first_by_id t1 (VStr s)) as [i|] eqn:Hfind.
    + cbn [mbind result_bind]. apply IH; [done|].
      destruct (first_by_id_some _ _ _ Hfind) as (old & Hold & Hm%py_eq_str_r & _).
      exists old, s. split; [done|]. split; [done|].
      rewrite sqlite_changes_lookup. destruct (decide _) as [|Hno]; [done|].
      destruct Hno. unfold cols. left.
    + destruct (decide _); [|done]. cbn [mbind result_bind]. apply IH; [done|].
      exists s. split; [done|]. intros r Hr Heq.
      pose proof (first_by_id_none _ _ Hfind r Hr) as Hn.
      by rewrite Heq, (proj2 (py_eq_str s (VStr s))) in Hn.
Qed.

Lemma save_loop_missing_id posts t p :
  Exists (fun r => r !! "id" = None) posts ->
  exists e, rows_saved cols t p posts = Raise e.
Proof.
  intros Hex. revert t p.
  induction Hex as [post posts Hnone|post posts _ IH]; intros t p;
    cbn [rows_saved]; unfold getitem.
  - rewrite Hnone. by eexists.
  - destruct (post !! "id") as [k|]; [|by eexists]. cbn [mbind result_bind].
    destruct (SQLiteStorage.flush_rows cols t p) as [t1|]; [|by eexists].
    cbn [mbind result_bind].
    destruct (SQLiteStorage.first_by_id t1 k); cbn [mbind result_bind]; [apply IH|].
    destruct (decide _); [|by eexists]. cbn [mbind result_bind]. apply IH.
Qed.

End Batches.

(** X5.  The primary key survives whole batches.  On tables whose
    identifiers are unique, a batch of records with text identifiers (with
    repeated identifiers, stored ones and new ones in any order) leaves the
    identifiers of the committed and of the visible posts table unique,
    whether the call commits or raises: the loop never inserts a row under
    an identifier the table already has. *)
Theorem X5_sqlite_batch_keeps_ids_unique (s : SQLiteStorage.session) (batch : list record) :
  pk_unique (SQLiteStorage.posts (SQLiteStorage.stored s)) ->
  pk_unique (SQLiteStorage.posts (SQLiteStorage.txn s)) ->
  Forall has_string_id batch ->
  pk_unique (SQLiteStorage.posts (SQLiteStorage.stored (SQLiteStorage.save_posts s batch).1))
  /\ pk_unique (SQLiteStorage.posts (SQLiteStorage.txn (SQLiteStorage.save_posts s batch).1)).
Proof.
  intros Hst Htx Hids. rewrite save_posts_rows.
  destruct (rows_saved SQLiteStorage.Post _ SQLiteStorage.Clean batch)
    as [t'|e] eqn:Hloop; cbn [fst SQLiteStorage.at_rest
                              SQLiteStorage.stored SQLiteStorage.txn SQLiteStorage.posts].
  - assert (pk_unique t') as Hpk; [|done].
    by apply (save_loop_pk_unique (tail SQLiteStorage.Post) batch
                (SQLiteStorage.posts (SQLiteStorage.txn s)) SQLiteStorage.Clean t').
  - done.
Qed.

Lemma X5_sqlite_batch_keeps_ids_unique_witness :
  pk_unique (SQLiteStorage.posts
               (SQLiteStorage.stored
                  (SQLiteStorage.save_posts two_posts_db
                     [full_post "a1" 6; full_post "c3" 1; untitled_post "c3"; full_post "b2" 0]).1))
  /\ pk_unique (SQLiteStorage.posts
                  (SQLiteStorage.txn
                     (SQLiteStorage.save_posts two_posts_db
                        [full_post "a1" 6; full_post "c3" 1; untitled_post "c3"; full_post "b2" 0]).1)).
Proof.
  apply (X5_sqlite_batch_keeps_ids_unique two_posts_db).
  - apply two_posts_db_pk_unique.
  - apply two_posts_db_pk_unique.
  - repeat constructor; eexists; reflexivity.
Defined.

(** X6.  One record without an [id] loses the whole batch.  Wherever it
    stands in the batch, [save_posts] and [save_comments] raise, and the
    session is rolled back to the committed state: none of the records
    before it is kept. *)
Theorem X6_sqlite_batch_without_id_is_lost (s : SQLiteStorage.session)
    (batch : list record) :
  Exists (fun r => r !! "id" = None) batch ->
  (exists e, SQLiteStorage.save_posts s batch = (SQLiteStorage.at_rest (SQLiteStorage.stored s), Raise e))
  /\ (exists e, SQLiteStorage.save_comments s batch = (SQLiteStorage.at_rest (SQLiteStorage.stored s), Raise e)).
Proof.
  intros Hex. rewrite save_posts_rows, save_comments_rows. split.
  - destruct (save_loop_missing_id (tail SQLiteStorage.Post)
                batch (SQLiteStorage.posts (SQLiteStorage.txn s)) SQLiteStorage.Clean Hex)
      as [e He].
    exists e. change SQLiteStorage.Post
      with (SQLiteStorage.mk_column "id" SQLiteStorage.String_ false
              :: tail SQLiteStorage.Post). by rewrite He.
  - destruct (save_loop_missing_id (tail SQLiteStorage.Comment)
                batch (SQLiteStorage.comments (SQLiteStorage.txn s)) SQLiteStorage.Clean Hex)
      as [e He].
    exists e. change SQLiteStorage.Comment
      with (SQLiteStorage.mk_column "id" SQLiteStorage.String_ false
              :: tail SQLiteStorage.Comment). by rewrite He.
Qed.

Lemma X6_sqlite_batch_without_id_is_lost_witness :
  (exists e, SQLiteStorage.save_posts two_posts_db
               [full_post "c3" 1; delete "id" (full_post "d4" 2)]
             = (two_posts_db, Raise e))
  /\ (exists e, SQLiteStorage.save_comments two_posts_db
                  [full_post "c3" 1; delete "id" (full_post "d4" 2)]
                = (two_posts_db, Raise e)).
Proof.
  apply (X6_sqlite_batch_without_id_is_lost two_posts_db).
  apply Exists_cons_tl, Exists_cons_hd. reflexivity.
Defined.

(** ** [DataCleaner.filter_by_score] *)

Lemma lt_int_int z m : lt_int (VInt z) m = Ok (z <? m)%Z.
Proof.
  unfold lt_int. cbn [py_num]. f_equal.
  destruct (Z.ltb_spec z m) as [Hlt|Hge].
  - apply bool_decide_eq_true_2. exact (proj1 (Z2Qc_inj_lt z m) Hlt).
  - apply bool_decide_eq_false_2. intros Hlt. apply (proj2 (Z2Qc_inj_lt z m)) in Hlt. lia.
Qed.

Lemma gt_int_int z m : gt_int (VInt z) m = Ok (m <? z)%Z.
Proof.
  unfold gt_int. cbn [py_num]. f_equal.
  destruct (Z.ltb_spec m z) as [Hlt|Hge].
  - apply bool_decide_eq_true_2. exact (proj1 (Z2Qc_inj_lt m z) Hlt).
  - apply bool_decide_eq_false_2. intros Hlt. apply (proj2 (Z2Qc_inj_lt m z)) in Hlt. lia.
Qed.

Lemma score_keep_int score_field min_score max_score item :
  int_or_absent score_field item ->
  score_keep score_field min_score max_score item
  = Ok (score_in score_field min_score max_score item).
Proof.
  unfold score_keep, score_in. intros [-> | [z ->]]; [done|].
  destruct min_score as [m|], max_score as [M|]; cbn [from_option mbind result_bind];
    rewrite ?lt_int_int, ?gt_int_int; cbn [mbind result_bind].
  - destruct (Z.ltb_spec z m), (Z.leb_spec m z); try lia; cbn [andb]; [done|].
    f_equal.
    destruct (Z.ltb_spec M z), (Z.leb_spec z M); (done || lia).
  - destruct (Z.ltb_spec z m), (Z.leb_spec m z); (done || lia).
  - f_equal. destruct (Z.ltb_spec M z), (Z.leb_spec z M); (done || lia).
  - done.
Qed.

Lemma score_loop_int score_field min_score max_score data :
  Forall (int_or_absent score_field) data ->
  score_loop score_field min_score max_score data
  = Ok (filter (fun item => score_in score_field min_score max_score item) data).
Proof.
  induction 1 as [|item data Hitem _ IH]; [done|].
  cbn [score_loop]. rewrite (score_keep_int _ _ _ _ Hitem), IH.
  cbn [mbind result_bind]. rewrite filter_cons.
  by destruct (score_in score_field min_score max_score item).
Qed.

Lemma score_keep_raises score_field min_score max_score item e :
  score_keep score_field min_score max_score item = Raise e -> e = TypeError.
Proof.
  unfold score_keep, lt_int, gt_int.
  destruct (item !! score_field) as [v|]; [|done].
  destruct min_score as [m|], max_score as [M|];
    destruct (py_num v) as [[| |]|]; cbn [mbind result_bind];
    repeat case_bool_decide; repeat (destruct negative); cbn [mbind result_bind];
    congruence.
Qed.

Lemma score_keep_no_number score_field min_score max_score item v :
  is_Some min_score \/ is_Some max_score ->
  item !! score_field = Some v -> py_num v = None ->
  score_keep score_field min_score max_score item = Raise TypeError.
Proof.
  intros Hb Hv Hn. unfold score_keep, lt_int, gt_int. rewrite Hv, Hn.
  destruct min_score, max_score; try done. by destruct Hb as [[]|[]].
Qed.

Lemma score_keep_nan score_field min_score max_score item :
  item !! score_field = Some (VFloat FNan) ->
  score_keep score_field min_score max_score item = Ok true.
Proof.
  intros Hv. unfold score_keep, lt_int, gt_int. rewrite Hv.
  by destruct min_score, max_score.
Qed.

Lemma score_loop_sound score_field min_score max_score data out :
  score_loop score_field min_score max_score data = Ok out ->
  sublist out data
  /\ Forall (fun item => score_keep score_field min_score max_score item = Ok true) out
  /\ forall item, item ∈ data ->
       score_keep score_field min_score max_score item = Ok true -> item ∈ out.
Proof.
  revert out. induction data as [|item data IH]; intros out; cbn [score_loop].
  - intros [= <-]. split; [done|]. split; [done|]. by intros item Hin.
  - destruct (score_keep score_field min_score max_score item) as [keep|] eqn:Ek; [|done].
    cbn [mbind result_bind].
    destruct (score_loop score_field min_score max_score data) as [filtered|]; [|done].
    cbn [mbind result_bind]. intros [= <-].
    destruct (IH filtered eq_refl) as (Hsub & Hall & Hin).
    destruct keep.
    + split; [by apply sublist_skip|]. split; [by constructor|].
      intros x [->|Hx]%elem_of_cons Hk; [left|right; by apply Hin].
    + split; [by apply sublist_cons|]. split; [done|].
      intros x [->|Hx]%elem_of_cons Hk; [congruence|by apply Hin].
Qed.

(** X7.  [filter_by_score] on integer scores.  With no bound the batch is
    returned as it is, records without a score included.  With a bound, the
    result is, in the order of the batch, the records that have a score
    within the bounds, both bounds inclusive; a record without the score
    field is dropped. *)
Theorem X7_filter_by_score_window (data : list record) (score_field : string)
    (min_score max_score : option Z) :
  Forall (int_or_absent score_field) data ->
  filter_by_score data score_field min_score max_score
  = Ok (match min_score, max_score with
        | None, None => data
        | _, _ => filter (fun item => score_in score_field min_score max_score item) data
        end).
Proof.
  intros Hint. unfold filter_by_score.
  destruct min_score, max_score; try done; by apply score_loop_int.
Qed.

Lemma X7_filter_by_score_window_witness :
  filter_by_score scored_batch "score" (Some 3%Z) (Some 7%Z)
  = Ok [ {[ "id" := VStr "a"; "score" := VInt 3 ]};
         {[ "id" := VStr "d"; "score" := VInt 7 ]} ].
Proof.
  rewrite (X7_filter_by_score_window scored_batch "score" (Some 3%Z) (Some 7%Z)).
  - reflexivity.
  - unfold scored_batch, int_or_absent.
    repeat (apply Forall_cons; split;
            [first [left; reflexivity | right; eexists; reflexivity]|]).
    apply Forall_nil. exact I.
Defined.

(** X8.  [filter_by_score] raises on a score that is no number.  When a
    bound is given and some record of the batch holds [None], text or a
    [datetime] in the score field, the call raises [TypeError] and returns
    no partial result, wherever the record stands. *)
Theorem X8_filter_by_score_type_error (data : list record) (score_field : string)
    (min_score max_score : option Z) :
  is_Some min_score \/ is_Some max_score ->
  Exists (fun item => exists v, item !! score_field = Some v /\ py_num v = None) data ->
  filter_by_score data score_field min_score max_score = Raise TypeError.
Proof.
  intros Hb Hex.
  assert (score_loop score_field min_score max_score data = Raise TypeError) as Hloop.
  { induction Hex as [item data (v & Hv & Hn)|item data _ IH]; cbn [score_loop].
    - by rewrite (score_keep_no_number _ _ _ _ _ Hb Hv Hn).
    - destruct (score_keep score_field min_score max_score item) as [keep|e] eqn:Ek.
      + cbn [mbind result_bind]. by rewrite IH.
      + by rewrite (score_keep_raises _ _ _ _ _ Ek). }
  unfold filter_by_score. destruct min_score, max_score; try done.
  by destruct Hb as [[]|[]].
Qed.

Lemma X8_filter_by_score_type_error_witness :
  filter_by_score (scored_batch ++ [ {[ "id" := VStr "f"; "score" := VNone ]} ])
    "score" (Some 5%Z) None
  = Raise TypeError.
Proof.
  apply X8_filter_by_score_type_error.
  - left. by eexists.
  - apply Exists_app. right. apply Exists_cons_hd. by exists VNone.
Defined.

(** X9.  A missing score read from a CSV file passes every score window.
    A record whose score is NaN (what the CSV backend returns for a cell
    that is empty) is kept by [filter_by_score] whatever the bounds are:
    both comparisons with NaN are false. *)
Theorem X9_filter_by_score_keeps_nan (data out : list record) (score_field : string)
    (min_score max_score : option Z) (item : record) :
  filter_by_score data score_field min_score max_score = Ok out ->
  item ∈ data ->
  item !! score_field = Some (VFloat FNan) ->
  item ∈ out.
Proof.
  unfold filter_by_score. intros Hf Hin Hnan.
  assert (score_loop score_field min_score max_score data = Ok out -> item ∈ out) as Hloop.
  { intros (_ & _ & Hkeep)%score_loop_sound. apply Hkeep; [done|].
    by apply score_keep_nan. }
  destruct min_score, max_score; try by apply Hloop.
  by injection Hf as <-.
Qed.

Lemma X9_filter_by_score_keeps_nan_witness :
  ({[ "id" := VStr "n"; "score" := CSVStorage.nan ]} : record)
  ∈ [ ({[ "id" := VStr "n"; "score" := CSVStorage.nan ]} : record);
      {[ "id" := VStr "b"; "score" := VInt 10 ]} ].
Proof.
  apply (X9_filter_by_score_keeps_nan
           [ {[ "id" := VStr "a"; "score" := VInt 3 ]};
             {[ "id" := VStr "n"; "score" := CSVStorage.nan ]};
             {[ "id" := VStr "b"; "score" := VInt 10 ]} ]
           _ "score" (Some 5%Z) (Some 100%Z)).
  - vm_compute. reflexivity.
  - apply elem_of_cons. right. left.
  - reflexivity.
Defined.

(** ** [DataCleaner.clean_posts] and [DataCleaner.clean_comments] *)

Lemma distinct_field_cons field x l :
  distinct_field field (x :: l)
  <-> (forall y k1 k2, y ∈ l -> x !! field = Some k1 -> y !! field = Some k2 ->
         py_eq k1 k2 = false)
      /\ distinct_field field l.
Proof.
  split.
  - intros Hd. split.
    + intros y k1 k2 [j Hj]%list_elem_of_lookup_1 Hx Hy.
      destruct (py_eq k1 k2) eqn:E; [|done].
      by specialize (Hd 0 (S j) x y k1 k2 eq_refl Hj Hx Hy E).
    + intros i j r1 r2 k1 k2 Hi Hj H1 H2 E.
      by injection (Hd (S i) (S j) r1 r2 k1 k2 Hi Hj H1 H2 E).
  - intros [Hx Hl] [|i] [|j] r1 r2 k1 k2 Hi Hj H1 H2 E; simpl in Hi, Hj.
    + done.
    + injection Hi as <-.
      by rewrite (Hx r2 k1 k2 (list_elem_of_lookup_2 _ _ _ Hj) H1 H2) in E.
    + injection Hj as <-. rewrite py_eq_sym in E.
      by rewrite (Hx r1 k2 k1 (list_elem_of_lookup_2 _ _ _ Hi) H2 H1) in E.
    + f_equal. by apply (Hl i j r1 r2 k1 k2).
Qed.

Lemma distinct_field_sublist field l1 l2 :
  sublist l1 l2 -> distinct_field field l2 -> distinct_field field l1.
Proof.
  induction 1 as [|x l1 l2 Hsub IH|x l1 l2 Hsub IH].
  - done.
  - intros [Hx Hl]%distinct_field_cons. apply distinct_field_cons.
    split; [|by apply IH].
    intros y k1 k2 Hy. apply Hx. by eapply elem_of_sublist.
  - intros [_ Hl]%distinct_field_cons. by apply IH.
Qed.

Lemma distinct_field_fmap field (g : record -> record) l :
  (forall r, g r !! field = r !! field) ->
  distinct_field field l -> distinct_field field (g <$> l).
Proof.
  intros Hg Hd i j r1 r2 k1 k2. rewrite !list_lookup_fmap.
  destruct (l !! i) as [x1|] eqn:Ei; [|done].
  destruct (l !! j) as [x2|] eqn:Ej; [|done].
  simpl. intros [= <-] [= <-]. rewrite !Hg. by apply Hd.
Qed.

Lemma Forall_sublist {A} (P : A -> Prop) (l1 l2 : list A) :
  sublist l1 l2 -> Forall P l2 -> Forall P l1.
Proof.
  intros Hsub Hall. apply Forall_forall. intros x Hx.
  apply (proj1 (Forall_forall _ _) Hall). by eapply elem_of_sublist.
Qed.

Lemma date_keep_in_window fromisoformat date_field start_date end_date item :
  is_Some start_date \/ is_Some end_date ->
  date_keep fromisoformat date_field start_date end_date item = Ok true ->
  in_window fromisoformat date_field start_date end_date item = true.
Proof.
  intros Hb. unfold date_keep, in_window, date_value.
  destruct (item !! date_field) as [v|]; [|done].
  assert (forall d,
    (below ← match start_date with
             | Some s => lt_date (VDate d) s
             | None => Ok false
             end;
     if (below : bool) then Ok false
     else above ← match end_date with
                  | Some e => gt_date (VDate d) e
                  | None => Ok false
                  end;
          Ok (negb above)) = Ok true ->
    negb (from_option (fun s => Datetime.instant d <? Datetime.instant s)%Z false start_date)
    && negb (from_option (fun e => Datetime.instant e <? Datetime.instant d)%Z false end_date)
    = true) as Hd.
  { intros d. unfold lt_date, gt_date, Datetime.gt, Datetime.lt.
    destruct start_date as [s|], end_date as [e|]; cbn [from_option mbind result_bind];
      repeat match goal with
             | |- context [Bool.eqb ?a ?b] => destruct (Bool.eqb a b)
             end; cbn [mbind result_bind]; try done;
      repeat match goal with
             | |- context [(?a <? ?b)%Z] => destruct (a <? b)%Z
             end; cbn [mbind result_bind negb andb]; congruence. }
  destruct v as [|b|z|f|s|d]; try (by apply Hd);
    try (destruct start_date, end_date; try done; by destruct Hb as [[]|[]]).
  destruct (fromisoformat s) as [d|]; [|done]. apply Hd.
Qed.

Lemma date_loop_sound fromisoformat date_field start_date end_date data out :
  date_loop fromisoformat date_field start_date end_date data = Ok out ->
  sublist out data
  /\ Forall (fun item =>
       date_keep fromisoformat date_field start_date end_date item = Ok true) out.
Proof.
  revert out. induction data as [|item data IH]; intros out; cbn [date_loop].
  - by intros [= <-].
  - destruct (date_keep fromisoformat date_field start_date end_date item)
      as [keep|] eqn:Ek; [|done].
    cbn [mbind result_bind].
    destruct (date_loop fromisoformat date_field start_date end_date data)
      as [filtered|]; [|done].
    cbn [mbind result_bind]. intros [= <-].
    destruct (IH filtered eq_refl) as (Hsub & Hall).
    destruct keep.
    + split; [by apply sublist_skip|by constructor].
    + split; [by apply sublist_cons|done].
Qed.

(** The score is a number that is not below the bound. *)
Lemma score_keep_min score_field m item :
  score_keep score_field (Some m) None item = Ok true ->
  exists v, item !! score_field = Some v /\ lt_int v m = Ok false.
Proof.
  unfold score_keep. destruct (item !! score_field) as [v|]; [|done].
  exists v. split; [done|].
  destruct (lt_int v m) as [[]|]; cbn [mbind result_bind] in *; congruence.
Qed.

Lemma cleaned_nil transform item c : cleaned transform [] item c = c.
Proof. done. Qed.

Section Stages.
Variable fromisoformat : string -> option datetime.

(** The two filter stages the pipelines share. *)
Lemma filter_stages (data kept : list record) (min_score : option Z)
    (start_date end_date : option datetime) :
  (posts ← match start_date, end_date with
           | None, None => Ok data
           | _, _ => filter_by_date fromisoformat data "created_utc" start_date end_date
           end;
   match min_score with
   | Some m => filter_by_score posts "score" (Some m) None
   | None => Ok posts
   end) = Ok kept ->
  sublist kept data
  /\ (is_Some start_date \/ is_Some end_date ->
      Forall (fun r => in_window fromisoformat "created_utc" start_date end_date r = true)
        kept)
  /\ (forall m, min_score = Some m ->
      Forall (fun r => exists v, r !! "score" = Some v /\ lt_int v m = Ok false) kept).
Proof.
  intros H.
  assert (exists dated,
    sublist dated data
    /\ (is_Some start_date \/ is_Some end_date ->
        Forall (fun r => in_window fromisoformat "created_utc" start_date end_date r = true)
          dated)
    /\ match min_score with
       | Some m => filter_by_score dated "score" (Some m) None
       | None => Ok dated
       end = Ok kept) as (dated & Hsub & Hwin & Hscore).
  { assert (forall l, date_loop fromisoformat "created_utc" start_date end_date data = Ok l ->
              sublist l data
              /\ (is_Some start_date \/ is_Some end_date ->
                  Forall (fun r => in_window fromisoformat "created_utc"
                                     start_date end_date r = true) l)) as Hloop.
    { intros l (Hs & Hall)%date_loop_sound. split; [done|]. intros Hb.
      eapply Forall_impl; [exact Hall|]. intros r. by apply date_keep_in_window. }
    unfold filter_by_date in H.
    destruct start_date as [s|], end_date as [e|];
      match type of H with
      | mbind _ (Ok ?d) = _ =>
          exists d; split; [done|]; split; [by intros [[]|[]]|done]
      | mbind _ ?d = _ =>
          destruct d as [l|] eqn:El; [|done];
          exists l; destruct (Hloop l eq_refl); done
      end. }
  destruct min_score as [m|].
  - unfold filter_by_score in Hscore.
    apply score_loop_sound in Hscore as (Hs & Hall & _).
    split; [by etrans|]. split.
    + intros Hb. eapply Forall_sublist; [exact Hs|]. by apply Hwin.
    + intros m' [= <-]. eapply Forall_impl; [exact Hall|].
      intros r. apply score_keep_min.
  - injection Hscore as <-. split; [done|]. split; [done|]. by intros m.
Qed.

End Stages.

Lemma in_window_field fromisoformat date_field start_date end_date (r item : record) :
  r !! date_field = item !! date_field ->
  in_window fromisoformat date_field start_date end_date r
  = in_window fromisoformat date_field start_date end_date item.
Proof. intros E. unfold in_window, date_value. by rewrite E. Qed.

(** What the two pipelines guarantee, from their shared stages: [out] is the
    cleaned content of [kept], which the filters let through. *)
Lemma pipeline_guarantees fromisoformat transform (data kept : list record)
    (text_fields : list string) (min_score : option Z)
    (start_date end_date : option datetime) :
  "id" ∉ text_fields -> "score" ∉ text_fields -> "created_utc" ∉ text_fields ->
  sublist kept (remove_duplicates data "id") ->
  (is_Some start_date \/ is_Some end_date ->
   Forall (fun r => in_window fromisoformat "created_utc" start_date end_date r = true)
     kept) ->
  (forall m, min_score = Some m ->
   Forall (fun r => exists v, r !! "score" = Some v /\ lt_int v m = Ok false) kept) ->
  let out := clean_text_fields_content transform kept text_fields in
  length out <= length data
  /\ Forall (fun r => is_Some (r !! "id")) out
  /\ distinct_field "id" out
  /\ (is_Some start_date \/ is_Some end_date ->
      Forall (fun r => in_window fromisoformat "created_utc" start_date end_date r = true)
        out)
  /\ (forall m, min_score = Some m ->
      Forall (fun r => exists v, r !! "score" = Some v /\ lt_int v m = Ok false) out)
  /\ Forall (fun r => exists item,
       item ∈ data /\ forall field, field ∉ text_fields -> r !! field = item !! field) out.
Proof.
  intros Hid Hscore Hdate Hsub Hwin Hmin out.
  assert (forall item field, field ∉ text_fields ->
            cleaned transform text_fields item item !! field = item !! field) as Hkeep.
  { intros item field Hf. apply cleaned_frame. by left. }
  unfold out, clean_text_fields_content. split; [|split; [|split; [|split; [|split]]]].
  - rewrite length_fmap. etrans; [by apply sublist_length|].
    apply remove_duplicates_length.
  - apply Forall_fmap. eapply Forall_sublist; [exact Hsub|].
    eapply Forall_impl; [apply remove_duplicates_has_key|].
    intros r Hr. simpl. by rewrite Hkeep.
  - apply distinct_field_fmap; [intros r; by apply Hkeep|].
    eapply distinct_field_sublist; [exact Hsub|].
    intros i j r1 r2 k1 k2. apply remove_duplicates_unique.
  - intros Hb. apply Forall_fmap. eapply Forall_impl; [by apply Hwin|].
    intros r Hr. simpl in Hr |- *.
    rewrite (in_window_field _ _ _ _ _ r); [exact Hr|]. by apply Hkeep.
  - intros m Hm. apply Forall_fmap. eapply Forall_impl; [by apply Hmin|].
    intros r (v & Hv & Hlt). simpl. exists v. by rewrite Hkeep.
  - apply Forall_fmap. apply Forall_forall. intros item Hitem. simpl.
    exists item. split; [|intros field Hf; by apply Hkeep].
    pose proof (elem_of_sublist _ _ _ Hitem Hsub) as Hin.
    apply remove_duplicates_elem in Hin as (pre & suf & k & -> & _).
    apply elem_of_app. right. left.
Qed.

Lemma clean_text_fields_content_nil transform (data : list record) :
  clean_text_fields_content transform data [] = data.
Proof.
  unfold clean_text_fields_content. induction data as [|item data IH]; [done|].
  cbn [fmap list_fmap] in *. by rewrite IH.
Qed.

(** X10.  What [clean_posts] guarantees when it removes duplicates.  If the
    call returns, the result is not longer than the batch; every post of it
    has an [id] and no two have equal ones; with a date bound every post
    lies in the inclusive window; with a minimum score every post has a
    score that is not below it; and every post is a post of the batch in
    all fields but [title] and [selftext]. *)
Theorem X10_clean_posts_guarantees (fromisoformat : string -> option datetime)
    (transform : string -> string) (posts out : list record)
    (clean_title clean_selftext : bool) (min_score : option Z)
    (start_date end_date : option datetime) :
  clean_posts fromisoformat transform posts true clean_title clean_selftext
    min_score start_date end_date = Ok out ->
  length out <= length posts
  /\ Forall (fun r => is_Some (r !! "id")) out
  /\ distinct_field "id" out
  /\ (is_Some start_date \/ is_Some end_date ->
      Forall (fun r => in_window fromisoformat "created_utc" start_date end_date r = true)
        out)
  /\ (forall m, min_score = Some m ->
      Forall (fun r => exists v, r !! "score" = Some v /\ lt_int v m = Ok false) out)
  /\ Forall (fun r => exists item,
       item ∈ posts
       /\ forall field, field <> "title" -> field <> "selftext" ->
            r !! field = item !! field) out.
Proof.
  unfold clean_posts. intros H.
  match type of H with mbind _ ?X = _ => destruct X as [dated|] eqn:Hd end; [|done].
  cbn [mbind result_bind] in H.
  match type of H with mbind _ ?Y = _ => destruct Y as [kept|] eqn:Hk end; [|done].
  cbn [mbind result_bind] in H. injection H as <-.
  pose proof (filter_stages fromisoformat (remove_duplicates posts "id") kept
                min_score start_date end_date) as Hst.
  rewrite Hd in Hst. destruct (Hst Hk) as (Hsub & Hwin & Hmin). clear Hst.
  set (text_fields := (if clean_title then ["title"] else [])
                      ++ (if clean_selftext then ["selftext"] else [])).
  assert (match text_fields with
          | [] => kept
          | _ => clean_text_fields_content transform kept text_fields
          end = clean_text_fields_content transform kept text_fields) as ->.
  { destruct text_fields; [by rewrite clean_text_fields_content_nil|done]. }
  assert (forall field, field ∈ text_fields -> field = "title" \/ field = "selftext") as Htf.
  { intros field. unfold text_fields. destruct clean_title, clean_selftext; set_solver. }
  destruct (pipeline_guarantees fromisoformat transform posts kept text_fields
              min_score start_date end_date) as (H1 & H2 & H3 & H4 & H5 & H6);
    [by intros [|]%Htf..|done|done|done|].
  repeat (split; [done|]).
  eapply Forall_impl; [exact H6|]. intros r (item & Hin & Hf).
  exists item. split; [done|]. intros field Ht Hs. apply Hf.
  intros [|]%Htf; done.
Qed.

Lemma X10_clean_posts_guarantees_witness :
  let out : list record :=
    [ {[ "id" := VStr "a"; "title" := VStr "hello again"; "score" := VInt 12;
         "created_utc" := VDate evening ]};
      {[ "id" := VStr "b"; "title" := VStr "second"; "score" := VInt 10;
         "created_utc" := VStr "2024-01-15T12:00:00" ]} ] in
  length out <= length scraped_batch
  /\ Forall (fun r => is_Some (r !! "id")) out
  /\ distinct_field "id" out
  /\ (is_Some (Some noon) \/ is_Some (Some evening) ->
      Forall (fun r => in_window fromisoformat_seconds "created_utc"
                         (Some noon) (Some evening) r = true) out)
  /\ (forall m, Some 5%Z = Some m ->
      Forall (fun r => exists v, r !! "score" = Some v /\ lt_int v m = Ok false) out)
  /\ Forall (fun r => exists item,
       item ∈ scraped_batch
       /\ forall field, field <> "title" -> field <> "selftext" ->
            r !! field = item !! field) out.
Proof.
  intros out.
  apply (X10_clean_posts_guarantees fromisoformat_seconds lower scraped_batch out
           true true (Some 5%Z) (Some noon) (Some evening)).
  vm_compute. reflexivity.
Defined.

(** X11.  What [clean_comments] guarantees when it removes duplicates: the
    same as [clean_posts], the only field it rewrites being [body]. *)
Theorem X11_clean_comments_guarantees (fromisoformat : string -> option datetime)
    (transform : string -> string) (comments out : list record)
    (clean_body : bool) (min_score : option Z)
    (start_date end_date : option datetime) :
  clean_comments fromisoformat transform comments true clean_body
    min_score start_date end_date = Ok out ->
  length out <= length comments
  /\ Forall (fun r => is_Some (r !! "id")) out
  /\ distinct_field "id" out
  /\ (is_Some start_date \/ is_Some end_date ->
      Forall (fun r => in_window fromisoformat "created_utc" start_date end_date r = true)
        out)
  /\ (forall m, min_score = Some m ->
      Forall (fun r => exists v, r !! "score" = Some v /\ lt_int v m = Ok false) out)
  /\ Forall (fun r => exists item,
       item ∈ comments /\ forall field, field <> "body" -> r !! field = item !! field) out.
Proof.
  unfold clean_comments. intros H.
  match type of H with mbind _ ?X = _ => destruct X as [dated|] eqn:Hd end; [|done].
  cbn [mbind result_bind] in H.
  match type of H with mbind _ ?Y = _ => destruct Y as [kept|] eqn:Hk end; [|done].
  cbn [mbind result_bind] in H. injection H as <-.
  pose proof (filter_stages fromisoformat (remove_duplicates comments "id") kept
                min_score start_date end_date) as Hst.
  rewrite Hd in Hst. destruct (Hst Hk) as (Hsub & Hwin & Hmin). clear Hst.
  set (text_fields := if clean_body then ["body"] else []).
  assert ((if clean_body then clean_text_fields_content transform kept ["body"] else kept)
          = clean_text_fields_content transform kept text_fields) as ->.
  { unfold text_fields. destruct clean_body; [done|].
    by rewrite clean_text_fields_content_nil. }
  assert (forall field, field ∈ text_fields -> field = "body") as Htf.
  { intros field. unfold text_fields. destruct clean_body; set_solver. }
  destruct (pipeline_guarantees fromisoformat transform comments kept text_fields
              min_score start_date end_date) as (H1 & H2 & H3 & H4 & H5 & H6);
    [by intros ?%Htf..|done|done|done|].
  repeat (split; [done|]).
  eapply Forall_impl; [exact H6|]. intros r (item & Hin & Hf).
  exists item. split; [done|]. intros field Hb. apply Hf. by intros ?%Htf.
Qed.

Lemma X11_clean_comments_guarantees_witness :
  let out : list record :=
    [ {[ "id" := VStr "k1"; "body" := VStr "nice post"; "score" := VInt 6;
         "created_utc" := VDate evening ]} ] in
  length out <= length comment_batch
  /\ Forall (fun r => is_Some (r !! "id")) out
  /\ distinct_field "id" out
  /\ (is_Some (Some noon) \/ is_Some (None : option datetime) ->
      Forall (fun r => in_window fromisoformat_seconds "created_utc"
                         (Some noon) None r = true) out)
  /\ (forall m, Some 5%Z = Some m ->
      Forall (fun r => exists v, r !! "score" = Some v /\ lt_int v m = Ok false) out)
  /\ Forall (fun r => exists item,
       item ∈ comment_batch /\ forall field, field <> "body" -> r !! field = item !! field)
       out.
Proof.
  intros out.
  apply (X11_clean_comments_guarantees fromisoformat_seconds lower comment_batch out
           true (Some 5%Z) (Some noon) None).
  vm_compute. reflexivity.
Defined.

(** * Upsert and round trip *)

Lemma typed_accepts c v : typed c v = true -> accepts c v = true.
Proof.
  destruct c as [n ty nullable]. unfold typed, accepts.
  cbn [SQLiteStorage.type SQLiteStorage.nullable].
  assert (forall w, w <> VNone ->
            nullable || negb (bool_decide (w = VNone)) = true) as Hnn.
  { intros w Hw. rewrite (bool_decide_eq_false_2 _ Hw). apply orb_true_r. }
  destruct v as [|b|z|[| |q]|s|d]; try done.
  - intros ->. by destruct ty.
  - destruct ty; try done. intros _. rewrite Hnn by done.
    destruct b; vm_compute; reflexivity.
  - destruct ty; try done. intros _. rewrite Hnn by done.
    by rewrite bool_decide_eq_true_2.
  - destruct ty; try done. intros _. rewrite Hnn by done.
    by rewrite bool_decide_eq_true_2.
  - destruct ty; try done; intros _; rewrite Hnn by done;
      by rewrite bool_decide_eq_true_2.
  - destruct ty; try done. intros Hn. rewrite Hnn by done.
    rewrite bool_decide_eq_true_2; [done|].
    destruct d as [y mo da h mi se us off].
    unfold Datetime.aware in Hn. cbn in Hn |- *. by destruct off.
Qed.

Lemma typed_record_valid cols p : typed_record cols p = true -> valid_insert cols p = true.
Proof.
  unfold typed_record, valid_insert. intros [Hd Hall]%andb_true_iff.
  rewrite Hd. cbn [andb]. rewrite forallb_forall in Hall. apply forallb_forall.
  intros c Hc. by apply typed_accepts, Hall.
Qed.



(** ** Saving a post whose identifier is stored *)

(** C1, as stated, fails for the CSV backend on an identifier that is all
    digits.  The first save writes the identifier as text; [read_csv] reads
    the column back as integers; the second save compares the integer with
    the text of the new record, finds them different and keeps both rows.
    The file then holds two posts under the identifier, and [get_posts]
    filtered by the identifier returns none. *)
Lemma C1_csv_digit_id_kept_twice :
  (st ← digit_id_saved_twice;
   CSVStorage.get_posts Pandas.read_csv st (by_id "123")) = Ok []
  /\ (st ← digit_id_saved_twice;
      posts ← CSVStorage.get_posts Pandas.read_csv st None;
      Ok (ids_and_scores posts))
     = Ok [(VInt 123, VInt 5); (VInt 123, VInt 6)].
Proof. split; reflexivity. Qed.




(** ** Round trip *)

(** C4, as stated, fails for the CSV backend: a post saved to a new
    directory comes back with NaN for its empty self-text and for its
    missing flair, and with its timestamp as text with a space between date
    and time. *)
Lemma C4_csv_round_trip_fails :
  CSVStorage.save_posts Pandas.read_csv CSVStorage.init [full_post "a1" 5]
  = Ok {| CSVStorage.posts_file := Some (CSVStorage.DataFrame [full_post "a1" 5]);
          CSVStorage.comments_file := None |}
  /\ CSVStorage.get_posts Pandas.read_csv
       {| CSVStorage.posts_file := Some (CSVStorage.DataFrame [full_post "a1" 5]);
          CSVStorage.comments_file := None |} (by_id "a1")
     = Ok [full_post_from_csv]
  /\ file_form (full_post "a1" 5) !! "flair" = Some VNone
  /\ full_post_from_csv !! "flair" = Some CSVStorage.nan
  /\ ~ round_trips_csv Pandas.read_csv (full_post "a1" 5) "a1".
Proof.
  assert (CSVStorage.get_posts Pandas.read_csv
            {| CSVStorage.posts_file := Some (CSVStorage.DataFrame [full_post "a1" 5]);
               CSVStorage.comments_file := None |} (by_id "a1")
          = Ok [full_post_from_csv]) as Hget by reflexivity.
  split; [reflexivity|]. split; [exact Hget|]. split; [reflexivity|].
  split; [reflexivity|].
  intros (st & Hsave & Hback).
  assert (CSVStorage.save_posts Pandas.read_csv CSVStorage.init [full_post "a1" 5]
          = Ok {| CSVStorage.posts_file := Some (CSVStorage.DataFrame [full_post "a1" 5]);
                  CSVStorage.comments_file := None |}) as E by reflexivity.
  rewrite E in Hsave. injection Hsave as <-. rewrite Hget in Hback.
  apply (f_equal (fun r => match r with
                           | Ok [post] => (post : record) !! "flair"
                           | _ => None
                           end)) in Hback.
  vm_compute in Hback. discriminate Hback.
Qed.

(** C4, amended.  JSON backend, identifiers being text: after a batch is
    saved, [get_posts] filtered by the identifier of a record of the batch
    returns exactly one record, the last record of the batch with that
    identifier in its file form: every field with its value, a [datetime] as
    its ISO-8601 text.  SQLite backend: for a table with unique identifiers
    and a post within the schema whose values have their columns' types
    (text, 64-bit integers, finite floats, booleans, a naive [datetime];
    [None] only in a nullable column), after [save_posts([post])]
    [get_posts] filtered by the identifier returns exactly one record, which
    has every field of the post with the same value, the timestamp as the
    same [datetime].  CSV backend: the round trip does not hold;
    [full_post "a1" 5] comes back with NaN for its self-text and flair and
    with its timestamp as the text [2024-01-15 12:00:00]. *)
Theorem C4_round_trip :
  (forall (st : JSONStorage.t) (pre suf : list record) (p : record) (sid : string),
      Forall has_string_id (JSONStorage.posts_file st ++ pre ++ p :: suf) ->
      p !! "id" = Some (VStr sid) ->
      Forall (fun r => r !! "id" <> Some (VStr sid)) suf ->
      exists st',
        JSONStorage.save_posts st (pre ++ p :: suf) = Ok st'
        /\ JSONStorage.get_posts st' (by_id sid) = [file_form p]
        /\ forall c,
             file_form p !! c
             = match p !! c with
               | Some (VDate d) => Some (VStr (Datetime.isoformat d))
               | other => other
               end)
  /\ (forall (s : SQLiteStorage.session) (p : record) (sid : string),
      pk_unique (SQLiteStorage.posts (SQLiteStorage.txn s)) ->
      p !! "id" = Some (VStr sid) ->
      typed_record SQLiteStorage.Post p = true ->
      exists s' row,
        SQLiteStorage.save_posts s [p] = (s', Ok tt)
        /\ SQLiteStorage.get_posts s' (by_id sid) = [row]
        /\ forall c v, p !! c = Some v -> row !! c = Some v)
  /\ (exists st,
        CSVStorage.save_posts Pandas.read_csv CSVStorage.init [full_post "a1" 5] = Ok st
        /\ CSVStorage.get_posts Pandas.read_csv st (by_id "a1") = Ok [full_post_from_csv]
        /\ full_post_from_csv !! "selftext" = Some CSVStorage.nan
        /\ full_post_from_csv !! "flair" = Some CSVStorage.nan
        /\ full_post_from_csv !! "created_utc" = Some (VStr "2024-01-15 12:00:00")).
Proof.
  split; [|split].
  - intros st pre suf p sid Hids Hid Hsuf.
    destruct (json_upsert _ pre p suf sid Hids Hid Hsuf) as (f & Hsave & Hget).
    eexists. unfold JSONStorage.save_posts. rewrite Hsave. cbn [mbind result_bind].
    split; [reflexivity|]. split; [exact Hget|].
    intros c. unfold file_form, JSONStorage.json_record. rewrite lookup_fmap.
    by destruct (p !! c) as [[]|].
  - intros s p sid Hpk Hid Htyped.
    assert ("id" ∈ SQLiteStorage.names SQLiteStorage.Post) as Hcol
      by (vm_compute; set_solver).
    destruct (sqlite_roundtrip SQLiteStorage.Post _ p sid Hcol Hpk Hid
                (typed_record_valid _ _ Htyped))
      as (t' & row & Hsave & Hget & Hrow & Hpk').
    eexists _, row. rewrite save_posts_rows, Hsave.
    split; [reflexivity|]. split; [exact Hget|exact Hrow].
  - exists {| CSVStorage.posts_file := Some (CSVStorage.DataFrame [full_post "a1" 5]);
             CSVStorage.comments_file := None |}.
    repeat split; reflexivity.
Qed.

Lemma C4_round_trip_witness :
  exists s' row,
    SQLiteStorage.save_posts two_posts_db [full_post "c3" 9] = (s', Ok tt)
    /\ SQLiteStorage.get_posts s' (by_id "c3") = [row]
    /\ row !! "score" = Some (VInt 9)
    /\ row !! "created_utc" = Some (VDate noon).
Proof.
  destruct C4_round_trip as (_ & Hsql & _).
  destruct (Hsql two_posts_db (full_post "c3" 9) "c3")
    as (s' & row & Hsave & Hget & Hrow).
  - apply two_posts_db_pk_unique.
  - reflexivity.
  - reflexivity.
  - exists s', row. split; [exact Hsave|]. split; [exact Hget|].
    split; apply Hrow; reflexivity.
Defined.

(** ** Round trip of a comment *)

(** X4.  Round trip of a comment through the SQLite backend.  For a comments
    table with unique identifiers and a comment within the schema whose
    values have their columns' types: [save_comments] succeeds, whether the
    identifier was stored or not; [get_comments] filtered by the identifier
    then returns exactly one record, which has every field of the comment
    with the same value; the identifiers stay unique and the posts table is
    as before. *)
Theorem X4_sqlite_comment_round_trip (s : SQLiteStorage.session) (c : record)
    (sid : string) :
  pk_unique (SQLiteStorage.comments (SQLiteStorage.txn s)) ->
  c !! "id" = Some (VStr sid) ->
  typed_record SQLiteStorage.Comment c = true ->
  exists s' row,
    SQLiteStorage.save_comments s [c] = (s', Ok tt)
    /\ SQLiteStorage.get_comments s' (by_id sid) = [row]
    /\ (forall f v, c !! f = Some v -> row !! f = Some v)
    /\ pk_unique (SQLiteStorage.comments (SQLiteStorage.txn s'))
    /\ SQLiteStorage.posts (SQLiteStorage.txn s')
       = SQLiteStorage.posts (SQLiteStorage.txn s).
Proof.
  intros Hpk Hid Htyped.
  assert ("id" ∈ SQLiteStorage.names SQLiteStorage.Comment) as Hcol
    by (vm_compute; set_solver).
  destruct (sqlite_roundtrip SQLiteStorage.Comment _ c sid Hcol Hpk Hid
              (typed_record_valid _ _ Htyped))
    as (t' & row & Hsave & Hget & Hrow & Hpk').
  eexists _, row. rewrite save_comments_rows, Hsave.
  split; [reflexivity|]. split; [exact Hget|]. split; [exact Hrow|].
  split; [exact Hpk'|reflexivity].
Qed.

Lemma X4_sqlite_comment_round_trip_witness :
  exists s' row,
    SQLiteStorage.save_comments two_posts_db [full_comment "k1" "a1"] = (s', Ok tt)
    /\ SQLiteStorage.get_comments s' (by_id "k1") = [row]
    /\ (forall f v, full_comment "k1" "a1" !! f = Some v -> row !! f = Some v)
    /\ pk_unique (SQLiteStorage.comments (SQLiteStorage.txn s'))
    /\ SQLiteStorage.posts (SQLiteStorage.txn s')
       = SQLiteStorage.posts (SQLiteStorage.txn two_posts_db).
Proof.
  apply (X4_sqlite_comment_round_trip two_posts_db (full_comment "k1" "a1") "k1").
  - intros i j r1 r2 Hi. by destruct i.
  - reflexivity.
  - reflexivity.
Defined.
